(** * Full Fuel TV: the authentication and admin-authorisation flow

    A shallow embedding of [server/controllers/auth.controller.ts] and of the
    admin content-management handlers of [server/routes.ts].

    Every handler is an [async] function that threads a database, two
    libraries with failure ([jsonwebtoken], [google-auth-library]), a source
    of randomness and the console.  It is embedded as a computation in a
    state-and-exception monad over a [World]; a JavaScript exception keeps
    the side effects that happened before it was thrown.  Every call that
    leaves the handler (database, token codec, verifier, hasher) is recorded
    in the world's [trace], so that "this call is never made" is a statement
    about the trace. *)

From Stdlib Require Import String Ascii List Bool Arith Lia DecimalString.
Import ListNotations.
Open Scope string_scope.

Set Implicit Arguments.

(* ===================================================================== *)
(** ** JavaScript values and string primitives *)
(* ===================================================================== *)

Module JS.

(** [!s] on a value that is a string or [undefined]: [undefined] and the
    empty string are falsy. *)
Definition truthy (v : option string) : bool :=
  match v with
  | Some s => negb (s =? "")
  | None => false
  end.

(** [a || b] on such values. *)
Definition or_else (a : option string) (b : string) : string :=
  match a with
  | Some s => if s =? "" then b else s
  | None => b
  end.

(** [s.split(sep)] for a one-character separator.  The result is never
    empty: [''.split('.')] is [['']]. *)
Fixpoint split (sep : ascii) (s : string) : list string :=
  match s with
  | EmptyString => [EmptyString]
  | String c rest =>
      if Ascii.eqb c sep then EmptyString :: split sep rest
      else match split sep rest with
           | [] => [String c EmptyString]
           | h :: t => String c h :: t
           end
  end.

(** [s.startsWith(p)] *)
Definition startsWith (p s : string) : bool := String.prefix p s.

(** [xs[i]], [undefined] out of range. *)
Definition index {A} (xs : list A) (i : nat) : option A := nth_error xs i.

(** [s.split(sep)[0]], which always exists. *)
Definition first (xs : list string) : string := hd EmptyString xs.

(** The string behind a value already tested truthy. *)
Definition str (v : option string) : string :=
  match v with
  | Some s => s
  | None => EmptyString
  end.

End JS.

(* ===================================================================== *)
(** ** Data model *)
(* ===================================================================== *)

(** [role: 'user' | 'admin'] of [IUser]. *)
Inductive Role := RoleUser | RoleAdmin.

Definition Role_eqb (a b : Role) : bool :=
  match a, b with
  | RoleUser, RoleUser | RoleAdmin, RoleAdmin => true
  | _, _ => false
  end.

(** A user document as the storage layer returns it ([IUser]). *)
Record User := mkUser {
  id : string;
  username : option string;
  name : string;
  email : string;
  password : option string;
  profilePicture : option string;
  role : Role;
  bio : option string;
  favoriteArtists : list string;
  purchasedTickets : list string
}.

(** The object literal typed [InsertUser] built by the controllers. *)
Record InsertUser := mkInsertUser {
  iu_name : string;
  iu_email : string;
  iu_username : string;
  iu_password : string;
  iu_role : Role;
  iu_favoriteArtists : list string;
  iu_purchasedTickets : list string
}.

(** [{ ...user, password: undefined }] *)
Definition withoutPassword (u : User) : User :=
  mkUser (id u) (username u) (name u) (email u) None (profilePicture u)
         (role u) (bio u) (favoriteArtists u) (purchasedTickets u).

(** The claims signed into a session token: [{ id, name, email }]. *)
Record Claims := mkClaims {
  c_id : string;
  c_name : string;
  c_email : string
}.

(** Payload of a Google ID token, verified or merely decoded. *)
Record TokenPayload := mkPayload {
  aud : string;
  sub : string;
  p_email : option string;
  p_name : option string
}.

(** Request bodies.  A field that the client left out is [None]. *)
Record RegisterBody := mkRegisterBody {
  rb_name : option string;
  rb_email : option string;
  rb_password : option string;
  rb_username : option string
}.

Record LoginBody := mkLoginBody {
  lb_email : option string;
  lb_password : option string
}.

Record GoogleBody := mkGoogleBody { gb_token : option string }.

(** What [res.status(n).json(...)] sends. *)
Inductive Body :=
| BError (error : string)                 (* { error } *)
| BMessage (message : string)             (* { message } *)
| BAuth (token : string) (user : User)    (* { token, user } *)
| BUser (user : User)                     (* { user } *)
| BJson (doc : string)                    (* a content document *)
| BEmpty.                                 (* .end() *)

Record Response := mkResponse { status : nat; body : Body }.

(** [res.json(x)] without [res.status] answers 200. *)
Definition json (b : Body) : Response := mkResponse 200 b.

(** The user object of a success response, if the response has one. *)
Definition response_user (r : Response) : option User :=
  match body r with
  | BAuth _ u | BUser u => Some u
  | _ => None
  end.

Definition response_token (r : Response) : option string :=
  match body r with
  | BAuth t _ => Some t
  | _ => None
  end.

(** The content collections behind the admin routes and the three
    mutations each one has. *)
Inductive Collection := Videos | Events | Mixes | Gallery.
Inductive Mutation := Create | Update | Delete.

(* ===================================================================== *)
(** ** Effects *)
(* ===================================================================== *)

Inductive Exn :=
| StoreError (msg : string)      (* thrown by the storage layer *)
| JsonWebTokenError              (* jwt.verify *)
| VerifyError (msg : string)     (* client.verifyIdToken *)
| SyntaxError                    (* JSON.parse *)
| TypeError.                     (* destructuring [undefined] *)

Inductive Result (A : Type) :=
| Ok (a : A)
| Throw (e : Exn).
Arguments Throw {A} e.

(** Calls that leave the handler. *)
Inductive Call :=
| CGetUser (uid : string)
| CGetUserByEmail (e : string)
| CGetUserByUsername (u : string)
| CCreateUser (nu : InsertUser)
| CMutate (c : Collection) (m : Mutation)
| CBcryptHash (data : string)
| CBcryptCompare (data hash : string)
| CJwtSign (c : Claims)
| CJwtVerify (tok : option string)
| CVerifyIdToken (idToken : string) (audience : option string).

Section Effects.

(** The database behind [storage]. *)
Variable St : Type.

Record World := mkWorld {
  store : St;
  clock : nat;            (* Date.now() *)
  entropy : nat;          (* position in the random stream *)
  console : list string;  (* console.error *)
  trace : list Call
}.

Definition M (A : Type) : Type := World -> Result A * World.

Definition ret {A} (a : A) : M A := fun w => (Ok a, w).

Definition throw {A} (e : Exn) : M A := fun w => (Throw e, w).

Definition bind {A B} (m : M A) (k : A -> M B) : M B :=
  fun w =>
    match m w with
    | (Ok a, w') => k a w'
    | (Throw e, w') => (Throw e, w')
    end.

(** [try { m } catch (e) { h e }] *)
Definition try_catch {A} (m : M A) (h : Exn -> M A) : M A :=
  fun w =>
    match m w with
    | (Ok a, w') => (Ok a, w')
    | (Throw e, w') => h e w'
    end.

Definition record (c : Call) : M unit :=
  fun w => (Ok tt, mkWorld (store w) (clock w) (entropy w) (console w)
                           (trace w ++ [c])).

Definition console_error (msg : string) : M unit :=
  fun w => (Ok tt, mkWorld (store w) (clock w) (entropy w)
                           (console w ++ [msg]) (trace w)).

(** One draw from the random stream. *)
Definition random : M nat :=
  fun w => (Ok (entropy w), mkWorld (store w) (clock w) (S (entropy w))
                                    (console w) (trace w)).

Definition now : M nat := fun w => (Ok (clock w), w).

(** [await storage.op(...)]: run a storage operation on the database. *)
Definition on_store {A} (op : St -> Result A * St) : M A :=
  fun w =>
    let (r, s') := op (store w) in
    (r, mkWorld s' (clock w) (entropy w) (console w) (trace w)).

End Effects.

Arguments ret {St A} a.
Arguments throw {St A} e.
Arguments record {St} c.
Arguments console_error {St} msg.
Arguments random {St}.
Arguments now {St}.

Declare Scope js_scope.
Delimit Scope js_scope with js.
Notation "x <- m ;; k" := (bind m (fun x => k))
  (at level 61, m at next level, right associativity) : js_scope.
Notation "m ;;; k" := (bind m (fun _ => k))
  (at level 61, right associativity) : js_scope.
Open Scope js_scope.

(* ===================================================================== *)
(** ** The collaborators: libraries and the storage layer *)
(* ===================================================================== *)

(** The pure cores of the libraries the controllers import, and the process
    environment.  [None] stands for a thrown exception. *)
Class Libs := {
  (* process.env.JWT_SECRET *)
  env_JWT_SECRET : option string;
  (* bcryptjs: salt from (rounds, random draw); hash from (data, salt) *)
  bcrypt_salt : nat -> nat -> string;
  bcrypt_digest : string -> string -> string;
  bcrypt_check : string -> string -> bool;
  (* jsonwebtoken: (claims, secret, expiresIn, now) and (token, secret, now) *)
  jwt_encode : Claims -> string -> string -> nat -> string;
  jwt_decode : string -> string -> nat -> option Claims;
  (* google-auth-library: signature against Google's certificates, issuer
     and expiry of an ID token, giving its payload *)
  google_certs_check : string -> nat -> option TokenPayload;
  (* Math.random().toString() on a random draw *)
  random_toString : nat -> string;
  (* JSON.parse(Buffer.from(seg, 'base64').toString('utf8')):
     [None] when JSON.parse throws, [Some None] for a falsy value,
     [Some (Some p)] for an object read through the fields of [p] *)
  base64_json : string -> option (option TokenPayload)
}.

(** The storage layer ([server/storage.ts]) as the controllers call it.
    Each operation may throw and may change the database. *)
Class Storage (St : Type) := {
  db_getUser : string -> St -> Result (option User) * St;
  db_getUserByEmail : string -> St -> Result (option User) * St;
  db_getUserByUsername : string -> St -> Result (option User) * St;
  db_createUser : InsertUser -> St -> Result User * St;
  (* createVideo / createEvent / createMix / createGalleryItem *)
  db_create : Collection -> string -> St -> Result string * St;
  (* updateVideo / ... : [undefined] when the id is unknown *)
  db_update : Collection -> string -> string -> St -> Result (option string) * St;
  (* deleteVideo / ... *)
  db_delete : Collection -> string -> St -> Result bool * St
}.

Section Calls.

Context {L : Libs} {St : Type} {S : Storage St}.

(** [const JWT_SECRET = process.env.JWT_SECRET || 'full-fuel-jwt-secret'] *)
Definition JWT_SECRET : string :=
  JS.or_else env_JWT_SECRET "full-fuel-jwt-secret".

Definition GOOGLE_CLIENT_ID : string :=
  "459807581006-5kb6rg9s1dj6klua4icma8raoi0la55c.apps.googleusercontent.com".

(** *** storage *)

Definition getUser (uid : string) : M St (option User) :=
  record (CGetUser uid) ;;; on_store (db_getUser uid).

Definition getUserByEmail (e : string) : M St (option User) :=
  record (CGetUserByEmail e) ;;; on_store (db_getUserByEmail e).

Definition getUserByUsername (u : string) : M St (option User) :=
  record (CGetUserByUsername u) ;;; on_store (db_getUserByUsername u).

Definition createUser (nu : InsertUser) : M St User :=
  record (CCreateUser nu) ;;; on_store (db_createUser nu).

Definition createDoc (c : Collection) (doc : string) : M St string :=
  record (CMutate c Create) ;;; on_store (db_create c doc).

Definition updateDoc (c : Collection) (i doc : string) : M St (option string) :=
  record (CMutate c Update) ;;; on_store (db_update c i doc).

Definition deleteDoc (c : Collection) (i : string) : M St bool :=
  record (CMutate c Delete) ;;; on_store (db_delete c i).

(** *** bcryptjs *)

(** [bcrypt.genSalt(rounds)] *)
Definition bcrypt_genSalt (rounds : nat) : M St string :=
  r <- random ;; ret (bcrypt_salt rounds r).

(** [bcrypt.hash(data, salt)] with a salt string *)
Definition bcrypt_hash (data salt : string) : M St string :=
  record (CBcryptHash data) ;;; ret (bcrypt_digest data salt).

(** [bcrypt.hash(data, rounds)] with a number: the salt is generated. *)
Definition bcrypt_hash_rounds (data : string) (rounds : nat) : M St string :=
  salt <- bcrypt_genSalt rounds ;; bcrypt_hash data salt.

(** [bcrypt.compare(data, hash)] *)
Definition bcrypt_compare (data hash : string) : M St bool :=
  record (CBcryptCompare data hash) ;;; ret (bcrypt_check data hash).

(** [Math.random().toString()] *)
Definition Math_random_toString : M St string :=
  r <- random ;; ret (random_toString r).

(** *** jsonwebtoken *)

(** [jwt.sign(claims, JWT_SECRET, { expiresIn })] *)
Definition jwt_sign (c : Claims) (secret expiresIn : string) : M St string :=
  record (CJwtSign c) ;;;
  t <- now ;;
  ret (jwt_encode c secret expiresIn t).

(** [jwt.verify(token, JWT_SECRET)]: throws on a missing, malformed,
    wrongly signed or expired token. *)
Definition jwt_verify (tok : option string) (secret : string) : M St Claims :=
  record (CJwtVerify tok) ;;;
  t <- now ;;
  match tok with
  | None => throw JsonWebTokenError
  | Some tk =>
      match jwt_decode tk secret t with
      | Some c => ret c
      | None => throw JsonWebTokenError
      end
  end.

(** *** google-auth-library *)

(** [ticket.getPayload()] may be [undefined]. *)
Record LoginTicket := mkTicket { getPayload : option TokenPayload }.

(** [client.verifyIdToken({ idToken, audience })] of an [OAuth2Client]
    built with [clientId].  The library checks the signature, and compares
    the payload's audience with [audience] only when the caller passes
    one; the client's own id is not consulted. *)
Definition verifyIdToken (clientId idToken : string)
           (audience : option string) : M St LoginTicket :=
  record (CVerifyIdToken idToken audience) ;;;
  t <- now ;;
  match google_certs_check idToken t with
  | None => throw (VerifyError "Invalid token signature")
  | Some p =>
      match audience with
      | Some a =>
          if aud p =? a then ret (mkTicket (Some p))
          else throw (VerifyError
                 "Wrong recipient, payload audience != requiredAudience")
      | None => ret (mkTicket (Some p))
      end
  end.

(** [JSON.parse(Buffer.from(seg, 'base64').toString('utf8'))] *)
Definition JSON_parse_base64 (seg : string) : M St (option TokenPayload) :=
  match base64_json seg with
  | Some v => ret v
  | None => throw SyntaxError
  end.

End Calls.

(* ===================================================================== *)
(** ** [authController] *)
(* ===================================================================== *)

Section AuthController.

Context {L : Libs} {St : Type} {S : Storage St}.

Definition at_sign : ascii := "@"%char.
Definition dot : ascii := "."%char.
Definition space : ascii := " "%char.

(** [res.status(n).json({ error })] *)
Definition error (n : nat) (msg : string) : M St Response :=
  ret (mkResponse n (BError msg)).

(** The user literal all four creating paths build. *)
Definition newUser (name email username hashedPassword : string) : InsertUser :=
  mkInsertUser name email username hashedPassword RoleUser [] [].

(** [jwt.sign({ id, name, email }, JWT_SECRET, { expiresIn: '7d' })] *)
Definition sign_user (user : User) : M St string :=
  jwt_sign (mkClaims (id user) (name user) (email user)) JWT_SECRET "7d".

(** *** register *)

Definition register (req : RegisterBody) : M St Response :=
  try_catch
    (let name := rb_name req in
     let email := rb_email req in
     let password := rb_password req in
     let username := rb_username req in
     if negb (JS.truthy name) || negb (JS.truthy email)
        || negb (JS.truthy password)
     then error 400 "Name, email, and password are required"
     else
       existingUser <- getUserByEmail (JS.str email) ;;
       match existingUser with
       | Some _ => error 400 "User with this email already exists"
       | None =>
           taken <- (if JS.truthy username
                     then existingUsername <- getUserByUsername (JS.str username) ;;
                          ret (match existingUsername with
                               | Some _ => true
                               | None => false
                               end)
                     else ret false) ;;
           if taken then error 400 "Username is already taken"
           else
             salt <- bcrypt_genSalt 10 ;;
             hashedPassword <- bcrypt_hash (JS.str password) salt ;;
             user <- createUser
                       (newUser (JS.str name) (JS.str email)
                          (JS.or_else username
                             (JS.first (JS.split at_sign (JS.str email))))
                          hashedPassword) ;;
             token <- sign_user user ;;
             ret (json (BAuth token (withoutPassword user)))
       end)
    (fun _ =>
       console_error "Registration error:" ;;;
       ret (mkResponse 500 (BError "Error creating user"))).

(** *** login *)

Definition login (req : LoginBody) : M St Response :=
  try_catch
    (let email := lb_email req in
     let pass := lb_password req in
     if negb (JS.truthy email) || negb (JS.truthy pass)
     then error 400 "Email and password are required"
     else
       user <- getUserByEmail (JS.str email) ;;
       match user with
       | None => error 401 "Invalid email or password"
       | Some user =>
           if negb (JS.truthy (password user))
           then error 400 "This account uses a different authentication method"
           else
             isMatch <- bcrypt_compare (JS.str pass)
                          (JS.str (password user)) ;;
             if negb isMatch then error 401 "Invalid email or password"
             else
               token <- sign_user user ;;
               ret (json (BAuth token (withoutPassword user)))
       end)
    (fun _ =>
       console_error "Login error:" ;;;
       ret (mkResponse 500 (BError "Error logging in"))).

(** *** googleLogin *)

(** [payload.sub || Math.random().toString()]: the random draw happens
    only when [sub] is falsy. *)
Definition sub_or_random (p : TokenPayload) : M St string :=
  if sub p =? "" then Math_random_toString else ret (sub p).

(** Find or create the user of an e-mail address, then answer with a
    session token: the tail both paths of [googleLogin] share, up to the
    secret that is hashed into the new record. *)
Definition login_or_create (secret : M St string) (p : TokenPayload)
  : M St Response :=
  let email := JS.str (p_email p) in
  found <- getUserByEmail email ;;
  user <- match found with
          | Some u => ret u
          | None =>
              sec <- secret ;;
              hashedPassword <- bcrypt_hash_rounds sec 10 ;;
              createUser
                (newUser (JS.or_else (p_name p) "Google User") email
                   (JS.first (JS.split at_sign email)) hashedPassword)
          end ;;
  jwtToken <- sign_user user ;;
  ret (json (BAuth jwtToken (withoutPassword user))).

(** [client.verifyIdToken({ idToken: token, audience: undefined })], with
    the comment "Allowing any audience to prevent audience mismatch
    errors": the first statement of the first [try] block of [googleLogin]
    and of [registerWithGoogle]. *)
Definition verify_primary (token : string) : M St LoginTicket :=
  verifyIdToken GOOGLE_CLIENT_ID token None.

(** The first [try] block: verification by the library. *)
Definition googleLogin_primary (token : string) : M St Response :=
  ticket <- verify_primary token ;;
  match getPayload ticket with
  | None =>
      console_error "Invalid Google token payload:" ;;;
      error 400 "Invalid Google token payload"
  | Some payload =>
      if negb (JS.truthy (p_email payload))
      then console_error "Invalid Google token payload:" ;;;
           error 400 "Invalid Google token payload"
      else login_or_create (sub_or_random payload) payload
  end.

(** The [catch (verifyError)] block: the token is taken apart by hand. *)
Definition googleLogin_fallback (token : string) : M St Response :=
  try_catch
    (let parts := JS.split dot token in
     if negb (Nat.eqb (length parts) 3) then error 400 "Invalid token format"
     else
       decoded <- JSON_parse_base64 (JS.str (JS.index parts 1)) ;;
       match decoded with
       | None => error 400 "Invalid token content"
       | Some decoded =>
           if negb (JS.truthy (p_email decoded))
           then error 400 "Invalid token content"
           else login_or_create Math_random_toString decoded
       end)
    (fun _ =>
       console_error "Fallback token handling error:" ;;;
       error 400 "Unable to process Google token").

Definition googleLogin (req : GoogleBody) : M St Response :=
  try_catch
    (let token := gb_token req in
     if negb (JS.truthy token) then error 400 "Google token is required"
     else
       try_catch
         (googleLogin_primary (JS.str token))
         (fun _ =>
            console_error "Token verification error:" ;;;
            googleLogin_fallback (JS.str token)))
    (fun _ =>
       console_error "Google login error:" ;;;
       ret (mkResponse 500 (BError "Error with Google login"))).

(** *** registerWithGoogle *)

(** Refuse a known e-mail address, otherwise create the user and answer
    with a session token. *)
Definition create_only (secret : M St string) (p : TokenPayload)
  : M St Response :=
  let email := JS.str (p_email p) in
  existingUser <- getUserByEmail email ;;
  match existingUser with
  | Some _ => error 400 "User with this email already exists"
  | None =>
      sec <- secret ;;
      hashedPassword <- bcrypt_hash_rounds sec 10 ;;
      user <- createUser
                (newUser (JS.or_else (p_name p) "Google User") email
                   (JS.first (JS.split at_sign email)) hashedPassword) ;;
      jwtToken <- sign_user user ;;
      ret (json (BAuth jwtToken (withoutPassword user)))
  end.

Definition registerWithGoogle_primary (token : string) : M St Response :=
  ticket <- verify_primary token ;;
  match getPayload ticket with
  | None =>
      console_error "Invalid Google token payload:" ;;;
      error 400 "Invalid Google token payload"
  | Some payload =>
      if negb (JS.truthy (p_email payload))
      then console_error "Invalid Google token payload:" ;;;
           error 400 "Invalid Google token payload"
      else create_only (sub_or_random payload) payload
  end.

Definition registerWithGoogle_fallback (token : string) : M St Response :=
  try_catch
    (let parts := JS.split dot token in
     if negb (Nat.eqb (length parts) 3) then error 400 "Invalid token format"
     else
       decoded <- JSON_parse_base64 (JS.str (JS.index parts 1)) ;;
       match decoded with
       | None => error 400 "Invalid token content"
       | Some decoded =>
           if negb (JS.truthy (p_email decoded))
           then error 400 "Invalid token content"
           else create_only Math_random_toString decoded
       end)
    (fun _ =>
       console_error "Fallback token handling error:" ;;;
       error 400 "Unable to process Google token").

Definition registerWithGoogle (req : GoogleBody) : M St Response :=
  try_catch
    (let token := gb_token req in
     if negb (JS.truthy token) then error 400 "Google token is required"
     else
       try_catch
         (registerWithGoogle_primary (JS.str token))
         (fun _ =>
            console_error "Token verification error:" ;;;
            registerWithGoogle_fallback (JS.str token)))
    (fun _ =>
       console_error "Google registration error:" ;;;
       ret (mkResponse 500 (BError "Error with Google registration"))).

(** *** getCurrentUser *)

(** [!authHeader || !authHeader.startsWith('Bearer ')] *)
Definition no_bearer (authHeader : option string) : bool :=
  negb (JS.truthy authHeader)
  || negb (JS.startsWith "Bearer " (JS.str authHeader)).

(** [authHeader.split(' ')[1]] *)
Definition bearer_token (authHeader : option string) : option string :=
  JS.index (JS.split space (JS.str authHeader)) 1.

Definition getCurrentUser (authHeader : option string) : M St Response :=
  try_catch
    (if no_bearer authHeader then error 401 "No token provided"
     else
       let token := bearer_token authHeader in
       try_catch
         (decoded <- jwt_verify token JWT_SECRET ;;
          user <- getUser (c_id decoded) ;;
          match user with
          | None => error 404 "User not found"
          | Some user => ret (json (BUser (withoutPassword user)))
          end)
         (fun _ =>
            console_error "JWT verification error:" ;;;
            error 401 "Invalid token"))
    (fun _ =>
       console_error "Auth error:" ;;;
       ret (mkResponse 500 (BError "Server error during authentication"))).

(** *** The auth routes of [registerRoutes]

    [app.post('/api/auth/register', authController.register)] and the four
    lines after it. *)

Inductive AuthRequest :=
| PostRegister (b : RegisterBody)             (* POST /api/auth/register *)
| PostLogin (b : LoginBody)                   (* POST /api/auth/login *)
| GetMe (authorization : option string)       (* GET /api/auth/me *)
| PostGoogleLogin (b : GoogleBody)            (* POST /api/auth/google-login *)
| PostRegisterGoogle (b : GoogleBody).        (* POST /api/auth/register/google *)

Definition authRoute (rq : AuthRequest) : M St Response :=
  match rq with
  | PostRegister b => register b
  | PostLogin b => login b
  | GetMe h => getCurrentUser h
  | PostGoogleLogin b => googleLogin b
  | PostRegisterGoogle b => registerWithGoogle b
  end.

End AuthController.

(* ===================================================================== *)
(** ** The handlers and [req.body] *)
(* ===================================================================== *)

Section RequestBody.

Context {L : Libs} {St : Type} {S : Storage St}.

(** [const { ... } = req.body], the first statement in the outermost [try]
    of the four POST handlers.  [req.body] is [undefined] when no body
    parser has filled it in, and destructuring [undefined] throws a
    TypeError. *)
Definition destructure {A} (body : option A) : M St A :=
  match body with
  | Some b => ret b
  | None => throw TypeError
  end.

(** The four POST handlers from their first statement on, for a [req.body]
    that may be missing.  [register], [login], [googleLogin] and
    [registerWithGoogle] above are these handlers for a body that is
    there. *)
Definition register_request (body : option RegisterBody) : M St Response :=
  try_catch
    (req <- destructure body ;;
     let name := rb_name req in
     let email := rb_email req in
     let password := rb_password req in
     let username := rb_username req in
     if negb (JS.truthy name) || negb (JS.truthy email)
        || negb (JS.truthy password)
     then error 400 "Name, email, and password are required"
     else
       existingUser <- getUserByEmail (JS.str email) ;;
       match existingUser with
       | Some _ => error 400 "User with this email already exists"
       | None =>
           taken <- (if JS.truthy username
                     then existingUsername <- getUserByUsername (JS.str username) ;;
                          ret (match existingUsername with
                               | Some _ => true
                               | None => false
                               end)
                     else ret false) ;;
           if taken then error 400 "Username is already taken"
           else
             salt <- bcrypt_genSalt 10 ;;
             hashedPassword <- bcrypt_hash (JS.str password) salt ;;
             user <- createUser
                       (newUser (JS.str name) (JS.str email)
                          (JS.or_else username
                             (JS.first (JS.split at_sign (JS.str email))))
                          hashedPassword) ;;
             token <- sign_user user ;;
             ret (json (BAuth token (withoutPassword user)))
       end)
    (fun _ =>
       console_error "Registration error:" ;;;
       ret (mkResponse 500 (BError "Error creating user"))).

Definition login_request (body : option LoginBody) : M St Response :=
  try_catch
    (req <- destructure body ;;
     let email := lb_email req in
     let pass := lb_password req in
     if negb (JS.truthy email) || negb (JS.truthy pass)
     then error 400 "Email and password are required"
     else
       user <- getUserByEmail (JS.str email) ;;
       match user with
       | None => error 401 "Invalid email or password"
       | Some user =>
           if negb (JS.truthy (password user))
           then error 400 "This account uses a different authentication method"
           else
             isMatch <- bcrypt_compare (JS.str pass)
                          (JS.str (password user)) ;;
             if negb isMatch then error 401 "Invalid email or password"
             else
               token <- sign_user user ;;
               ret (json (BAuth token (withoutPassword user)))
       end)
    (fun _ =>
       console_error "Login error:" ;;;
       ret (mkResponse 500 (BError "Error logging in"))).

(** In the two Google handlers the destructuring stands in the outer [try]
    and before the inner one: its TypeError goes to the outermost
    [catch]. *)
Definition googleLogin_request (body : option GoogleBody) : M St Response :=
  try_catch
    (req <- destructure body ;;
     let token := gb_token req in
     if negb (JS.truthy token) then error 400 "Google token is required"
     else
       try_catch
         (googleLogin_primary (JS.str token))
         (fun _ =>
            console_error "Token verification error:" ;;;
            googleLogin_fallback (JS.str token)))
    (fun _ =>
       console_error "Google login error:" ;;;
       ret (mkResponse 500 (BError "Error with Google login"))).

Definition registerWithGoogle_request (body : option GoogleBody)
  : M St Response :=
  try_catch
    (req <- destructure body ;;
     let token := gb_token req in
     if negb (JS.truthy token) then error 400 "Google token is required"
     else
       try_catch
         (registerWithGoogle_primary (JS.str token))
         (fun _ =>
            console_error "Token verification error:" ;;;
            registerWithGoogle_fallback (JS.str token)))
    (fun _ =>
       console_error "Google registration error:" ;;;
       ret (mkResponse 500 (BError "Error with Google registration"))).

(** A request to an auth route as Express hands it to the handler:
    [req.body] on the four POST routes, [req.headers.authorization] on
    [/api/auth/me]. *)
Inductive Incoming :=
| InRegister (body : option RegisterBody)
| InLogin (body : option LoginBody)
| InMe (authorization : option string)
| InGoogleLogin (body : option GoogleBody)
| InRegisterGoogle (body : option GoogleBody).

Definition handle (rq : Incoming) : M St Response :=
  match rq with
  | InRegister body => register_request body
  | InLogin body => login_request body
  | InMe h => getCurrentUser h
  | InGoogleLogin body => googleLogin_request body
  | InRegisterGoogle body => registerWithGoogle_request body
  end.

End RequestBody.

(* ===================================================================== *)
(** ** Admin content management ([registerRoutes]) *)
(* ===================================================================== *)

Section AdminRoutes.

Context {L : Libs} {St : Type} {S : Storage St}.

Definition noun (c : Collection) : string :=
  match c with
  | Videos => "video"
  | Events => "event"
  | Mixes => "mix"
  | Gallery => "gallery item"
  end.

Definition Noun (c : Collection) : string :=
  match c with
  | Videos => "Video"
  | Events => "Event"
  | Mixes => "Mix"
  | Gallery => "Gallery item"
  end.

Definition verb (m : Mutation) : string :=
  match m with
  | Create => "create"
  | Update => "update"
  | Delete => "delete"
  end.

Definition Verb (m : Mutation) : string :=
  match m with
  | Create => "Create"
  | Update => "Update"
  | Delete => "Delete"
  end.

(** [!user || user.role !== 'admin'] *)
Definition not_admin (user : option User) : bool :=
  match user with
  | None => true
  | Some u => negb (Role_eqb (role u) RoleAdmin)
  end.

(** The twelve handlers [app.post('/api/videos')], [app.put('/api/videos/:id')],
    [app.delete('/api/videos/:id')] and their copies for events, mixes and
    the gallery differ in the storage method they call and in the words
    of their messages only; [adminRoute c m] is the handler of mutation
    [m] on collection [c].  [paramsId] is [req.params.id] and [reqBody] is
    [req.body]. *)
Definition adminRoute (c : Collection) (m : Mutation)
           (authHeader : option string) (paramsId reqBody : string)
  : M St Response :=
  try_catch
    (if no_bearer authHeader then error 401 "Authentication required"
     else
       let token := bearer_token authHeader in
       decoded <- jwt_verify token JWT_SECRET ;;
       user <- getUser (c_id decoded) ;;
       if not_admin user then error 403 "Admin access required"
       else
         match m with
         | Create =>
             created <- createDoc c reqBody ;;
             ret (mkResponse 201 (BJson created))
         | Update =>
             updated <- updateDoc c paramsId reqBody ;;
             match updated with
             | None => error 404 (Noun c ++ " not found")
             | Some d => ret (json (BJson d))
             end
         | Delete =>
             success <- deleteDoc c paramsId ;;
             if negb success then error 404 (Noun c ++ " not found")
             else ret (mkResponse 204 BEmpty)
         end)
    (fun _ =>
       console_error (Verb m ++ " " ++ noun c ++ " error:") ;;;
       ret (mkResponse 500 (BMessage ("Failed to " ++ verb m ++ " " ++ noun c)))).

End AdminRoutes.

(* ===================================================================== *)
(** ** A database *)
(* ===================================================================== *)

(** [server/storage.ts] is not among the sources; the specification
    describes what it must do, and the database below is taken from there. *)

Record Db := mkDb {
  users : list User;
  docs : list (Collection * string * string);
  next_id : nat
}.

Definition Collection_eqb (a b : Collection) : bool :=
  match a, b with
  | Videos, Videos | Events, Events | Mixes, Mixes | Gallery, Gallery => true
  | _, _ => false
  end.

Definition fresh_id (n : nat) : string :=
  "id-" ++ DecimalString.NilEmpty.string_of_uint (Nat.to_uint n).

Definition has_email (e : string) (u : User) : bool := email u =? e.

Definition has_username (n : string) (u : User) : bool :=
  match username u with
  | Some m => m =? n
  | None => false
  end.

Definition has_id (i : string) (u : User) : bool := id u =? i.

(** The document that [createUser] stores for an [InsertUser]. *)
Definition document (i : string) (nu : InsertUser) : User :=
  mkUser i (Some (iu_username nu)) (iu_name nu) (iu_email nu)
         (Some (iu_password nu)) None (iu_role nu) None
         (iu_favoriteArtists nu) (iu_purchasedTickets nu).

(** Modelled from the spec: the Credential Store ([server/storage.ts], the
    [storage] object the controllers import).  It "exposes lookups by
    id/email/username and an insert operation"; e-mail match is exact; and
    it enforces the data model's invariant "no two records share an email;
    no two records share a non-empty username" by refusing the insert that
    would break it, which the caller sees as a store exception. *)
Definition mem_createUser (nu : InsertUser) (db : Db) : Result User * Db :=
  if existsb (has_email (iu_email nu)) (users db)
  then (Throw (StoreError "duplicate key: email"), db)
  else if negb (iu_username nu =? "")
          && existsb (has_username (iu_username nu)) (users db)
  then (Throw (StoreError "duplicate key: username"), db)
  else let u := document (fresh_id (next_id db)) nu in
       (Ok u, mkDb (users db ++ [u]) (docs db) (Datatypes.S (next_id db))).

Definition doc_is (c : Collection) (i : string)
           (d : Collection * string * string) : bool :=
  Collection_eqb (fst (fst d)) c && (snd (fst d) =? i).

(** Modelled from the spec: the content side of the storage object, "a
    generic content store with get/create/update/delete operations keyed by
    opaque identifiers". *)
Definition mem_create (c : Collection) (doc : string) (db : Db)
  : Result string * Db :=
  (Ok doc, mkDb (users db) (docs db ++ [(c, fresh_id (next_id db), doc)])
                (Datatypes.S (next_id db))).

(** Modelled from the spec: update of a content document by identifier;
    an unknown identifier gives [undefined] and changes nothing. *)
Definition mem_update (c : Collection) (i doc : string) (db : Db)
  : Result (option string) * Db :=
  if existsb (doc_is c i) (docs db)
  then (Ok (Some doc),
        mkDb (users db)
             (map (fun d => if doc_is c i d then (c, i, doc) else d) (docs db))
             (next_id db))
  else (Ok None, db).

(** Modelled from the spec: deletion of a content document by identifier;
    the result says whether a document was there. *)
Definition mem_delete (c : Collection) (i : string) (db : Db)
  : Result bool * Db :=
  if existsb (doc_is c i) (docs db)
  then (Ok true,
        mkDb (users db) (filter (fun d => negb (doc_is c i d)) (docs db))
             (next_id db))
  else (Ok false, db).

(** Modelled from the spec: the [storage] object over the database, with
    lookups by id, by exact e-mail and by username. *)
#[export] Instance memStorage : Storage Db := {
  db_getUser i db := (Ok (find (has_id i) (users db)), db);
  db_getUserByEmail e db := (Ok (find (has_email e) (users db)), db);
  db_getUserByUsername n db := (Ok (find (has_username n) (users db)), db);
  db_createUser := mem_createUser;
  db_create := mem_create;
  db_update := mem_update;
  db_delete := mem_delete
}.

(** A database whose connection fails on schedule: the [n]-th call throws
    when the [n]-th flag is set, and otherwise goes to the database
    underneath. *)
Definition flaky {St A} (op : St -> Result A * St) (s : list bool * St)
  : Result A * (list bool * St) :=
  match fst s with
  | true :: plan => (Throw (StoreError "connection lost"), (plan, snd s))
  | false :: plan => let (r, s') := op (snd s) in (r, (plan, s'))
  | [] => let (r, s') := op (snd s) in (r, ([], s'))
  end.

#[export] Instance flakyStorage {St} (S : Storage St) : Storage (list bool * St) := {
  db_getUser i := flaky (db_getUser i);
  db_getUserByEmail e := flaky (db_getUserByEmail e);
  db_getUserByUsername n := flaky (db_getUserByUsername n);
  db_createUser nu := flaky (db_createUser nu);
  db_create c d := flaky (db_create c d);
  db_update c i d := flaky (db_update c i d);
  db_delete c i := flaky (db_delete c i)
}.

Definition emptyDb : Db := mkDb [] [] 0.

Definition world {St} (s : St) : World St := mkWorld s 0 0 [] [].

(* ===================================================================== *)
(** ** How a Google token resolves to an e-mail address *)
(* ===================================================================== *)

Section Resolution.

Context {L : Libs}.

(** The payload the controllers end up trusting for a token at time [t]:
    the verified one when the library accepts the token, the hand-decoded
    one otherwise. *)
Inductive Resolved :=
| ByLibrary (p : TokenPayload)
| ByHand (p : TokenPayload).

Definition resolved_payload (r : Resolved) : TokenPayload :=
  match r with
  | ByLibrary p | ByHand p => p
  end.

(** The hand-decoded payload of a token, when it has three segments and the
    middle one decodes to an object with an e-mail address. *)
Definition decode_by_hand (token : string) : option TokenPayload :=
  let parts := JS.split dot token in
  if Nat.eqb (length parts) 3 then
    match base64_json (JS.str (JS.index parts 1)) with
    | Some (Some d) => if JS.truthy (p_email d) then Some d else None
    | _ => None
    end
  else None.

(** An empty token is refused before any verification. *)
Definition resolve (token : string) (t : nat) : option Resolved :=
  if token =? "" then None
  else
    match google_certs_check token t with
    | Some p => if JS.truthy (p_email p) then Some (ByLibrary p) else None
    | None => option_map ByHand (decode_by_hand token)
    end.

(** [token] resolves to the e-mail address [e] at time [t]. *)
Definition resolves_to (token : string) (t : nat) (e : string) : Prop :=
  exists r, resolve token t = Some r /\ p_email (resolved_payload r) = Some e.

End Resolution.

(* ===================================================================== *)
(** ** A concrete world *)
(* ===================================================================== *)

(** Libraries small enough to run.  The session-token codec writes the
    claims and the secret in clear; the hasher prefixes the salt.  Google's
    certificates accept exactly one token, [signed_token], issued to another
    application; [forged_token] carries the same payload segment under a
    header and a signature nobody issued. *)

Definition ava_segment : string :=
  "eyJhdWQiOiIxMjM0LW90aGVyLmFwcHMuZ29vZ2xldXNlcmNvbnRlbnQuY29tIiwic3ViIjoiMTAwMSIsImVtYWlsIjoiYXZhQHkuY29tIiwibmFtZSI6IkF2YSJ9".

(** What [ava_segment] decodes to. *)
Definition ava_payload : TokenPayload :=
  mkPayload "1234-other.apps.googleusercontent.com" "1001"
            (Some "ava@y.com") (Some "Ava").

Definition signed_token : string :=
  "eyJhbGciOiJSUzI1NiIsInR5cCI6IkpXVCJ9." ++ ava_segment ++ ".c2lnbmVk".

Definition forged_token : string :=
  "eyJhbGciOiJub25lIn0." ++ ava_segment ++ ".Zm9yZ2Vk".

Definition bar : ascii := "|"%char.

Definition demo_jwt_decode (tok secret : string) (t : nat) : option Claims :=
  match JS.split bar tok with
  | [i; n; e; s] => if s =? secret then Some (mkClaims i n e) else None
  | _ => None
  end.

#[export] Instance demoLibs : Libs := {
  env_JWT_SECRET := None;
  bcrypt_salt rounds r := "$2a$10$";
  bcrypt_digest data salt := salt ++ data;
  bcrypt_check data hash := hash =? ("$2a$10$" ++ data);
  jwt_encode c secret expiresIn t :=
    c_id c ++ "|" ++ c_name c ++ "|" ++ c_email c ++ "|" ++ secret;
  jwt_decode := demo_jwt_decode;
  google_certs_check tok t :=
    if tok =? signed_token then Some ava_payload else None;
  random_toString r := "0." ++ DecimalString.NilEmpty.string_of_uint (Nat.to_uint r);
  base64_json seg :=
    if seg =? ava_segment then Some (Some ava_payload) else None
}.

(** A record whose username is the local part of Ava's address, under
    another address. *)
Definition ava_x : User :=
  mkUser "id-0" (Some "ava") "Ava" "ava@x.com" (Some "$2a$10$secret1") None
         RoleUser None [] [].

(** A database that holds that record only. *)
Definition ava_db : Db := mkDb [ava_x] [] 1.

Definition admin_user : User :=
  mkUser "id-0" (Some "root") "Root" "root@x.com" (Some "$2a$10$toor") None
         RoleAdmin None [] [].

Definition admin_db : Db := mkDb [admin_user] [] 1.

(** The [Authorization] header of a user who holds a session token issued
    at time 0. *)
Definition bearer (u : User) : option string :=
  Some ("Bearer " ++
        jwt_encode (mkClaims (id u) (name u) (email u)) JWT_SECRET "7d" 0).

(* ===================================================================== *)
(** ** Reasoning about handlers *)
(* ===================================================================== *)

Section Logic.

Context {St : Type}.

(** [answers Q m]: whenever [m] returns a value, the value satisfies [Q]. *)
Definition answers {A} (Q : A -> Prop) (m : M St A) : Prop :=
  forall w a w', m w = (Ok a, w') -> Q a.

(** [emits P m]: [m] only adds to the trace, and every call it adds
    satisfies [P], whether [m] returns or throws. *)
Definition emits {A} (P : Call -> Prop) (m : M St A) : Prop :=
  forall w r w', m w = (r, w') ->
    exists cs, trace w' = (trace w ++ cs)%list /\ Forall P cs.

(** [total m]: [m] never throws. *)
Definition total {A} (m : M St A) : Prop :=
  forall w, exists a w', m w = (Ok a, w').

End Logic.

(* ===================================================================== *)
(** ** Vocabulary of the properties *)
(* ===================================================================== *)

(** A response is scrubbed when its user object, if it has one, has no
    password field. *)
Definition scrubbed (r : Response) : Prop :=
  forall u, response_user r = Some u -> password u = None.

(** The scenario of the specification: Ava registers with a name, an
    address and a password, and no username. *)
Definition ava_body : RegisterBody :=
  mkRegisterBody (Some "Ava") (Some "ava@x.com") (Some "secret1") None.

Create HintDb scrub.

(** The response of a run, when the handler answered. *)
Definition response {St} (x : Result Response * World St) : option Response :=
  match fst x with
  | Ok r => Some r
  | Throw _ => None
  end.

(** The calls a run added to the trace of the world it started from. *)
Definition calls_since {St} (w w' : World St) : list Call :=
  skipn (length (trace w)) (trace w').

Definition is_sign (c : Call) : bool :=
  match c with CJwtSign _ => true | _ => false end.

Definition is_createUser (c : Call) : bool :=
  match c with CCreateUser _ => true | _ => false end.

Definition is_mutation (c : Call) : bool :=
  match c with CMutate _ _ => true | _ => false end.

(** Calls that verify a signature: of a Google token or of a session
    token. *)
Definition is_verification (c : Call) : bool :=
  match c with
  | CVerifyIdToken _ _ | CJwtVerify _ => true
  | _ => false
  end.

(** [console.error] seen from a world. *)
Definition logged {St} (msg : string) (w : World St) : World St :=
  mkWorld (store w) (clock w) (entropy w) (console w ++ [msg]) (trace w).

(** A call seen from a world. *)
Definition called {St} (c : Call) (w : World St) : World St :=
  mkWorld (store w) (clock w) (entropy w) (console w) (trace w ++ [c]).

(** [email.split('@')[0]] *)
Definition local_part (e : string) : string :=
  JS.first (JS.split at_sign e).

(** The characters of a string. *)
Definition chars (s : string) : list ascii := list_ascii_of_string s.

(** Name, e-mail address and password are all there. *)
Definition complete (req : RegisterBody) : bool :=
  JS.truthy (rb_name req) && JS.truthy (rb_email req)
  && JS.truthy (rb_password req).

(** No record stands in the way of a username: the empty one is not
    checked, any other must be unused. *)
Definition username_free (n : string) (db : Db) : bool :=
  (n =? "") || negb (existsb (has_username n) (users db)).

(** The two handlers that take a Google token, and their parts. *)
Inductive GoogleRoute := ViaGoogleLogin | ViaRegisterWithGoogle.

Section GoogleRoutes.

Context {L : Libs} {St : Type} {S : Storage St}.

Definition google_handler (k : GoogleRoute) : GoogleBody -> M St Response :=
  match k with
  | ViaGoogleLogin => googleLogin
  | ViaRegisterWithGoogle => registerWithGoogle
  end.

Definition google_primary (k : GoogleRoute) : string -> M St Response :=
  match k with
  | ViaGoogleLogin => googleLogin_primary
  | ViaRegisterWithGoogle => registerWithGoogle_primary
  end.

Definition google_fallback (k : GoogleRoute) : string -> M St Response :=
  match k with
  | ViaGoogleLogin => googleLogin_fallback
  | ViaRegisterWithGoogle => registerWithGoogle_fallback
  end.

End GoogleRoutes.

(** [!decoded || !decoded.email] *)
Definition lacks_email (d : option TokenPayload) : bool :=
  match d with
  | None => true
  | Some p => negb (JS.truthy (p_email p))
  end.

(** What both paths of a Google handler do once they trust a payload. *)
Definition google_tail {L : Libs} {St : Type} {S : Storage St}
           (k : GoogleRoute) : M St string -> TokenPayload -> M St Response :=
  match k with
  | ViaGoogleLogin => login_or_create
  | ViaRegisterWithGoogle => create_only
  end.

(** A computation that returns and touches nothing but the random stream. *)
Definition quiet {St A} (m : M St A) : Prop :=
  forall w, exists a n,
      m w = (Ok a, mkWorld (store w) (clock w) n (console w) (trace w)).

Definition duplicate_email : Response :=
  mkResponse 400 (BError "User with this email already exists").

(** The claims of the session token in an [Authorization] header at time
    [t], when [jwt.verify] accepts it. *)
Definition verified_claims {L : Libs} (h : option string) (t : nat)
  : option Claims :=
  match bearer_token h with
  | Some tk => jwt_decode tk JWT_SECRET t
  | None => None
  end.

(** A run from world [w] turns the caller away: it answers [resp], which
    carries no token, through the calls [cs], none of which is [jwt.sign]. *)
Definition rejects {St} (run : Result Response * World St) (w : World St)
           (resp : Response) (cs : list Call) : Prop :=
  fst run = Ok resp
  /\ calls_since w (snd run) = cs
  /\ response_token resp = None
  /\ existsb is_sign cs = false.

(** [triple t P Q m]: run at time [t], [m] leaves the clock alone, adds to
    the trace only calls that satisfy [P], and returns only values that
    satisfy [Q]. *)
Definition triple {St A} (t : nat) (P : Call -> Prop) (Q : A -> Prop)
           (m : M St A) : Prop :=
  forall w r w',
    clock w = t ->
    m w = (r, w') ->
    clock w' = t
    /\ (exists cs, trace w' = (trace w ++ cs)%list /\ Forall P cs)
    /\ (forall a, r = Ok a -> Q a).

(** The claims [jwt.sign] is given for a user. *)
Definition claims_of (u : User) : Claims :=
  mkClaims (id u) (name u) (email u).

(** What an auth route may ask of the outside world: it never touches the
    content collections, and a record it asks the storage layer to create
    is an ordinary user with empty lists whose password is a bcrypt digest
    made with a cost-10 salt. *)
Definition auth_call {L : Libs} (c : Call) : Prop :=
  match c with
  | CCreateUser nu =>
      iu_role nu = RoleUser
      /\ iu_favoriteArtists nu = []
      /\ iu_purchasedTickets nu = []
      /\ exists data r, iu_password nu = bcrypt_digest data (bcrypt_salt 10 r)
  | CMutate _ _ => False
  | _ => True
  end.

(** A response whose token, if it has one, is the session token of the user
    in the same response: signed at time [t] over that user's id, name and
    e-mail address with [JWT_SECRET], to expire in seven days. *)
Definition token_matches_user {L : Libs} (t : nat) (r : Response) : Prop :=
  forall tok u,
    body r = BAuth tok u ->
    tok = jwt_encode (claims_of u) JWT_SECRET "7d" t.

(** Calls that only read or compute. *)
Definition read_only (c : Call) : Prop :=
  is_createUser c = false /\ is_mutation c = false.

(** The statuses each auth route can answer with. *)
Definition statuses (rq : AuthRequest) : list nat :=
  match rq with
  | PostRegister _ => [200; 400; 500]
  | PostLogin _ => [200; 400; 401; 500]
  | GetMe _ => [200; 401; 404]
  | PostGoogleLogin _ | PostRegisterGoogle _ => [200; 400]
  end.

(** The shape of an answer of an auth route: a status the route can give;
    with 200 a user object, and a token too except on [/api/auth/me];
    with any other status an [{ error }] body. *)
Definition shaped (rq : AuthRequest) (r : Response) : Prop :=
  In (status r) (statuses rq)
  /\ match body r with
     | BAuth _ _ => status r = 200 /\ (forall h, rq <> GetMe h)
     | BUser _ => status r = 200 /\ (exists h, rq = GetMe h)
     | BError _ => status r <> 200
     | _ => False
     end.

(** An incoming request with its body, when the body is there. *)
Definition with_body (rq : Incoming) : option AuthRequest :=
  match rq with
  | InRegister body => option_map PostRegister body
  | InLogin body => option_map PostLogin body
  | InMe h => Some (GetMe h)
  | InGoogleLogin body => option_map PostGoogleLogin body
  | InRegisterGoogle body => option_map PostRegisterGoogle body
  end.

(** What the outermost [catch] of each handler answers, and the line it
    logs. *)
Definition server_error (rq : Incoming) : Response :=
  mkResponse 500
    (BError match rq with
            | InRegister _ => "Error creating user"
            | InLogin _ => "Error logging in"
            | InMe _ => "Server error during authentication"
            | InGoogleLogin _ => "Error with Google login"
            | InRegisterGoogle _ => "Error with Google registration"
            end).

Definition server_error_line (rq : Incoming) : string :=
  match rq with
  | InRegister _ => "Registration error:"
  | InLogin _ => "Login error:"
  | InMe _ => "Auth error:"
  | InGoogleLogin _ => "Google login error:"
  | InRegisterGoogle _ => "Google registration error:"
  end.

(** The request that is turned away before anything is looked at: a
    required field is missing or empty, or there is no bearer header. *)
Definition malformed (rq : AuthRequest) : bool :=
  match rq with
  | PostRegister b => negb (complete b)
  | PostLogin b =>
      negb (JS.truthy (lb_email b)) || negb (JS.truthy (lb_password b))
  | GetMe h => no_bearer h
  | PostGoogleLogin b | PostRegisterGoogle b => negb (JS.truthy (gb_token b))
  end.

(** The answer to a malformed request. *)
Definition refusal (rq : AuthRequest) : Response :=
  match rq with
  | PostRegister _ =>
      mkResponse 400 (BError "Name, email, and password are required")
  | PostLogin _ => mkResponse 400 (BError "Email and password are required")
  | GetMe _ => mkResponse 401 (BError "No token provided")
  | PostGoogleLogin _ | PostRegisterGoogle _ =>
      mkResponse 400 (BError "Google token is required")
  end.

(** The auth routes that are queries: they look a user up and do not
    register one. *)
Definition is_query (rq : AuthRequest) : bool :=
  match rq with
  | PostLogin _ | GetMe _ => true
  | _ => false
  end.

(** The two lookups [register] makes before it writes. *)
Definition is_lookup (c : Call) : bool :=
  match c with
  | CGetUserByEmail _ | CGetUserByUsername _ => true
  | _ => false
  end.

(** A token that Google signed for an account that shares no e-mail
    address, and libraries whose certificates accept it. *)
Definition anon_token : string := "eyJhbGciOiJSUzI1NiJ9.eyJzdWIiOiI3In0.c2ln".

Definition anon_payload : TokenPayload :=
  mkPayload GOOGLE_CLIENT_ID "7" None None.

Definition anonLibs : Libs := {|
  env_JWT_SECRET := Some "s3cret";
  bcrypt_salt := @bcrypt_salt demoLibs;
  bcrypt_digest := @bcrypt_digest demoLibs;
  bcrypt_check := @bcrypt_check demoLibs;
  jwt_encode := @jwt_encode demoLibs;
  jwt_decode := @jwt_decode demoLibs;
  google_certs_check tok t :=
    if tok =? anon_token then Some anon_payload else None;
  random_toString := @random_toString demoLibs;
  base64_json seg := None
|}.

(* ===================================================================== *)
(** ** The shopping cart ([CartProvider]) *)
(* ===================================================================== *)

Module Cart.

(** The arithmetic of JavaScript numbers that the provider uses. *)
Class Number (N : Type) := {
  zero : N;                  (* 0 *)
  plus : N -> N -> N;        (* a + b *)
  times : N -> N -> N;       (* a * b *)
  nonpositive : N -> bool    (* a <= 0 *)
}.

Section Provider.

Context {N : Type} {Num : Number N}.

(** The fields of [Product] that the provider reads. *)
Record Product := mkProduct {
  product_id : string;
  product_name : string;
  product_price : N;
  product_imageUrl : option string
}.

Record CartItem := mkCartItem {
  item_id : string;
  item_name : string;
  item_price : N;
  item_quantity : N;
  item_imageUrl : option string;
  item_product : Product
}.

(** The state the provider holds: [cart] and [isCartOpen].  [cartTotal]
    and [cartCount] are recomputed from [cart] by an effect whenever it
    changes. *)
Record State := mkState {
  cart : list CartItem;
  isCartOpen : bool
}.

(** [{ ...item, quantity }] *)
Definition with_quantity (item : CartItem) (quantity : N) : CartItem :=
  mkCartItem (item_id item) (item_name item) (item_price item) quantity
             (item_imageUrl item) (item_product item).

(** [`${product.id}-${Date.now()}`] *)
Definition line_id (product : Product) (now : nat) : string :=
  product_id product ++ "-"
  ++ DecimalString.NilEmpty.string_of_uint (Nat.to_uint now).

(** [cart.reduce((acc, item) => acc + (item.product.price * item.quantity), 0)] *)
Definition cartTotal (c : list CartItem) : N :=
  fold_left
    (fun acc item =>
       plus acc (times (product_price (item_product item)) (item_quantity item)))
    c zero.

(** [cart.reduce((acc, item) => acc + item.quantity, 0)] *)
Definition cartCount (c : list CartItem) : N :=
  fold_left (fun acc item => plus acc (item_quantity item)) c zero.

(** [addToCart], called at time [now]: a new line at the end, and the
    drawer is opened. *)
Definition addToCart (now : nat) (product : Product) (quantity : N)
           (s : State) : State :=
  mkState
    (cart s ++ [mkCartItem (line_id product now) (product_name product)
                           (product_price product) quantity
                           (product_imageUrl product) product])
    true.

(** [item.product.id !== productId] *)
Definition other_product (productId : string) (item : CartItem) : bool :=
  negb (product_id (item_product item) =? productId).

Definition removeFromCart (productId : string) (s : State) : State :=
  mkState (filter (other_product productId) (cart s)) (isCartOpen s).

Definition updateQuantity (productId : string) (quantity : N) (s : State)
  : State :=
  if nonpositive quantity then removeFromCart productId s
  else
    mkState
      (map (fun item =>
              if product_id (item_product item) =? productId
              then with_quantity item quantity
              else item)
           (cart s))
      (isCartOpen s).

Definition clearCart (s : State) : State := mkState [] (isCartOpen s).

(** The lines of one product. *)
Definition lines_of (productId : string) (c : list CartItem) : list CartItem :=
  filter (fun item => product_id (item_product item) =? productId) c.

End Provider.

End Cart.

(* ===================================================================== *)
(** ** Lemmas on the monad *)
(* ===================================================================== *)

Section MonadLemmas.

Context {St : Type}.

Lemma answers_ret {A} (Q : A -> Prop) (a : A) :
  Q a -> answers Q (ret (St := St) a).
Proof. intros HQ w a' w' E. inversion E; subst; exact HQ. Qed.

Lemma answers_bind {A B} (Q : B -> Prop) (m : M St A) (k : A -> M St B) :
  (forall a, answers Q (k a)) -> answers Q (bind m k).
Proof.
  intros Hk w b w' E. unfold bind in E.
  destruct (m w) as [[a|e] w1]; [eapply Hk; eassumption | discriminate].
Qed.

Lemma answers_try_catch {A} (Q : A -> Prop) (m : M St A) (h : Exn -> M St A) :
  answers Q m -> (forall e, answers Q (h e)) -> answers Q (try_catch m h).
Proof.
  intros Hm Hh w a w' E. unfold try_catch in E.
  destruct (m w) as [[a0|e] w1] eqn:Em.
  - inversion E; subst. eapply Hm; eassumption.
  - eapply Hh; eassumption.
Qed.

Lemma answers_if {A} (Q : A -> Prop) (b : bool) (m1 m2 : M St A) :
  answers Q m1 -> answers Q m2 -> answers Q (if b then m1 else m2).
Proof. destruct b; auto. Qed.

Lemma emits_ret {A} (P : Call -> Prop) (a : A) : emits P (ret (St := St) a).
Proof.
  intros w r w' E. inversion E; subst. exists []. now rewrite app_nil_r.
Qed.

Lemma emits_throw {A} (P : Call -> Prop) (e : Exn) :
  emits P (throw (St := St) (A := A) e).
Proof.
  intros w r w' E. inversion E; subst. exists []. now rewrite app_nil_r.
Qed.

Lemma emits_record (P : Call -> Prop) (c : Call) :
  P c -> emits P (record (St := St) c).
Proof.
  intros Hc w r w' E. inversion E; subst. exists [c]. simpl. auto.
Qed.

Lemma emits_console_error (P : Call -> Prop) (msg : string) :
  emits P (console_error (St := St) msg).
Proof.
  intros w r w' E. inversion E; subst. exists []. simpl. now rewrite app_nil_r.
Qed.

Lemma emits_random (P : Call -> Prop) : emits P (random (St := St)).
Proof.
  intros w r w' E. inversion E; subst. exists []. simpl. now rewrite app_nil_r.
Qed.

Lemma emits_now (P : Call -> Prop) : emits P (now (St := St)).
Proof.
  intros w r w' E. inversion E; subst. exists []. now rewrite app_nil_r.
Qed.

Lemma emits_on_store {A} (P : Call -> Prop) (op : St -> Result A * St) :
  emits P (on_store op).
Proof.
  intros w r w' E. unfold on_store in E. destruct (op (store w)) as [r0 s'].
  inversion E; subst. exists []. simpl. now rewrite app_nil_r.
Qed.

Lemma emits_bind {A B} (P : Call -> Prop) (m : M St A) (k : A -> M St B) :
  emits P m -> (forall a, emits P (k a)) -> emits P (bind m k).
Proof.
  intros Hm Hk w r w' E. unfold bind in E.
  destruct (m w) as [[a|e] w1] eqn:Em.
  - destruct (Hm _ _ _ Em) as (cs1 & H1 & F1).
    destruct (Hk a _ _ _ E) as (cs2 & H2 & F2).
    exists (cs1 ++ cs2)%list. rewrite H2, H1, app_assoc. split; [reflexivity|].
    apply Forall_app; auto.
  - inversion E; subst. eapply Hm; eassumption.
Qed.

Lemma emits_try_catch {A} (P : Call -> Prop) (m : M St A) (h : Exn -> M St A) :
  emits P m -> (forall e, emits P (h e)) -> emits P (try_catch m h).
Proof.
  intros Hm Hh w r w' E. unfold try_catch in E.
  destruct (m w) as [[a|e] w1] eqn:Em.
  - inversion E; subst. eapply Hm; eassumption.
  - destruct (Hm _ _ _ Em) as (cs1 & H1 & F1).
    destruct (Hh e _ _ _ E) as (cs2 & H2 & F2).
    exists (cs1 ++ cs2)%list. rewrite H2, H1, app_assoc. split; [reflexivity|].
    apply Forall_app; auto.
Qed.

Lemma emits_if {A} (P : Call -> Prop) (b : bool) (m1 m2 : M St A) :
  emits P m1 -> emits P m2 -> emits P (if b then m1 else m2).
Proof. destruct b; auto. Qed.

Lemma total_ret {A} (a : A) : total (ret (St := St) a).
Proof. intros w. exists a, w. reflexivity. Qed.

Lemma total_bind {A B} (m : M St A) (k : A -> M St B) :
  total m -> (forall a, total (k a)) -> total (bind m k).
Proof.
  intros Hm Hk w. destruct (Hm w) as (a & w1 & E).
  destruct (Hk a w1) as (b & w2 & E2).
  exists b, w2. unfold bind. now rewrite E.
Qed.

Lemma total_try_catch {A} (m : M St A) (h : Exn -> M St A) :
  (forall e, total (h e)) -> total (try_catch m h).
Proof.
  intros Hh w. unfold try_catch.
  destruct (m w) as [[a|e] w1]; [now exists a, w1 | apply Hh].
Qed.

Lemma total_console_error (msg : string) : total (console_error (St := St) msg).
Proof. intros w. eexists _, _. reflexivity. Qed.

End MonadLemmas.

(** The calls added by a run are those its trace was extended with. *)
Lemma calls_since_app {St} (w w' : World St) (cs : list Call) :
  trace w' = (trace w ++ cs)%list -> calls_since w w' = cs.
Proof.
  intros H. unfold calls_since. rewrite H. clear H.
  induction (trace w) as [|c l IH]; simpl; [reflexivity | exact IH].
Qed.

(* ===================================================================== *)
(** ** The password never leaves the server *)
(* ===================================================================== *)

Lemma scrubbed_error (n : nat) (msg : string) :
  scrubbed (mkResponse n (BError msg)).
Proof. intros u H. discriminate H. Qed.

Lemma scrubbed_auth (n : nat) (t : string) (u : User) :
  scrubbed (mkResponse n (BAuth t (withoutPassword u))).
Proof. intros u' H. inversion H. reflexivity. Qed.

Lemma scrubbed_user (n : nat) (u : User) :
  scrubbed (mkResponse n (BUser (withoutPassword u))).
Proof. intros u' H. inversion H. reflexivity. Qed.

#[local] Hint Resolve scrubbed_error scrubbed_auth scrubbed_user : scrub.

(** One step of a proof that a handler [answers] with a scrubbed response:
    follow the handler's control structure. *)
Ltac answers_step :=
  match goal with
  | |- answers _ (try_catch _ _) => apply answers_try_catch; [|intros ?]
  | |- answers _ (bind _ _) => apply answers_bind; intros ?
  | |- answers _ (if _ then _ else _) => apply answers_if
  | |- answers _ (match ?x with Some _ => _ | None => _ end) => destruct x
  | |- answers _ (error _ _) => apply answers_ret
  | |- answers _ (ret _) => apply answers_ret
  end.

Section Scrubbed.

Context {L : Libs} {St : Type} {S : Storage St}.

Lemma register_scrubbed (req : RegisterBody) : answers scrubbed (register req).
Proof. unfold register; cbv zeta. repeat answers_step; unfold json; auto with scrub. Qed.

Lemma login_scrubbed (req : LoginBody) : answers scrubbed (login req).
Proof. unfold login; cbv zeta. repeat answers_step; unfold json; auto with scrub. Qed.

Lemma login_or_create_scrubbed (secret : M St string) (p : TokenPayload) :
  answers scrubbed (login_or_create secret p).
Proof.
  unfold login_or_create; cbv zeta.
  repeat answers_step; unfold json; auto with scrub.
Qed.

Lemma create_only_scrubbed (secret : M St string) (p : TokenPayload) :
  answers scrubbed (create_only secret p).
Proof.
  unfold create_only; cbv zeta.
  repeat answers_step; unfold json; auto with scrub.
Qed.

Lemma googleLogin_scrubbed (req : GoogleBody) :
  answers scrubbed (googleLogin req).
Proof.
  unfold googleLogin, googleLogin_primary, googleLogin_fallback; cbv zeta.
  repeat answers_step;
    auto using login_or_create_scrubbed with scrub.
Qed.

Lemma registerWithGoogle_scrubbed (req : GoogleBody) :
  answers scrubbed (registerWithGoogle req).
Proof.
  unfold registerWithGoogle, registerWithGoogle_primary,
    registerWithGoogle_fallback; cbv zeta.
  repeat answers_step;
    auto using create_only_scrubbed with scrub.
Qed.

Lemma getCurrentUser_scrubbed (h : option string) :
  answers scrubbed (getCurrentUser h).
Proof.
  unfold getCurrentUser; cbv zeta.
  repeat answers_step; unfold json; auto with scrub.
Qed.

(** Every auth handler answers: its outermost [catch] does not throw. *)
Lemma authRoute_total (rq : AuthRequest) : total (authRoute rq).
Proof.
  destruct rq; simpl; apply total_try_catch; intros e;
    (apply total_bind; [apply total_console_error | intros _; apply total_ret]).
Qed.

End Scrubbed.

(** C1.  For each of the five auth operations (register, login,
    googleLogin, registerWithGoogle, getCurrentUser), over any storage
    layer and any libraries: when the operation answers with a response
    that carries a user object, that object's password field is undefined,
    whatever password hash the stored record holds. *)
Theorem auth_response_has_no_password :
  forall (L : Libs) (St : Type) (S : Storage St)
         (rq : AuthRequest) (w w' : World St) (r : Response) (u : User),
    authRoute rq w = (Ok r, w') ->
    response_user r = Some u ->
    password u = None.
Proof.
  intros L St S rq w w' r u Hrun Hu.
  assert (H : answers scrubbed (authRoute rq)).
  { destruct rq; simpl.
    - apply register_scrubbed.
    - apply login_scrubbed.
    - apply getCurrentUser_scrubbed.
    - apply googleLogin_scrubbed.
    - apply registerWithGoogle_scrubbed. }
  exact (H _ _ _ Hrun u Hu).
Qed.

(** Ava's registration: the stored record holds the hash, the response
    does not. *)
Lemma auth_response_has_no_password_witness :
  exists r w' u,
    authRoute (PostRegister ava_body) (world emptyDb) = (Ok r, w')
    /\ response_user r = Some u
    /\ (exists stored, In stored (users (store w'))
                       /\ password stored = Some "$2a$10$secret1")
    /\ password u = None.
Proof.
  eexists _, _, _.
  split; [vm_compute; reflexivity|]. split; [vm_compute; reflexivity|].
  split; [eexists; split; [left; reflexivity | vm_compute; reflexivity]|].
  eapply (@auth_response_has_no_password demoLibs Db memStorage
            (PostRegister ava_body) (world emptyDb));
    vm_compute; reflexivity.
Defined.

(** Symbolic execution: open the monad and the calls of a handler, leaving
    the libraries and the storage layer as they are. *)
Ltac open_calls :=
  cbv beta iota zeta delta
    [try_catch bind ret throw record console_error random now on_store error
     getUser getUserByEmail getUserByUsername createUser createDoc updateDoc
     deleteDoc bcrypt_genSalt bcrypt_hash bcrypt_hash_rounds bcrypt_compare
     Math_random_toString jwt_sign jwt_verify verifyIdToken verify_primary
     JSON_parse_base64 sign_user sub_or_random];
  cbn [store clock entropy console trace fst snd negb orb andb].

(* ===================================================================== *)
(** ** Primary verification of a Google token *)
(* ===================================================================== *)

(** The library in the model does compare audiences when it is asked to:
    a token for another audience is thrown out. *)
Lemma verifyIdToken_checks_a_requested_audience :
  forall (L : Libs) (St : Type) (cid tok a : string) (w : World St)
         (p : TokenPayload),
    google_certs_check tok (clock w) = Some p ->
    aud p <> a ->
    exists e, verifyIdToken cid tok (Some a) w
              = (Throw e, called (CVerifyIdToken tok (Some a)) w).
Proof.
  intros L St cid tok a w p Hsig Haud.
  unfold verifyIdToken, bind, record, now, called; simpl.
  rewrite Hsig. apply String.eqb_neq in Haud. rewrite Haud.
  eexists. reflexivity.
Qed.

(** The one call of the primary path to the library, run: its outcome is
    the outcome of the certificate check, and the call recorded asks for no
    audience. *)
Lemma verify_primary_run :
  forall (L : Libs) (St : Type) (tok : string) (w : World St),
    verify_primary tok w
    = (match google_certs_check tok (clock w) with
       | Some p => Ok (mkTicket (Some p))
       | None => Throw (VerifyError "Invalid token signature")
       end,
       called (CVerifyIdToken tok None) w).
Proof.
  intros L St tok w.
  unfold verify_primary, verifyIdToken, bind, record, now, called; simpl.
  destruct (google_certs_check tok (clock w)); reflexivity.
Qed.

(* ===================================================================== *)
(** ** Exceptions of the storage layer *)
(* ===================================================================== *)

Section StoreExceptions.

Context {L : Libs} {St : Type} {S : Storage St}.

(** [register] and [login] have one [try] around the whole body: when the
    first lookup throws, they answer 500. *)
Lemma register_lookup_exception :
  forall (req : RegisterBody) (w : World St) (x : Exn) (s' : St),
    complete req = true ->
    db_getUserByEmail (JS.str (rb_email req)) (store w) = (Throw x, s') ->
    response (register req w)
    = Some (mkResponse 500 (BError "Error creating user")).
Proof.
  intros req w x s' Hc Hdb. unfold complete in Hc.
  apply andb_prop in Hc as [Hc Hp]. apply andb_prop in Hc as [Hn He].
  unfold register. rewrite Hn, He, Hp. open_calls.
  rewrite Hdb. reflexivity.
Qed.

Lemma login_lookup_exception :
  forall (req : LoginBody) (w : World St) (x : Exn) (s' : St),
    JS.truthy (lb_email req) = true ->
    JS.truthy (lb_password req) = true ->
    db_getUserByEmail (JS.str (lb_email req)) (store w) = (Throw x, s') ->
    response (login req w)
    = Some (mkResponse 500 (BError "Error logging in")).
Proof.
  intros req w x s' He Hp Hdb.
  unfold login. rewrite He, Hp. open_calls.
  rewrite Hdb. reflexivity.
Qed.

(** [getCurrentUser] looks the user up inside the [try] whose [catch] is
    meant for [jwt.verify]: with a token that verifies, an exception of the
    lookup is answered 401 "Invalid token". *)
Lemma getCurrentUser_lookup_exception :
  forall (h : option string) (w : World St) (c : Claims) (tk : string)
         (x : Exn) (s' : St),
    no_bearer h = false ->
    bearer_token h = Some tk ->
    jwt_decode tk JWT_SECRET (clock w) = Some c ->
    db_getUser (c_id c) (store w) = (Throw x, s') ->
    response (getCurrentUser h w)
    = Some (mkResponse 401 (BError "Invalid token")).
Proof.
  intros h w c tk x s' Hb Ht Hjwt Hdb.
  unfold getCurrentUser. rewrite Hb, Ht. open_calls.
  rewrite Hjwt. open_calls. rewrite Hdb. reflexivity.
Qed.

End StoreExceptions.

(** C3 fails on the code.  With the database connection lost,
    [getCurrentUser] answers a bearer of a valid session token 401 "Invalid
    token"; [googleLogin] and [registerWithGoogle] answer a token that
    Google signed 400 when both their lookups fail, and when only the first
    lookup fails they carry on in the [catch] block meant for verification
    errors and answer 200 from the hand-decoded payload. *)
Theorem store_exception_answered_4xx_or_200 :
  response (getCurrentUser (bearer ava_x) (world ([true], ava_db)))
  = Some (mkResponse 401 (BError "Invalid token"))
  /\ response (googleLogin (mkGoogleBody (Some signed_token))
                 (world ([true; true], emptyDb)))
     = Some (mkResponse 400 (BError "Unable to process Google token"))
  /\ response (registerWithGoogle (mkGoogleBody (Some signed_token))
                 (world ([true; true], emptyDb)))
     = Some (mkResponse 400 (BError "Unable to process Google token"))
  /\ (exists tok u w',
        googleLogin (mkGoogleBody (Some signed_token)) (world ([true], emptyDb))
        = (Ok (mkResponse 200 (BAuth tok u)), w')
        /\ console w' = ["Token verification error:"])
  /\ (exists tok u w',
        registerWithGoogle (mkGoogleBody (Some signed_token))
          (world ([true], emptyDb))
        = (Ok (mkResponse 200 (BAuth tok u)), w')
        /\ console w' = ["Token verification error:"]).
Proof.
  repeat split; try (vm_compute; reflexivity);
    eexists _, _, _; split; vm_compute; reflexivity.
Qed.

(* ===================================================================== *)
(** ** Rejected logins *)
(* ===================================================================== *)

(** C4.  A [login] call with e-mail address and password both present:
    - when no stored record matches the address, it answers 401 "Invalid
      email or password";
    - when the stored hash does not verify against the password, it
      answers the same 401;
    - when the matching record has no password hash, it answers with the
      distinct error "This account uses a different authentication method"
      (status 400).
    In all three cases the response carries no token and [jwt.sign] is not
    called: the calls made are the lookup, and the hash comparison in the
    second case. *)
Theorem login_rejections :
  forall (L : Libs) (St : Type) (S : Storage St) (req : LoginBody)
         (w : World St) (found : option User) (s' : St),
    JS.truthy (lb_email req) = true ->
    JS.truthy (lb_password req) = true ->
    db_getUserByEmail (JS.str (lb_email req)) (store w) = (Ok found, s') ->
    let e := JS.str (lb_email req) in
    let pw := JS.str (lb_password req) in
    (found = None ->
     rejects (login req w) w
       (mkResponse 401 (BError "Invalid email or password"))
       [CGetUserByEmail e])
    /\ (forall u, found = Some u ->
          JS.truthy (password u) = true ->
          bcrypt_check pw (JS.str (password u)) = false ->
          rejects (login req w) w
            (mkResponse 401 (BError "Invalid email or password"))
            [CGetUserByEmail e; CBcryptCompare pw (JS.str (password u))])
    /\ (forall u, found = Some u ->
          JS.truthy (password u) = false ->
          rejects (login req w) w
            (mkResponse 400
               (BError "This account uses a different authentication method"))
            [CGetUserByEmail e]).
Proof.
  intros L St S req w found s' He Hp Hdb e pw.
  assert (Hrej : forall resp cs w',
             login req w = (Ok resp, w') ->
             trace w' = (trace w ++ cs)%list ->
             response_token resp = None ->
             existsb is_sign cs = false ->
             rejects (login req w) w resp cs).
  { intros resp cs w' Hrun Ht Htok Hsign. unfold rejects. rewrite Hrun.
    cbn [fst snd]. erewrite calls_since_app by exact Ht. auto. }
  split; [|split].
  - intros ->. eapply Hrej; [| | reflexivity | reflexivity].
    + unfold login. rewrite He, Hp. open_calls. rewrite Hdb. reflexivity.
    + reflexivity.
  - intros u -> Hhash Hcmp. eapply Hrej; [| | reflexivity | reflexivity].
    + unfold login. rewrite He, Hp. open_calls.
      rewrite Hdb. rewrite Hhash. open_calls. fold pw. rewrite Hcmp.
      reflexivity.
    + cbn [trace]. now rewrite <- app_assoc.
  - intros u -> Hhash. eapply Hrej; [| | reflexivity | reflexivity].
    + unfold login. rewrite He, Hp. open_calls.
      rewrite Hdb. rewrite Hhash. reflexivity.
    + reflexivity.
Qed.

(** Ava's record is stored with the hash of "secret1"; a login with
    "letmein" is turned away, and the only calls are the lookup and the
    comparison. *)
Lemma login_rejections_witness :
  rejects (login (mkLoginBody (Some "ava@x.com") (Some "letmein")) (world ava_db))
    (world ava_db)
    (mkResponse 401 (BError "Invalid email or password"))
    [CGetUserByEmail "ava@x.com"; CBcryptCompare "letmein" "$2a$10$secret1"]
  /\ rejects (login (mkLoginBody (Some "bob@x.com") (Some "letmein")) (world ava_db))
       (world ava_db)
       (mkResponse 401 (BError "Invalid email or password"))
       [CGetUserByEmail "bob@x.com"].
Proof.
  split.
  - refine (proj1 (proj2
      (@login_rejections demoLibs Db memStorage
         (mkLoginBody (Some "ava@x.com") (Some "letmein")) (world ava_db)
         (Some ava_x) ava_db _ _ _)) ava_x _ _ _);
      vm_compute; reflexivity.
  - refine (proj1
      (@login_rejections demoLibs Db memStorage
         (mkLoginBody (Some "bob@x.com") (Some "letmein")) (world ava_db)
         None ava_db _ _ _) _);
      vm_compute; reflexivity.
Defined.

(* ===================================================================== *)
(** ** Lemmas on the database *)
(* ===================================================================== *)

Lemma find_last {A} (f : A -> bool) (l : list A) (x : A) :
  find f (l ++ [x])
  = match find f l with
    | Some y => Some y
    | None => if f x then Some x else None
    end.
Proof.
  induction l as [|a l IH]; simpl.
  - reflexivity.
  - destruct (f a); [reflexivity | exact IH].
Qed.

Lemma find_none_existsb {A} (f : A -> bool) (l : list A) :
  find f l = None -> existsb f l = false.
Proof.
  induction l as [|a l IH]; simpl; [reflexivity|].
  destruct (f a); [discriminate | exact IH].
Qed.

(** An insert that the database accepts appends one record and leaves the
    others alone. *)
Lemma mem_createUser_accepts (nu : InsertUser) (db : Db) :
  existsb (has_email (iu_email nu)) (users db) = false ->
  username_free (iu_username nu) db = true ->
  mem_createUser nu db
  = (Ok (document (fresh_id (next_id db)) nu),
     mkDb (users db ++ [document (fresh_id (next_id db)) nu]) (docs db)
          (Datatypes.S (next_id db))).
Proof.
  intros He Hu. unfold mem_createUser. rewrite He.
  unfold username_free in Hu.
  destruct (iu_username nu =? "") eqn:En; simpl in *.
  - reflexivity.
  - apply negb_true_iff in Hu. rewrite Hu. reflexivity.
Qed.

(** An insert that the database refuses changes nothing. *)
Lemma mem_createUser_inv (nu : InsertUser) (db db' : Db) (r : Result User) :
  mem_createUser nu db = (r, db') ->
  (exists x, r = Throw x /\ db' = db)
  \/ (r = Ok (document (fresh_id (next_id db)) nu)
      /\ users db' = (users db ++ [document (fresh_id (next_id db)) nu])%list
      /\ existsb (has_email (iu_email nu)) (users db) = false
      /\ username_free (iu_username nu) db = true).
Proof.
  unfold mem_createUser, username_free.
  destruct (existsb (has_email (iu_email nu)) (users db)) eqn:He.
  - intros H; inversion H; subst. left. eauto.
  - destruct (iu_username nu =? ""); simpl.
    + intros H; inversion H; subst. right. auto.
    + destruct (existsb (has_username (iu_username nu)) (users db)); simpl;
        intros H; inversion H; subst; [left; eauto | right; auto].
Qed.

(** Symbolic execution against the database. *)
Ltac open_db :=
  cbn [db_getUser db_getUserByEmail db_getUserByUsername db_createUser
       db_create db_update db_delete memStorage
       store clock entropy console trace fst snd].

(* ===================================================================== *)
(** ** Registering a known e-mail address *)
(* ===================================================================== *)

Section Register.

Context {L : Libs}.

Lemma register_known_email (req : RegisterBody) (w : World Db) (u : User) :
  complete req = true ->
  find (has_email (JS.str (rb_email req))) (users (store w)) = Some u ->
  register req w
  = (Ok (mkResponse 400 (BError "User with this email already exists")),
     called (CGetUserByEmail (JS.str (rb_email req))) w).
Proof.
  intros Hc Hfind. unfold complete in Hc.
  apply andb_prop in Hc as [Hc Hp]. apply andb_prop in Hc as [Hn He].
  unfold register. rewrite Hn, He, Hp. open_calls. open_db.
  rewrite Hfind. destruct w; reflexivity.
Qed.

End Register.

Lemma existsb_false_find {A} (f : A -> bool) (l : list A) :
  existsb f l = false -> find f l = None.
Proof.
  induction l as [|a l IH]; simpl; [reflexivity|].
  destruct (f a); [discriminate | exact IH].
Qed.

Section RegisterFresh.

Context {L : Libs}.

(** [register] for an address nobody has, when the username of the new
    record is free: the call succeeds and appends the record it returns. *)
Lemma register_fresh (req : RegisterBody) (w : World Db) :
  complete req = true ->
  find (has_email (JS.str (rb_email req))) (users (store w)) = None ->
  username_free
    (JS.or_else (rb_username req) (local_part (JS.str (rb_email req))))
    (store w) = true ->
  exists tok u w1,
    register req w = (Ok (json (BAuth tok (withoutPassword u))), w1)
    /\ users (store w1) = (users (store w) ++ [u])%list
    /\ email u = JS.str (rb_email req)
    /\ clock w1 = clock w.
Proof.
  intros Hc Hfind Hfree. pose proof (find_none_existsb _ _ Hfind) as Hex.
  unfold complete in Hc.
  apply andb_prop in Hc as [Hc Hp]. apply andb_prop in Hc as [Hn He].
  unfold register. rewrite Hn, He, Hp. open_calls. open_db. rewrite Hfind.
  destruct (JS.truthy (rb_username req)) eqn:Hu.
  - assert (Hname : find (has_username (JS.str (rb_username req)))
                      (users (store w)) = None).
    { apply existsb_false_find.
      unfold username_free, JS.or_else, JS.truthy in *.
      destruct (rb_username req) as [n|]; [|discriminate].
      cbn [JS.str]. destruct (n =? "") eqn:En; [discriminate|].
      rewrite En in Hfree. simpl in Hfree. now apply negb_true_iff in Hfree. }
    open_calls. open_db. rewrite Hname. open_calls. open_db.
    rewrite mem_createUser_accepts by assumption.
    open_calls. eexists _, _, _. split; [reflexivity|].
    cbn [store clock users email document newUser iu_email]. auto.
  - open_calls. open_db.
    rewrite mem_createUser_accepts by assumption.
    open_calls. eexists _, _, _. split; [reflexivity|].
    cbn [store clock users email document newUser iu_email]. auto.
Qed.

End RegisterFresh.

(** C5, as the code has it.  Over the database of the specification, for a
    [register] call with name, address and password present:
    - when a stored record already has the address, the call answers 400
      "User with this email already exists"; it calls the lookup by address
      and nothing else, so no record is inserted;
    - when no record has the address and the username of the new record
      (the one given, or the part of the address before '@' when none is
      given) is not taken by another record, the call succeeds and appends
      the record it returns, and a further complete [register] call with
      the same address gets the 400 and leaves the database as it was. *)
Theorem register_refuses_known_email :
  forall (L : Libs) (req req2 : RegisterBody) (w : World Db),
    complete req = true ->
    let e := JS.str (rb_email req) in
    let duplicate := mkResponse 400 (BError "User with this email already exists") in
    (forall u, find (has_email e) (users (store w)) = Some u ->
               register req w = (Ok duplicate, called (CGetUserByEmail e) w))
    /\ (find (has_email e) (users (store w)) = None ->
        username_free (JS.or_else (rb_username req) (local_part e)) (store w)
        = true ->
        complete req2 = true ->
        rb_email req2 = rb_email req ->
        exists tok u w1,
          register req w = (Ok (json (BAuth tok (withoutPassword u))), w1)
          /\ users (store w1) = (users (store w) ++ [u])%list
          /\ email u = e
          /\ register req2 w1 = (Ok duplicate, called (CGetUserByEmail e) w1)).
Proof.
  intros L req req2 w Hc e duplicate. split.
  - intros u Hu. apply (register_known_email req w Hc Hu).
  - subst e. intros Hfind Hfree Hc2 Hsame.
    destruct (register_fresh req w Hc Hfind Hfree)
      as (tok & u & w1 & Hrun & Hu & He & _).
    exists tok, u, w1. repeat (split; [assumption|]).
    assert (Hfind1 : find (has_email (JS.str (rb_email req2))) (users (store w1))
                     = Some u).
    { rewrite Hsame, Hu, find_last, Hfind. unfold has_email. rewrite He.
      now rewrite String.eqb_refl. }
    rewrite <- Hsame.
    apply (register_known_email req2 w1 Hc2 Hfind1).
Qed.

(** C5 fails as stated: with a record "ava@x.com" whose username is "ava"
    in the database, a [register] call with a name, a password and the
    address "ava@y.com", which no record has, and without a username, does
    not succeed.  The insert of the new record is refused because the
    username derived from the address is taken, and the answer is 500
    "Error creating user"; nothing is written, so the second call with the
    same input is answered like the first, not with "User with this email
    already exists". *)
Lemma register_fails_on_taken_username :
  let req := mkRegisterBody (Some "Ann") (Some "ava@y.com") (Some "secret2")
                            None in
  let first := register req (world ava_db) in
  let second := register req (snd first) in
  complete req = true
  /\ find (has_email "ava@y.com") (users ava_db) = None
  /\ response first = Some (mkResponse 500 (BError "Error creating user"))
  /\ store (snd first) = ava_db
  /\ response second = Some (mkResponse 500 (BError "Error creating user")).
Proof.
  repeat split; vm_compute; reflexivity.
Qed.

(** Ava registers on an empty database, then a second request with her
    address and other details is refused. *)
Lemma register_refuses_known_email_witness :
  let again := mkRegisterBody (Some "Eve") (Some "ava@x.com") (Some "hunter2")
                              (Some "eve") in
  complete ava_body = true
  /\ find (has_email "ava@x.com") (users emptyDb) = None
  /\ username_free (local_part "ava@x.com") emptyDb = true
  /\ exists tok u w1,
       register ava_body (world emptyDb)
       = (Ok (json (BAuth tok (withoutPassword u))), w1)
       /\ users (store w1) = (users (store (world emptyDb)) ++ [u])%list
       /\ email u = JS.str (rb_email ava_body)
       /\ register again w1
          = (Ok (mkResponse 400 (BError "User with this email already exists")),
             called (CGetUserByEmail (JS.str (rb_email ava_body))) w1).
Proof.
  intros again.
  split; [reflexivity|]. split; [reflexivity|]. split; [reflexivity|].
  pose proof (proj2 (@register_refuses_known_email demoLibs ava_body again
                       (world emptyDb) eq_refl)
                eq_refl eq_refl eq_refl eq_refl) as H.
  exact H.
Defined.

(* ===================================================================== *)
(** ** The fallback for Google tokens *)
(* ===================================================================== *)

(** One step of a proof that a handler [emits] only calls of some kind. *)
Ltac emits_step :=
  match goal with
  | |- emits _ (try_catch _ _) => apply emits_try_catch; [|intros ?]
  | |- emits _ (bind _ _) => apply emits_bind; [|intros ?]
  | |- emits _ (if _ then _ else _) => apply emits_if
  | |- emits _ (match ?x with Some _ => _ | None => _ end) => destruct x
  | |- emits _ (ret _) => apply emits_ret
  | |- emits _ (throw _) => apply emits_throw
  | |- emits _ (error _ _) => apply emits_ret
  | |- emits _ (record _) => apply emits_record
  | |- emits _ (console_error _) => apply emits_console_error
  | |- emits _ random => apply emits_random
  | |- emits _ now => apply emits_now
  | |- emits _ (on_store _) => apply emits_on_store
  end.

Ltac unfold_calls :=
  unfold getUser, getUserByEmail, getUserByUsername, createUser, createDoc,
    updateDoc, deleteDoc, bcrypt_genSalt, bcrypt_hash, bcrypt_hash_rounds,
    bcrypt_compare, Math_random_toString, jwt_sign, jwt_verify,
    JSON_parse_base64, sign_user, sub_or_random.

Section Fallback.

Context {L : Libs} {St : Type} {S : Storage St}.

Lemma login_or_create_emits (P : Call -> Prop) (secret : M St string)
      (p : TokenPayload) :
  (forall c, is_verification c = false -> P c) ->
  emits P secret ->
  emits P (login_or_create secret p).
Proof.
  intros HP Hs. unfold login_or_create; cbv zeta.
  repeat first [emits_step | progress unfold_calls]; auto.
Qed.

Lemma create_only_emits (P : Call -> Prop) (secret : M St string)
      (p : TokenPayload) :
  (forall c, is_verification c = false -> P c) ->
  emits P secret ->
  emits P (create_only secret p).
Proof.
  intros HP Hs. unfold create_only; cbv zeta.
  repeat first [emits_step | progress unfold_calls]; auto.
Qed.

(** The [catch] block makes no call that verifies a signature. *)
Lemma google_fallback_never_verifies (k : GoogleRoute) (tok : string) :
  emits (fun c => is_verification c = false) (google_fallback k tok).
Proof.
  destruct k; simpl;
    unfold googleLogin_fallback, registerWithGoogle_fallback; cbv zeta;
    unfold JSON_parse_base64;
    repeat emits_step;
    try (apply login_or_create_emits || apply create_only_emits);
    auto; unfold Math_random_toString; repeat emits_step.
Qed.

(** The [catch] block always answers. *)
Lemma google_fallback_total (k : GoogleRoute) (tok : string) :
  total (google_fallback k tok).
Proof.
  destruct k; simpl; apply total_try_catch; intros e;
    (apply total_bind; [apply total_console_error | intros _; apply total_ret]).
Qed.

End Fallback.

(** C6.  In [googleLogin] and in [registerWithGoogle], for a non-empty
    token on which the first [try] block throws, whatever the error: the
    handler's answer is the answer of the fallback, run after the error is
    logged.  The fallback splits the token on '.':
    - with a number of segments other than 3 it answers 400 "Invalid token
      format";
    - with 3 segments, when the middle segment base64-decodes to JSON
      without an e-mail address, it answers 400 "Invalid token content";
    - with 3 segments, when decoding the middle segment throws, it answers
      400 "Unable to process Google token".
    Whatever it answers, the fallback makes no call that verifies a
    signature. *)
Theorem fallback_after_primary_error :
  forall (L : Libs) (St : Type) (S : Storage St) (k : GoogleRoute)
         (tok : string) (w w1 : World St) (x : Exn),
    tok <> "" ->
    google_primary k tok w = (Throw x, w1) ->
    let w2 := logged "Token verification error:" w1 in
    let parts := JS.split dot tok in
    let middle := JS.str (JS.index parts 1) in
    google_handler k (mkGoogleBody (Some tok)) w = google_fallback k tok w2
    /\ (length parts <> 3 ->
        google_fallback k tok w2
        = (Ok (mkResponse 400 (BError "Invalid token format")), w2))
    /\ (length parts = 3 ->
        forall d, base64_json middle = Some d ->
                  lacks_email d = true ->
                  google_fallback k tok w2
                  = (Ok (mkResponse 400 (BError "Invalid token content")), w2))
    /\ (length parts = 3 ->
        base64_json middle = None ->
        google_fallback k tok w2
        = (Ok (mkResponse 400 (BError "Unable to process Google token")),
           logged "Fallback token handling error:" w2))
    /\ (exists cs, trace (snd (google_fallback k tok w2)) = (trace w2 ++ cs)%list
                   /\ Forall (fun c => is_verification c = false) cs).
Proof.
  intros L St S k tok w w1 x Htok Hprim w2 parts middle.
  assert (Htruthy : JS.truthy (Some tok) = true).
  { simpl. apply negb_true_iff. now apply String.eqb_neq. }
  split; [|split; [|split; [|split]]].
  - destruct (google_fallback_total k tok w2) as (r & w3 & Hfb).
    rewrite Hfb.
    destruct k; cbn [google_handler google_primary google_fallback] in *;
      unfold googleLogin, registerWithGoogle;
      cbv zeta; cbn [gb_token]; rewrite Htruthy; cbn [negb JS.str];
      unfold try_catch at 1 2; rewrite Hprim;
      unfold bind at 1, console_error at 1; fold w2;
      fold (logged "Token verification error:" w1); fold w2;
      rewrite Hfb; reflexivity.
  - intros Hlen. apply Nat.eqb_neq in Hlen.
    destruct k; simpl;
      unfold googleLogin_fallback, registerWithGoogle_fallback;
      cbv zeta; fold parts; rewrite Hlen; reflexivity.
  - intros Hlen d Hd Hlack. apply Nat.eqb_eq in Hlen.
    destruct k; simpl;
      unfold googleLogin_fallback, registerWithGoogle_fallback;
      cbv zeta; fold parts; rewrite Hlen; fold middle;
      unfold JSON_parse_base64; rewrite Hd; open_calls;
      (destruct d as [p|]; [simpl in Hlack; rewrite Hlack|]); reflexivity.
  - intros Hlen Hd. apply Nat.eqb_eq in Hlen.
    destruct k; simpl;
      unfold googleLogin_fallback, registerWithGoogle_fallback;
      cbv zeta; fold parts; rewrite Hlen; fold middle;
      unfold JSON_parse_base64; rewrite Hd; open_calls; reflexivity.
  - destruct (google_fallback k tok w2) as [r w3] eqn:Hfb.
    exact (google_fallback_never_verifies k tok _ Hfb).
Qed.

(** A token nobody signed: the verifier throws, the handler answers what
    the fallback answers, and that is a session token. *)
Lemma fallback_after_primary_error_witness :
  let w := world emptyDb in
  let w1 := called (CVerifyIdToken forged_token None) w in
  let w2 := logged "Token verification error:" w1 in
  forged_token <> ""
  /\ google_primary ViaGoogleLogin forged_token w
     = (Throw (VerifyError "Invalid token signature"), w1)
  /\ google_handler ViaGoogleLogin (mkGoogleBody (Some forged_token)) w
     = google_fallback ViaGoogleLogin forged_token w2
  /\ option_map status (response (google_fallback ViaGoogleLogin forged_token w2))
     = Some 200.
Proof.
  intros w w1 w2.
  assert (H1 : forged_token <> "") by (intro H; discriminate H).
  assert (H2 : google_primary ViaGoogleLogin forged_token w
               = (Throw (VerifyError "Invalid token signature"), w1))
    by (vm_compute; reflexivity).
  split; [exact H1|]. split; [exact H2|].
  split; [|vm_compute; reflexivity].
  pose proof (@fallback_after_primary_error demoLibs Db memStorage
                ViaGoogleLogin forged_token w w1 _ H1 H2) as H.
  cbv zeta in H. destruct H as [H _]. exact H.
Defined.

(* ===================================================================== *)
(** ** The primary path of the Google handlers *)
(* ===================================================================== *)

Section Primary.

Context {L : Libs} {St : Type} {S : Storage St}.

(** A Google handler on a non-empty token: the answer of the first [try]
    block when it answers, and otherwise the fallback after the log line.
    The outermost [catch] is not entered. *)
Lemma google_handler_run (k : GoogleRoute) (tok : string) (w : World St) :
  tok <> "" ->
  google_handler k (mkGoogleBody (Some tok)) w
  = match google_primary k tok w with
    | (Ok r, w1) => (Ok r, w1)
    | (Throw _, w1) =>
        google_fallback k tok (logged "Token verification error:" w1)
    end.
Proof.
  intros Htok.
  assert (Htruthy : JS.truthy (Some tok) = true).
  { simpl. apply negb_true_iff. now apply String.eqb_neq. }
  destruct (google_primary k tok w) as [[r|x] w1] eqn:Hprim.
  - destruct k; cbn [google_handler google_primary] in *;
      unfold googleLogin, registerWithGoogle;
      cbv zeta; cbn [gb_token]; rewrite Htruthy; cbn [negb JS.str];
      unfold try_catch at 1 2; rewrite Hprim; reflexivity.
  - destruct (google_fallback_total k tok
                (logged "Token verification error:" w1)) as (r & w3 & Hfb).
    rewrite Hfb.
    destruct k; cbn [google_handler google_primary google_fallback] in *;
      unfold googleLogin, registerWithGoogle;
      cbv zeta; cbn [gb_token]; rewrite Htruthy; cbn [negb JS.str];
      unfold try_catch at 1 2; rewrite Hprim;
      unfold bind at 1, console_error at 1;
      fold (logged "Token verification error:" w1);
      rewrite Hfb; reflexivity.
Qed.

(** The first [try] block, run: the verifier is asked for no audience, a
    token it rejects is thrown out, and with a token it accepts the block
    goes on with the payload. *)
Lemma google_primary_run (k : GoogleRoute) (tok : string) (w : World St) :
  google_primary k tok w
  = match google_certs_check tok (clock w) with
    | Some p =>
        if JS.truthy (p_email p)
        then google_tail k (sub_or_random p) p
               (called (CVerifyIdToken tok None) w)
        else (Ok (mkResponse 400 (BError "Invalid Google token payload")),
              logged "Invalid Google token payload:"
                     (called (CVerifyIdToken tok None) w))
    | None => (Throw (VerifyError "Invalid token signature"),
               called (CVerifyIdToken tok None) w)
    end.
Proof.
  destruct k; cbn [google_primary google_tail];
    unfold googleLogin_primary, registerWithGoogle_primary;
    unfold bind at 1; rewrite verify_primary_run;
    (destruct (google_certs_check tok (clock w)) as [p|]; [|reflexivity]);
    cbn [getPayload]; destruct (JS.truthy (p_email p)); reflexivity.
Qed.

(** What follows the verification in the first [try] block verifies
    nothing. *)
Lemma google_tail_never_verifies (k : GoogleRoute) (p : TokenPayload) :
  emits (fun c => is_verification c = false)
        (google_tail k (sub_or_random p) p).
Proof.
  destruct k; cbn [google_tail];
    (apply login_or_create_emits || apply create_only_emits); auto;
    unfold sub_or_random, Math_random_toString; repeat emits_step.
Qed.

(** Either handler, on a non-empty token, calls the verifier once, first
    and for no audience; no other call of the run verifies anything. *)
Lemma google_handler_verifies_once (k : GoogleRoute) (tok : string)
      (w w' : World St) (r : Result Response) :
  tok <> "" ->
  google_handler k (mkGoogleBody (Some tok)) w = (r, w') ->
  exists cs, calls_since w w' = CVerifyIdToken tok None :: cs
             /\ Forall (fun c => is_verification c = false) cs.
Proof.
  intros Htok. rewrite (google_handler_run k w Htok), google_primary_run.
  set (w1 := called (CVerifyIdToken tok None) w).
  assert (Hfb : forall w2 cs1,
             trace w2 = (trace w1 ++ cs1)%list ->
             Forall (fun c => is_verification c = false) cs1 ->
             google_fallback k tok (logged "Token verification error:" w2)
             = (r, w') ->
             exists cs, calls_since w w' = CVerifyIdToken tok None :: cs
                        /\ Forall (fun c => is_verification c = false) cs).
  { intros w2 cs1 Ht1 Hcs1 Hrun.
    destruct (google_fallback_never_verifies k tok _ Hrun) as (cs2 & Ht2 & Hcs2).
    exists (cs1 ++ cs2)%list. split; [|now apply Forall_app].
    apply calls_since_app. rewrite Ht2. cbn [logged trace]. rewrite Ht1.
    subst w1. cbn [called trace]. now rewrite <- !app_assoc. }
  destruct (google_certs_check tok (clock w)) as [p|].
  - destruct (JS.truthy (p_email p)).
    + destruct (google_tail k (sub_or_random p) p w1) as [[resp|x] w2] eqn:Htail;
        destruct (google_tail_never_verifies k p _ Htail) as (cs1 & Ht1 & Hcs1).
      * intros H; inversion H; subst. exists cs1. split; [|exact Hcs1].
        apply calls_since_app. rewrite Ht1. subst w1. cbn [called trace].
        now rewrite <- app_assoc.
      * apply (Hfb w2 cs1 Ht1 Hcs1).
    + intros H; inversion H; subst. exists []. split; [|constructor].
      apply calls_since_app. reflexivity.
  - apply (Hfb w1 []); [now rewrite app_nil_r | constructor].
Qed.

End Primary.

(** C2, as the code has it.  In [googleLogin] and in [registerWithGoogle]
    the primary path verifies the assertion against the identity provider's
    certificates only.
    - A token whose signature verifies passes, whatever audience it was
      issued for: the first [try] block goes on with its payload, after the
      one call to the library, which asks for no audience
      ([audience: undefined]).
    - A token whose signature does not verify is thrown out by that call.
    - On a non-empty token, what the first [try] block answers is what the
      handler answers; and in every run the handler calls the verifier
      once, first and for no audience, and no other call of the run
      verifies anything, so the audience is checked nowhere. *)
Theorem primary_path_checks_signature_only :
  forall (L : Libs) (St : Type) (S : Storage St) (k : GoogleRoute)
         (tok : string) (w : World St),
    let w1 := called (CVerifyIdToken tok None) w in
    (forall p,
        google_certs_check tok (clock w) = Some p ->
        google_primary k tok w
        = if JS.truthy (p_email p)
          then google_tail k (sub_or_random p) p w1
          else (Ok (mkResponse 400 (BError "Invalid Google token payload")),
                logged "Invalid Google token payload:" w1))
    /\ (google_certs_check tok (clock w) = None ->
        google_primary k tok w
        = (Throw (VerifyError "Invalid token signature"), w1))
    /\ (tok <> "" ->
        (forall r w',
            google_primary k tok w = (Ok r, w') ->
            google_handler k (mkGoogleBody (Some tok)) w = (Ok r, w'))
        /\ (forall r w',
              google_handler k (mkGoogleBody (Some tok)) w = (r, w') ->
              exists cs,
                calls_since w w' = CVerifyIdToken tok None :: cs
                /\ Forall (fun c => is_verification c = false) cs)).
Proof.
  intros L St S k tok w w1. subst w1. split; [|split].
  - intros p Hsig. rewrite google_primary_run, Hsig. reflexivity.
  - intros Hsig. rewrite google_primary_run, Hsig. reflexivity.
  - intros Htok. split.
    + intros r w' Hprim. rewrite (google_handler_run k w Htok), Hprim.
      reflexivity.
    + intros r w' Hrun. exact (google_handler_verifies_once k w Htok Hrun).
Qed.

(** C2 fails as stated: a token that Google signed for another application
    passes the primary path, and [googleLogin] answers it with a session
    token without ever entering the [catch] block. *)
Lemma foreign_audience_passes_primary_path :
  aud ava_payload <> GOOGLE_CLIENT_ID
  /\ verify_primary signed_token (world emptyDb)
     = (Ok (mkTicket (Some ava_payload)),
        called (CVerifyIdToken signed_token None) (world emptyDb))
  /\ exists tok u w',
       googleLogin (mkGoogleBody (Some signed_token)) (world emptyDb)
       = (Ok (json (BAuth tok u)), w')
       /\ console w' = [].
Proof.
  split; [intro H; discriminate H|].
  split; [vm_compute; reflexivity|].
  eexists _, _, _. split; vm_compute; reflexivity.
Qed.

(** The token that Google signed for another application, presented to
    [registerWithGoogle]: the first [try] block goes on with its payload. *)
Lemma primary_path_checks_signature_only_witness :
  let w := world emptyDb in
  let w1 := called (CVerifyIdToken signed_token None) w in
  google_certs_check signed_token (clock w) = Some ava_payload
  /\ aud ava_payload <> GOOGLE_CLIENT_ID
  /\ google_primary ViaRegisterWithGoogle signed_token w
     = if JS.truthy (p_email ava_payload)
       then google_tail ViaRegisterWithGoogle (sub_or_random ava_payload)
                        ava_payload w1
       else (Ok (mkResponse 400 (BError "Invalid Google token payload")),
             logged "Invalid Google token payload:" w1).
Proof.
  intros w w1.
  assert (Hsig : google_certs_check signed_token (clock w) = Some ava_payload)
    by reflexivity.
  split; [exact Hsig|]. split; [intro H; discriminate H|].
  pose proof (proj1 (@primary_path_checks_signature_only demoLibs Db memStorage
                       ViaRegisterWithGoogle signed_token w)
                ava_payload Hsig) as H.
  exact H.
Defined.

(* ===================================================================== *)
(** ** Google handlers on a resolved token *)
(* ===================================================================== *)

Section Resolved.

Context {L : Libs} {St : Type} {S : Storage St}.

Lemma quiet_Math_random_toString : quiet (Math_random_toString (St := St)).
Proof. intros w. eexists _, _. reflexivity. Qed.

Lemma quiet_sub_or_random (p : TokenPayload) : quiet (sub_or_random (St := St) p).
Proof.
  intros w. unfold sub_or_random. destruct (sub p =? "").
  - apply quiet_Math_random_toString.
  - exists (sub p), (entropy w). destruct w; reflexivity.
Qed.

(** Once a token resolves, the handler hands the resolved payload to its
    tail, after the one verifier call and, on the hand-decoding path, the
    log line; and it answers what the tail answers, when the tail does not
    throw. *)
Lemma google_handler_resolved (k : GoogleRoute) (t : string) (w : World St)
      (r : Resolved) :
  resolve t (clock w) = Some r ->
  exists secret w0,
    quiet secret
    /\ store w0 = store w /\ clock w0 = clock w
    /\ trace w0 = (trace w ++ [CVerifyIdToken t None])%list
    /\ JS.truthy (p_email (resolved_payload r)) = true
    /\ forall resp w',
        google_tail k secret (resolved_payload r) w0 = (Ok resp, w') ->
        google_handler k (mkGoogleBody (Some t)) w = (Ok resp, w').
Proof.
  unfold resolve. destruct (t =? "") eqn:Ht; [discriminate|].
  assert (Htruthy : JS.truthy (Some t) = true) by (simpl; now rewrite Ht).
  destruct (google_certs_check t (clock w)) as [p|] eqn:Hsig.
  - destruct (JS.truthy (p_email p)) eqn:Hmail; [|discriminate].
    intros H; inversion H; subst r; clear H. cbn [resolved_payload].
    exists (sub_or_random p), (called (CVerifyIdToken t None) w).
    split; [apply quiet_sub_or_random|].
    repeat (split; [reflexivity|]). split; [exact Hmail|].
    intros resp w' Htail.
    destruct k; cbn [google_handler google_tail] in *;
      unfold googleLogin, registerWithGoogle, googleLogin_primary,
        registerWithGoogle_primary;
      cbv zeta; cbn [gb_token]; rewrite Htruthy; cbn [negb JS.str];
      unfold try_catch at 1 2, bind at 1;
      rewrite verify_primary_run, Hsig;
      cbn [getPayload]; rewrite Hmail; cbn [negb];
      rewrite Htail; reflexivity.
  - unfold decode_by_hand.
    destruct (Nat.eqb (length (JS.split dot t)) 3) eqn:Hlen; [|discriminate].
    destruct (base64_json (JS.str (JS.index (JS.split dot t) 1)))
      as [[d|]|] eqn:Hdec; try discriminate.
    destruct (JS.truthy (p_email d)) eqn:Hmail; [|discriminate].
    intros H; inversion H; subst r; clear H. cbn [resolved_payload].
    exists Math_random_toString,
      (logged "Token verification error:" (called (CVerifyIdToken t None) w)).
    split; [apply quiet_Math_random_toString|].
    repeat (split; [reflexivity|]). split; [exact Hmail|].
    intros resp w' Htail.
    destruct k; cbn [google_handler google_tail] in *;
      unfold googleLogin, registerWithGoogle, googleLogin_primary,
        registerWithGoogle_primary, googleLogin_fallback,
        registerWithGoogle_fallback;
      cbv zeta; cbn [gb_token]; rewrite Htruthy; cbn [negb JS.str];
      unfold try_catch at 1 2, bind at 1;
      rewrite verify_primary_run, Hsig;
      unfold bind at 1, console_error at 1;
      fold (logged "Token verification error:" (called (CVerifyIdToken t None) w));
      unfold try_catch at 1; rewrite Hlen; cbn [negb];
      unfold bind at 1, JSON_parse_base64; rewrite Hdec;
      unfold ret at 1; rewrite Hmail; cbn [negb];
      rewrite Htail; reflexivity.
Qed.

End Resolved.

(* ===================================================================== *)
(** ** Google handlers on the database *)
(* ===================================================================== *)

Section GoogleOnDb.

Context {L : Libs}.

(** The tail of [googleLogin] on a known address: the stored record is
    reused, and the calls are the lookup and [jwt.sign]. *)
Lemma login_or_create_found (secret : M Db string) (p : TokenPayload)
      (w : World Db) (u : User) :
  find (has_email (JS.str (p_email p))) (users (store w)) = Some u ->
  exists tok w',
    login_or_create secret p w = (Ok (json (BAuth tok (withoutPassword u))), w')
    /\ store w' = store w /\ clock w' = clock w
    /\ trace w'
       = (trace w ++ [CGetUserByEmail (JS.str (p_email p));
                      CJwtSign (mkClaims (id u) (name u) (email u))])%list.
Proof.
  intros Hfind. unfold login_or_create. open_calls. open_db.
  rewrite Hfind. open_calls.
  eexists _, _. split; [reflexivity|]. cbn [store clock trace].
  repeat split. now rewrite <- app_assoc.
Qed.

(** The tail of [registerWithGoogle] on a known address: refusal after the
    lookup. *)
Lemma create_only_found (secret : M Db string) (p : TokenPayload)
      (w : World Db) (u : User) :
  find (has_email (JS.str (p_email p))) (users (store w)) = Some u ->
  create_only secret p w
  = (Ok duplicate_email, called (CGetUserByEmail (JS.str (p_email p))) w).
Proof.
  intros Hfind. unfold create_only. open_calls. open_db.
  rewrite Hfind. destruct w; reflexivity.
Qed.

(** Both tails on an address nobody has, when the derived username is
    free: one record is appended and returned. *)
Lemma google_tail_fresh (k : GoogleRoute) (secret : M Db string)
      (p : TokenPayload) (w : World Db) :
  quiet secret ->
  find (has_email (JS.str (p_email p))) (users (store w)) = None ->
  username_free (local_part (JS.str (p_email p))) (store w) = true ->
  exists tok u w',
    google_tail k secret p w = (Ok (json (BAuth tok (withoutPassword u))), w')
    /\ users (store w') = (users (store w) ++ [u])%list
    /\ email u = JS.str (p_email p)
    /\ username u = Some (local_part (JS.str (p_email p)))
    /\ clock w' = clock w.
Proof.
  intros Hq Hfind Hfree.
  pose proof (find_none_existsb _ _ Hfind) as Hex.
  destruct k; cbn [google_tail]; unfold login_or_create, create_only;
    open_calls; open_db; rewrite Hfind;
    destruct (Hq (called (CGetUserByEmail (JS.str (p_email p))) w))
      as (sec & n & Hsec);
    unfold called in Hsec; rewrite Hsec; open_calls; open_db;
    rewrite mem_createUser_accepts by assumption;
    open_calls;
    eexists _, _, _; (split; [reflexivity|]); cbn [store clock users email
      username document newUser iu_email iu_username]; auto.
Qed.

End GoogleOnDb.

Section GoogleTwice.

Context {L : Libs}.

(** [googleLogin] on a token that resolves to the address of a stored
    record: the record is reused and the database is left as it was. *)
Lemma googleLogin_known (t e : string) (w : World Db) (u : User) :
  resolves_to t (clock w) e ->
  find (has_email e) (users (store w)) = Some u ->
  exists tok w',
    googleLogin (mkGoogleBody (Some t)) w
    = (Ok (json (BAuth tok (withoutPassword u))), w')
    /\ store w' = store w /\ clock w' = clock w
    /\ calls_since w w'
       = [CVerifyIdToken t None; CGetUserByEmail e;
          CJwtSign (mkClaims (id u) (name u) (email u))].
Proof.
  intros (r & Hres & Hmail) Hfind.
  destruct (google_handler_resolved (S := memStorage) ViaGoogleLogin t w Hres)
    as (secret & w0 & _ & Hs0 & Hc0 & Ht0 & _ & Hfwd).
  destruct (@login_or_create_found L secret (resolved_payload r) w0 u)
    as (tok & w' & Hrun & Hs & Hc & Ht).
  { rewrite Hmail, Hs0. exact Hfind. }
  exists tok, w'. split; [apply (Hfwd _ _ Hrun)|].
  split; [congruence|]. split; [congruence|].
  apply calls_since_app. rewrite Ht, Ht0, Hmail, <- app_assoc. reflexivity.
Qed.

(** [registerWithGoogle] on such a token: refusal, and nothing is
    written. *)
Lemma registerWithGoogle_known (t e : string) (w : World Db) (u : User) :
  resolves_to t (clock w) e ->
  find (has_email e) (users (store w)) = Some u ->
  exists w',
    registerWithGoogle (mkGoogleBody (Some t)) w = (Ok duplicate_email, w')
    /\ store w' = store w /\ clock w' = clock w
    /\ calls_since w w' = [CVerifyIdToken t None; CGetUserByEmail e].
Proof.
  intros (r & Hres & Hmail) Hfind.
  destruct (google_handler_resolved (S := memStorage) ViaRegisterWithGoogle
              t w Hres)
    as (secret & w0 & _ & Hs0 & Hc0 & Ht0 & _ & Hfwd).
  pose proof (@create_only_found L secret (resolved_payload r) w0 u) as Hrun.
  rewrite Hmail, Hs0 in Hrun. specialize (Hrun Hfind).
  eexists. split; [apply (Hfwd _ _ Hrun)|].
  split; [exact Hs0|]. split; [exact Hc0|].
  apply calls_since_app. cbn [called trace JS.str]. rewrite Ht0, <- app_assoc.
  reflexivity.
Qed.

(** Either Google handler on a token that resolves to an address nobody
    has, when the username derived from the address is free: the call
    succeeds and appends the returned record. *)
Lemma google_handler_fresh (k : GoogleRoute) (t e : string) (w : World Db) :
  resolves_to t (clock w) e ->
  find (has_email e) (users (store w)) = None ->
  username_free (local_part e) (store w) = true ->
  exists tok u w',
    google_handler k (mkGoogleBody (Some t)) w
    = (Ok (json (BAuth tok (withoutPassword u))), w')
    /\ users (store w') = (users (store w) ++ [u])%list
    /\ email u = e
    /\ username u = Some (local_part e)
    /\ clock w' = clock w.
Proof.
  intros (r & Hres & Hmail) Hfind Hfree.
  destruct (google_handler_resolved (S := memStorage) k t w Hres)
    as (secret & w0 & Hq & Hs0 & Hc0 & Ht0 & _ & Hfwd).
  destruct (@google_tail_fresh L k secret (resolved_payload r) w0 Hq)
    as (tok & u & w' & Hrun & Hu & He & Hn & Hc).
  { rewrite Hmail, Hs0. exact Hfind. }
  { rewrite Hmail, Hs0. exact Hfree. }
  rewrite Hmail in *. cbn [JS.str] in *.
  exists tok, u, w'. split; [apply (Hfwd _ _ Hrun)|].
  repeat split; congruence.
Qed.

End GoogleTwice.

(** C7, as the code has it.  Over the database of the specification, for
    every pair of [googleLogin] calls whose tokens resolve to the same
    address: provided a record with that address is stored, or the username
    derived from the address (its part before '@') is not taken by another
    record, both calls succeed and return the same user id, and the second
    call leaves the database as it was and does not call [createUser]. *)
Theorem googleLogin_twice_same_user :
  forall (L : Libs) (t1 t2 e : string) (w : World Db),
    resolves_to t1 (clock w) e ->
    resolves_to t2 (clock w) e ->
    existsb (has_email e) (users (store w))
    || username_free (local_part e) (store w) = true ->
    exists tok1 u1 w1 tok2 u2 w2,
      googleLogin (mkGoogleBody (Some t1)) w = (Ok (json (BAuth tok1 u1)), w1)
      /\ googleLogin (mkGoogleBody (Some t2)) w1 = (Ok (json (BAuth tok2 u2)), w2)
      /\ id u1 = id u2
      /\ store w2 = store w1
      /\ existsb is_createUser (calls_since w1 w2) = false.
Proof.
  intros L t1 t2 e w H1 H2 Hcond.
  assert (Hfirst : exists tok1 u w1,
    googleLogin (mkGoogleBody (Some t1)) w
    = (Ok (json (BAuth tok1 (withoutPassword u))), w1)
    /\ find (has_email e) (users (store w1)) = Some u
    /\ clock w1 = clock w).
  { destruct (find (has_email e) (users (store w))) as [u|] eqn:Hfind.
    - destruct (googleLogin_known _ H1 Hfind) as (tok & w1 & Hrun & Hs & Hc & _).
      exists tok, u, w1. rewrite Hs. auto.
    - rewrite (find_none_existsb _ _ Hfind) in Hcond. simpl in Hcond.
      destruct (google_handler_fresh ViaGoogleLogin _ H1 Hfind Hcond)
        as (tok & u & w1 & Hrun & Hu & He & _ & Hc).
      exists tok, u, w1. split; [exact Hrun|]. split; [|exact Hc].
      rewrite Hu, find_last, Hfind. unfold has_email. rewrite He.
      now rewrite String.eqb_refl. }
  destruct Hfirst as (tok1 & u & w1 & Hrun1 & Hfind1 & Hc1).
  rewrite <- Hc1 in H2.
  destruct (googleLogin_known _ H2 Hfind1) as (tok2 & w2 & Hrun2 & Hs2 & _ & Hcalls).
  exists tok1, (withoutPassword u), w1, tok2, (withoutPassword u), w2.
  repeat split; try assumption. rewrite Hcalls. reflexivity.
Qed.

(** C7 fails as stated: with a record "ava@x.com" whose username is "ava"
    in the database, a token that Google signed for "ava@y.com" is not
    logged in.  The insert of the new record is refused because the
    derived username is taken, the exception lands in the [catch] block
    meant for verification errors, the fallback runs into the same
    refusal, and the answer is 400; nothing is written. *)
Lemma googleLogin_fails_on_taken_username :
  @resolves_to demoLibs signed_token 0 "ava@y.com"
  /\ find (has_email "ava@y.com") (users ava_db) = None
  /\ response (googleLogin (mkGoogleBody (Some signed_token)) (world ava_db))
     = Some (mkResponse 400 (BError "Unable to process Google token"))
  /\ store (snd (googleLogin (mkGoogleBody (Some signed_token)) (world ava_db)))
     = ava_db.
Proof.
  split; [eexists; split; vm_compute; reflexivity|].
  repeat split; vm_compute; reflexivity.
Qed.

(** A signed token and a forged one that carry the same address: the first
    call creates the record, the second one finds it. *)
Lemma googleLogin_twice_same_user_witness :
  @resolves_to demoLibs signed_token 0 "ava@y.com"
  /\ @resolves_to demoLibs forged_token 0 "ava@y.com"
  /\ existsb (has_email "ava@y.com") (users emptyDb)
     || username_free (local_part "ava@y.com") emptyDb = true
  /\ exists tok1 u1 w1 tok2 u2 w2,
      googleLogin (mkGoogleBody (Some signed_token)) (world emptyDb)
      = (Ok (json (BAuth tok1 u1)), w1)
      /\ googleLogin (mkGoogleBody (Some forged_token)) w1
         = (Ok (json (BAuth tok2 u2)), w2)
      /\ id u1 = id u2
      /\ store w2 = store w1
      /\ existsb is_createUser (calls_since w1 w2) = false.
Proof.
  assert (H1 : @resolves_to demoLibs signed_token 0 "ava@y.com")
    by (eexists; split; vm_compute; reflexivity).
  assert (H2 : @resolves_to demoLibs forged_token 0 "ava@y.com")
    by (eexists; split; vm_compute; reflexivity).
  assert (H3 : existsb (has_email "ava@y.com") (users emptyDb)
               || username_free (local_part "ava@y.com") emptyDb = true)
    by (vm_compute; reflexivity).
  split; [exact H1|]. split; [exact H2|]. split; [exact H3|].
  exact (@googleLogin_twice_same_user demoLibs signed_token forged_token
           "ava@y.com" (world emptyDb) H1 H2 H3).
Defined.

(* ===================================================================== *)
(** ** [registerWithGoogle] never reuses a record *)
(* ===================================================================== *)

(** C8, as the code has it.  Over the database of the specification, for
    tokens that resolve to the same address:
    - when a record with that address is stored, [registerWithGoogle]
      answers 400 "User with this email already exists"; it calls the
      verifier and the lookup and nothing else, so the record is neither
      reused nor modified;
    - when no record has the address and the username derived from it is
      not taken by another record, the first of two calls succeeds and
      appends the record it returns, and the second is refused with the
      same 400 and writes nothing. *)
Theorem registerWithGoogle_refuses_known_email :
  forall (L : Libs) (t1 t2 e : string) (w : World Db),
    resolves_to t1 (clock w) e ->
    resolves_to t2 (clock w) e ->
    (forall u, find (has_email e) (users (store w)) = Some u ->
       exists w',
         registerWithGoogle (mkGoogleBody (Some t1)) w = (Ok duplicate_email, w')
         /\ store w' = store w
         /\ calls_since w w' = [CVerifyIdToken t1 None; CGetUserByEmail e])
    /\ (find (has_email e) (users (store w)) = None ->
        username_free (local_part e) (store w) = true ->
        exists tok u w1 w2,
          registerWithGoogle (mkGoogleBody (Some t1)) w
          = (Ok (json (BAuth tok (withoutPassword u))), w1)
          /\ users (store w1) = (users (store w) ++ [u])%list
          /\ email u = e
          /\ registerWithGoogle (mkGoogleBody (Some t2)) w1
             = (Ok duplicate_email, w2)
          /\ store w2 = store w1).
Proof.
  intros L t1 t2 e w H1 H2. split.
  - intros u Hfind.
    destruct (registerWithGoogle_known _ H1 Hfind) as (w' & Hrun & Hs & _ & Hcalls).
    exists w'. auto.
  - intros Hfind Hfree.
    destruct (google_handler_fresh ViaRegisterWithGoogle _ H1 Hfind Hfree)
      as (tok & u & w1 & Hrun & Hu & He & _ & Hc).
    assert (Hfind1 : find (has_email e) (users (store w1)) = Some u).
    { rewrite Hu, find_last, Hfind. unfold has_email. rewrite He.
      now rewrite String.eqb_refl. }
    rewrite <- Hc in H2.
    destruct (registerWithGoogle_known _ H2 Hfind1) as (w2 & Hrun2 & Hs2 & _).
    exists tok, u, w1, w2. auto.
Qed.

(** C8 fails as stated: with a record "ava@x.com" whose username is "ava"
    in the database, the first [registerWithGoogle] call for "ava@y.com",
    an address no record has, does not succeed, and the second is answered
    like the first, not with "User with this email already exists". *)
Lemma registerWithGoogle_fails_on_taken_username :
  let first := registerWithGoogle (mkGoogleBody (Some signed_token))
                                  (world ava_db) in
  let second := registerWithGoogle (mkGoogleBody (Some signed_token))
                                   (snd first) in
  @resolves_to demoLibs signed_token 0 "ava@y.com"
  /\ find (has_email "ava@y.com") (users ava_db) = None
  /\ response first
     = Some (mkResponse 400 (BError "Unable to process Google token"))
  /\ store (snd first) = ava_db
  /\ response second
     = Some (mkResponse 400 (BError "Unable to process Google token")).
Proof.
  split; [eexists; split; vm_compute; reflexivity|].
  repeat split; vm_compute; reflexivity.
Qed.

(** On an empty database the signed token registers Ava, and the forged
    token with the same address is refused afterwards. *)
Lemma registerWithGoogle_refuses_known_email_witness :
  @resolves_to demoLibs signed_token 0 "ava@y.com"
  /\ @resolves_to demoLibs forged_token 0 "ava@y.com"
  /\ find (has_email "ava@y.com") (users emptyDb) = None
  /\ username_free (local_part "ava@y.com") emptyDb = true
  /\ exists tok u w1 w2,
       registerWithGoogle (mkGoogleBody (Some signed_token)) (world emptyDb)
       = (Ok (json (BAuth tok (withoutPassword u))), w1)
       /\ users (store w1) = (users (store (world emptyDb)) ++ [u])%list
       /\ email u = "ava@y.com"
       /\ registerWithGoogle (mkGoogleBody (Some forged_token)) w1
          = (Ok duplicate_email, w2)
       /\ store w2 = store w1.
Proof.
  assert (H1 : @resolves_to demoLibs signed_token 0 "ava@y.com")
    by (eexists; split; vm_compute; reflexivity).
  assert (H2 : @resolves_to demoLibs forged_token 0 "ava@y.com")
    by (eexists; split; vm_compute; reflexivity).
  assert (H3 : find (has_email "ava@y.com") (users emptyDb) = None)
    by reflexivity.
  assert (H4 : username_free (local_part "ava@y.com") emptyDb = true)
    by (vm_compute; reflexivity).
  split; [exact H1|]. split; [exact H2|]. split; [exact H3|]. split; [exact H4|].
  exact (proj2 (@registerWithGoogle_refuses_known_email demoLibs signed_token
                  forged_token "ava@y.com" (world emptyDb) H1 H2) H3 H4).
Defined.

(* ===================================================================== *)
(** ** The record that [register] creates *)
(* ===================================================================== *)

Lemma split_nonempty (sep : ascii) (s : string) : JS.split sep s <> [].
Proof.
  destruct s as [|c rest]; simpl; [discriminate|].
  destruct (Ascii.eqb c sep); [discriminate|].
  destruct (JS.split sep rest); discriminate.
Qed.

(** [s.split(sep)[0]] is the part of [s] before the first [sep]: it holds
    no [sep], and [s] is it alone or it followed by [sep] and a rest. *)
Lemma split_first (sep : ascii) (s : string) :
  let h := JS.first (JS.split sep s) in
  ~ In sep (chars h)
  /\ (s = h \/ exists rest, s = h ++ String sep rest).
Proof.
  induction s as [|c rest IH]; simpl.
  - split; [tauto | left; reflexivity].
  - destruct (Ascii.eqb c sep) eqn:Ec; simpl.
    + apply Ascii.eqb_eq in Ec. subst c.
      split; [tauto | right; exists rest; reflexivity].
    + pose proof (split_nonempty sep rest) as Hne.
      destruct (JS.split sep rest) as [|h t]; [congruence|].
      simpl in *. destruct IH as [Hno Hrest]. split.
      * intros [Heq | Hin]; [|tauto].
        subst c. rewrite Ascii.eqb_refl in Ec. discriminate.
      * destruct Hrest as [-> | [r ->]]; [left | right; exists r]; reflexivity.
Qed.

(** C9.  Over any storage layer.  For every [register] call that succeeds
    and in which no username is supplied, the record handed to
    [createUser] has as username the part of the address before the first
    '@', has role 'user', and has empty favourite-artists and
    purchased-tickets lists; the response carries the record that the
    storage layer returned for it, without its password. *)
Theorem register_derives_username :
  forall (L : Libs) (St : Type) (S : Storage St) (req : RegisterBody)
         (w w' : World St) (r : Response),
    JS.truthy (rb_username req) = false ->
    register req w = (Ok r, w') ->
    status r = 200 ->
    let e := JS.str (rb_email req) in
    exists nu u tok s s',
      In (CCreateUser nu) (calls_since w w')
      /\ db_createUser nu s = (Ok u, s')
      /\ r = json (BAuth tok (withoutPassword u))
      /\ iu_email nu = e
      /\ iu_username nu = JS.first (JS.split at_sign e)
      /\ ~ In at_sign (chars (iu_username nu))
      /\ (e = iu_username nu
          \/ exists rest, e = iu_username nu ++ String at_sign rest)
      /\ iu_role nu = RoleUser
      /\ iu_favoriteArtists nu = []
      /\ iu_purchasedTickets nu = [].
Proof.
  intros L St S req w w' r Hname Hrun Hst e.
  unfold register in Hrun. rewrite Hname in Hrun.
  destruct (negb (JS.truthy (rb_name req)) || negb (JS.truthy (rb_email req))
            || negb (JS.truthy (rb_password req))).
  { revert Hrun. open_calls. intros H; inversion H; subst. discriminate. }
  revert Hrun. open_calls.
  destruct (db_getUserByEmail (JS.str (rb_email req)) (store w))
    as [[[known|]|x] s1].
  - intros H; inversion H; subst. discriminate.
  - open_calls.
    match goal with
    | |- context [db_createUser ?nu s1] =>
        destruct (db_createUser nu s1) as [[u|x] s2] eqn:Hcreate
    end.
    + intros H; inversion H; subst; clear H.
      eexists _, u, _, s1, s2.
      split.
      { erewrite calls_since_app; [|cbn [trace]; rewrite <- !app_assoc; reflexivity].
        simpl. right. right. left. reflexivity. }
      split; [exact Hcreate|]. split; [reflexivity|].
      cbn [newUser iu_email iu_username iu_role iu_favoriteArtists
                   iu_purchasedTickets JS.or_else].
      assert (Hor : JS.or_else (rb_username req)
                      (JS.first (JS.split at_sign (JS.str (rb_email req))))
                    = JS.first (JS.split at_sign (JS.str (rb_email req)))).
      { unfold JS.or_else, JS.truthy in *.
        destruct (rb_username req) as [n|]; [|reflexivity].
        destruct (n =? ""); [reflexivity | discriminate]. }
      rewrite Hor.
      destruct (split_first at_sign (JS.str (rb_email req))) as [Hno Hpre].
      repeat split; auto.
    + intros H; inversion H; subst. discriminate.
  - intros H; inversion H; subst. discriminate.
Qed.

(** The scenario of the specification: Ava registers without a username;
    the response has a token, [user.username] is "ava" and [user.password]
    is undefined. *)
Lemma register_derives_username_witness :
  JS.truthy (rb_username ava_body) = false
  /\ option_map status (response (register ava_body (world emptyDb))) = Some 200
  /\ (exists tok u,
        response (register ava_body (world emptyDb)) = Some (json (BAuth tok u))
        /\ username u = Some "ava" /\ password u = None)
  /\ exists nu,
       In (CCreateUser nu)
          (calls_since (world emptyDb) (snd (register ava_body (world emptyDb))))
       /\ iu_username nu = "ava".
Proof.
  split; [reflexivity|]. split; [vm_compute; reflexivity|].
  split; [eexists _, _; repeat split; vm_compute; reflexivity|].
  destruct (@register_derives_username demoLibs Db memStorage ava_body
              (world emptyDb) (snd (register ava_body (world emptyDb)))
              (json (BAuth "id-0|Ava|ava@x.com|full-fuel-jwt-secret"
                 (withoutPassword
                    (document "id-0"
                       (newUser "Ava" "ava@x.com" "ava" "$2a$10$secret1"))))))
    as (nu & u & tok & s & s' & Hin & _ & _ & _ & Hn & _).
  - reflexivity.
  - vm_compute; reflexivity.
  - reflexivity.
  - exists nu. split; [exact Hin|]. rewrite Hn. vm_compute; reflexivity.
Defined.

(* ===================================================================== *)
(** ** The admin gate *)
(* ===================================================================== *)

Section AdminGate.

Context {L : Libs} {St : Type} {S : Storage St}.

(** What the twelve admin handlers answer to a request they do not let
    through.  Without a bearer header: 401, and no call at all.  With a
    token that [jwt.verify] rejects: the exception goes to the handler's
    only [catch], which answers 500.  With a token whose subject is not a
    stored admin: 403.  The storage mutation is not called in any of the
    three cases. *)
Lemma adminRoute_refusals (c : Collection) (m : Mutation)
      (h : option string) (paramsId reqBody : string) (w : World St) :
  (no_bearer h = true ->
   adminRoute c m h paramsId reqBody w
   = (Ok (mkResponse 401 (BError "Authentication required")), w))
  /\ (no_bearer h = false ->
      verified_claims h (clock w) = None ->
      adminRoute c m h paramsId reqBody w
      = (Ok (mkResponse 500 (BMessage ("Failed to " ++ verb m ++ " " ++ noun c))),
         logged (Verb m ++ " " ++ noun c ++ " error:")
                (called (CJwtVerify (bearer_token h)) w)))
  /\ (forall cl u s',
        no_bearer h = false ->
        verified_claims h (clock w) = Some cl ->
        db_getUser (c_id cl) (store w) = (Ok u, s') ->
        not_admin u = true ->
        adminRoute c m h paramsId reqBody w
        = (Ok (mkResponse 403 (BError "Admin access required")),
           mkWorld s' (clock w) (entropy w) (console w)
                   (trace w ++ [CJwtVerify (bearer_token h);
                                CGetUser (c_id cl)]))).
Proof.
  unfold verified_claims. repeat split.
  - intros Hb. unfold adminRoute. rewrite Hb. reflexivity.
  - intros Hb Hv. unfold adminRoute. rewrite Hb. open_calls.
    destruct (bearer_token h) as [tk|]; [rewrite Hv|]; reflexivity.
  - intros cl u s' Hb Hv Hdb Hrole. unfold adminRoute. rewrite Hb. open_calls.
    destruct (bearer_token h) as [tk|]; [|discriminate].
    rewrite Hv. open_calls. rewrite Hdb, Hrole.
    rewrite <- app_assoc. reflexivity.
Qed.

(** So a refused request never reaches the storage mutation. *)
Lemma adminRoute_refused_never_mutates (c : Collection) (m : Mutation)
      (h : option string) (paramsId reqBody : string) (w : World St) :
  no_bearer h = true
  \/ verified_claims h (clock w) = None
  \/ (exists cl u s', verified_claims h (clock w) = Some cl
                      /\ db_getUser (c_id cl) (store w) = (Ok u, s')
                      /\ not_admin u = true) ->
  exists r w',
    adminRoute c m h paramsId reqBody w = (Ok r, w')
    /\ (status r = 401 \/ status r = 403 \/ status r = 500)
    /\ existsb is_mutation (calls_since w w') = false.
Proof.
  destruct (adminRoute_refusals c m h paramsId reqBody w) as (H401 & H500 & H403).
  destruct (no_bearer h) eqn:Hb.
  - intros _. eexists _, _. split; [apply H401; reflexivity|].
    split; [auto|]. erewrite calls_since_app with (cs := []);
      [reflexivity | now rewrite app_nil_r].
  - intros [Hno | [Hv | (cl & u & s' & Hv & Hdb & Hrole)]]; [discriminate| |].
    + eexists _, _. split; [apply H500; auto|]. split; [auto|].
      erewrite calls_since_app; [|reflexivity]. reflexivity.
    + eexists _, _. split; [eapply H403; eauto|]. split; [auto|].
      erewrite calls_since_app; [|reflexivity]. reflexivity.
Qed.

End AdminGate.

(** C10 fails on the code.  On each of the twelve admin routes, a request
    whose bearer token fails verification is answered 500 "Failed to
    create video" (and the like), not 401 or 403: [jwt.verify] throws and
    the handler's only [catch] is the catch-all.  The storage mutation is
    not called. *)
Theorem admin_route_answers_500_to_a_bad_token :
  forall (c : Collection) (m : Mutation),
    adminRoute c m (Some "Bearer garbage") "id-1" "{}" (world admin_db)
    = (Ok (mkResponse 500 (BMessage ("Failed to " ++ verb m ++ " " ++ noun c))),
       mkWorld admin_db 0 0 [Verb m ++ " " ++ noun c ++ " error:"]
               [CJwtVerify (Some "garbage")]).
Proof. intros c m. destruct c, m; vm_compute; reflexivity. Qed.

(** The sibling [getCurrentUser] answers the same header 401. *)
Lemma getCurrentUser_answers_401_to_a_bad_token :
  response (getCurrentUser (Some "Bearer garbage") (world admin_db))
  = Some (mkResponse 401 (BError "Invalid token")).
Proof. vm_compute; reflexivity. Qed.

(** With an admin's session token the mutation does go through. *)
Lemma admin_route_lets_an_admin_through :
  adminRoute Videos Create (bearer admin_user) "" "{}" (world admin_db)
  = (Ok (mkResponse 201 (BJson "{}")),
     mkWorld (mkDb [admin_user] [(Videos, "id-1", "{}")] 2) 0 0 []
             [CJwtVerify (bearer_token (bearer admin_user)); CGetUser "id-0";
              CMutate Videos Create]).
Proof. vm_compute; reflexivity. Qed.

(* ===================================================================== *)
(** ** Triples: clock, calls and values together *)
(* ===================================================================== *)

Section TripleLemmas.

Context {St : Type}.

Lemma triple_weaken {A} (t : nat) (P P' : Call -> Prop) (Q Q' : A -> Prop)
      (m : M St A) :
  (forall c, P c -> P' c) -> (forall a, Q a -> Q' a) ->
  triple t P Q m -> triple t P' Q' m.
Proof.
  intros HP HQ Hm w r w' Ht E.
  destruct (Hm w r w' Ht E) as (Hc & (cs & Htr & Hcs) & Hv).
  split; [exact Hc|]. split.
  - exists cs. split; [exact Htr|]. eapply Forall_impl; eassumption.
  - intros a Ha. apply HQ, Hv, Ha.
Qed.

Lemma triple_ret {A} (t : nat) (P : Call -> Prop) (Q : A -> Prop) (a : A) :
  Q a -> triple (St := St) t P Q (ret a).
Proof.
  intros HQ w r w' Ht E. inversion E; subst.
  split; [reflexivity|]. split.
  - exists []. now rewrite app_nil_r.
  - intros a' Ha. inversion Ha; subst. exact HQ.
Qed.

Lemma triple_throw {A} (t : nat) (P : Call -> Prop) (Q : A -> Prop) (e : Exn) :
  triple (St := St) t P Q (throw e).
Proof.
  intros w r w' <- E. inversion E; subst.
  split; [reflexivity|]. split.
  - exists []. now rewrite app_nil_r.
  - intros a Ha. discriminate Ha.
Qed.

Lemma triple_record (t : nat) (P : Call -> Prop) (c : Call) :
  P c -> triple (St := St) t P (fun _ => True) (record c).
Proof.
  intros Hc w r w' Ht E. inversion E; subst.
  split; [reflexivity|]. split; [|auto].
  exists [c]. simpl. auto.
Qed.

Lemma triple_console_error (t : nat) (P : Call -> Prop) (msg : string) :
  triple (St := St) t P (fun _ => True) (console_error msg).
Proof.
  intros w r w' <- E. inversion E; subst.
  split; [reflexivity|]. split; [|auto].
  exists []. simpl. now rewrite app_nil_r.
Qed.

Lemma triple_random (t : nat) (P : Call -> Prop) :
  triple (St := St) t P (fun _ => True) random.
Proof.
  intros w r w' <- E. inversion E; subst.
  split; [reflexivity|]. split; [|auto].
  exists []. simpl. now rewrite app_nil_r.
Qed.

Lemma triple_now (t : nat) (P : Call -> Prop) :
  triple (St := St) t P (fun n => n = t) now.
Proof.
  intros w r w' <- E. inversion E; subst.
  split; [reflexivity|]. split.
  - exists []. now rewrite app_nil_r.
  - intros a Ha. inversion Ha; subst. reflexivity.
Qed.

Lemma triple_on_store {A} (t : nat) (P : Call -> Prop)
      (op : St -> Result A * St) :
  triple t P (fun _ => True) (on_store op).
Proof.
  intros w r w' <- E. unfold on_store in E.
  destruct (op (store w)) as [r0 s']. inversion E; subst.
  split; [reflexivity|]. split; [|auto].
  exists []. simpl. now rewrite app_nil_r.
Qed.

Lemma triple_bind {A B} (t : nat) (P : Call -> Prop) (QA : A -> Prop)
      (Q : B -> Prop) (m : M St A) (k : A -> M St B) :
  triple t P QA m ->
  (forall a, QA a -> triple t P Q (k a)) ->
  triple t P Q (bind m k).
Proof.
  intros Hm Hk w r w' Ht E. unfold bind in E.
  destruct (m w) as [[a|e] w1] eqn:Em.
  - destruct (Hm _ _ _ Ht Em) as (Hc1 & (cs1 & H1 & F1) & Hv1).
    destruct (Hk a (Hv1 a eq_refl) _ _ _ Hc1 E) as (Hc2 & (cs2 & H2 & F2) & Hv2).
    split; [exact Hc2|]. split; [|exact Hv2].
    exists (cs1 ++ cs2)%list. rewrite H2, H1, app_assoc.
    split; [reflexivity|]. apply Forall_app; auto.
  - destruct (Hm _ _ _ Ht Em) as (Hc1 & Htr & _).
    inversion E; subst r w'.
    split; [exact Hc1|]. split; [exact Htr|].
    intros a Ha. discriminate Ha.
Qed.

Lemma triple_try_catch {A} (t : nat) (P : Call -> Prop) (Q : A -> Prop)
      (m : M St A) (h : Exn -> M St A) :
  triple t P Q m ->
  (forall e, triple t P Q (h e)) ->
  triple t P Q (try_catch m h).
Proof.
  intros Hm Hh w r w' Ht E. unfold try_catch in E.
  destruct (m w) as [[a|e] w1] eqn:Em.
  - inversion E; subst r w'. exact (Hm _ _ _ Ht Em).
  - destruct (Hm _ _ _ Ht Em) as (Hc1 & (cs1 & H1 & F1) & _).
    destruct (Hh e _ _ _ Hc1 E) as (Hc2 & (cs2 & H2 & F2) & Hv2).
    split; [exact Hc2|]. split; [|exact Hv2].
    exists (cs1 ++ cs2)%list. rewrite H2, H1, app_assoc.
    split; [reflexivity|]. apply Forall_app; auto.
Qed.

Lemma triple_if {A} (t : nat) (P : Call -> Prop) (Q : A -> Prop) (b : bool)
      (m1 m2 : M St A) :
  triple t P Q m1 -> triple t P Q m2 -> triple t P Q (if b then m1 else m2).
Proof. destruct b; auto. Qed.

(** What a triple says about a run that answered. *)
Lemma triple_run {A} (P : Call -> Prop) (Q : A -> Prop) (m : M St A)
      (w w' : World St) (r : Result A) :
  triple (clock w) P Q m ->
  m w = (r, w') ->
  clock w' = clock w
  /\ Forall P (calls_since w w')
  /\ (forall a, r = Ok a -> Q a).
Proof.
  intros Hm E. destruct (Hm w r w' eq_refl E) as (Hc & (cs & Htr & Hcs) & Hv).
  split; [exact Hc|]. split; [|exact Hv].
  erewrite calls_since_app by exact Htr. exact Hcs.
Qed.

End TripleLemmas.

(* ===================================================================== *)
(** ** Triples of the calls *)
(* ===================================================================== *)

Section CallTriples.

Context {L : Libs} {St : Type} {S : Storage St}.

Variable t : nat.
Variable P : Call -> Prop.

Lemma triple_getUser (uid : string) :
  P (CGetUser uid) -> triple t P (fun _ => True) (getUser uid).
Proof.
  intros Hc. unfold getUser.
  eapply triple_bind; [apply triple_record, Hc | intros _ _].
  apply triple_on_store.
Qed.

Lemma triple_getUserByEmail (e : string) :
  P (CGetUserByEmail e) -> triple t P (fun _ => True) (getUserByEmail e).
Proof.
  intros Hc. unfold getUserByEmail.
  eapply triple_bind; [apply triple_record, Hc | intros _ _].
  apply triple_on_store.
Qed.

Lemma triple_getUserByUsername (u : string) :
  P (CGetUserByUsername u) -> triple t P (fun _ => True) (getUserByUsername u).
Proof.
  intros Hc. unfold getUserByUsername.
  eapply triple_bind; [apply triple_record, Hc | intros _ _].
  apply triple_on_store.
Qed.

Lemma triple_createUser (nu : InsertUser) :
  P (CCreateUser nu) -> triple t P (fun _ => True) (createUser nu).
Proof.
  intros Hc. unfold createUser.
  eapply triple_bind; [apply triple_record, Hc | intros _ _].
  apply triple_on_store.
Qed.

Lemma triple_bcrypt_genSalt (rounds : nat) :
  triple (St := St) t P (fun s => exists r, s = bcrypt_salt rounds r)
         (bcrypt_genSalt rounds).
Proof.
  unfold bcrypt_genSalt.
  eapply triple_bind; [apply triple_random | intros r _].
  apply triple_ret. eauto.
Qed.

Lemma triple_bcrypt_hash (data salt : string) :
  P (CBcryptHash data) ->
  triple (St := St) t P (fun h => h = bcrypt_digest data salt)
         (bcrypt_hash data salt).
Proof.
  intros Hc. unfold bcrypt_hash.
  eapply triple_bind; [apply triple_record, Hc | intros _ _].
  apply triple_ret. reflexivity.
Qed.

Lemma triple_bcrypt_hash_rounds (data : string) (rounds : nat) :
  P (CBcryptHash data) ->
  triple (St := St) t P
         (fun h => exists r, h = bcrypt_digest data (bcrypt_salt rounds r))
         (bcrypt_hash_rounds data rounds).
Proof.
  intros Hc. unfold bcrypt_hash_rounds.
  eapply triple_bind; [apply triple_bcrypt_genSalt | intros salt [r ->]].
  eapply triple_weaken; [| |apply triple_bcrypt_hash, Hc]; [auto|].
  intros h ->. eauto.
Qed.

Lemma triple_bcrypt_compare (data hash : string) :
  P (CBcryptCompare data hash) ->
  triple (St := St) t P (fun b => b = bcrypt_check data hash)
         (bcrypt_compare data hash).
Proof.
  intros Hc. unfold bcrypt_compare.
  eapply triple_bind; [apply triple_record, Hc | intros _ _].
  apply triple_ret. reflexivity.
Qed.

Lemma triple_Math_random_toString :
  triple (St := St) t P (fun _ => True) Math_random_toString.
Proof.
  unfold Math_random_toString.
  eapply triple_bind; [apply triple_random | intros r _].
  apply triple_ret. exact I.
Qed.

Lemma triple_sub_or_random (p : TokenPayload) :
  triple (St := St) t P (fun _ => True) (sub_or_random p).
Proof.
  unfold sub_or_random. apply triple_if.
  - apply triple_Math_random_toString.
  - apply triple_ret. exact I.
Qed.

Lemma triple_jwt_sign (c : Claims) (secret expiresIn : string) :
  P (CJwtSign c) ->
  triple (St := St) t P (fun tok => tok = jwt_encode c secret expiresIn t)
         (jwt_sign c secret expiresIn).
Proof.
  intros Hc. unfold jwt_sign.
  eapply triple_bind; [apply triple_record, Hc | intros _ _].
  eapply triple_bind; [apply triple_now | intros n ->].
  apply triple_ret. reflexivity.
Qed.

Lemma triple_jwt_verify (tok : option string) (secret : string) :
  P (CJwtVerify tok) ->
  triple (St := St) t P
         (fun c => exists tk, tok = Some tk /\ jwt_decode tk secret t = Some c)
         (jwt_verify tok secret).
Proof.
  intros Hc. unfold jwt_verify.
  eapply triple_bind; [apply triple_record, Hc | intros _ _].
  eapply triple_bind; [apply triple_now | intros n ->].
  destruct tok as [tk|]; [|apply triple_throw].
  destruct (jwt_decode tk secret t) as [c|] eqn:Hd; [|apply triple_throw].
  apply triple_ret. eauto.
Qed.

Lemma triple_verify_primary (tok : string) :
  P (CVerifyIdToken tok None) ->
  triple (St := St) t P
         (fun ticket => exists p, getPayload ticket = Some p
                                  /\ google_certs_check tok t = Some p)
         (verify_primary tok).
Proof.
  intros Hc. unfold verify_primary, verifyIdToken.
  eapply triple_bind; [apply triple_record, Hc | intros _ _].
  eapply triple_bind; [apply triple_now | intros n ->].
  destruct (google_certs_check tok t) as [p|] eqn:Hs; [|apply triple_throw].
  apply triple_ret. exists p. split; reflexivity.
Qed.

Lemma triple_JSON_parse_base64 (seg : string) :
  triple (St := St) t P (fun v => base64_json seg = Some v)
         (JSON_parse_base64 seg).
Proof.
  unfold JSON_parse_base64.
  destruct (base64_json seg) as [v|]; [|apply triple_throw].
  apply triple_ret. reflexivity.
Qed.

End CallTriples.

Ltac triple_prim :=
  first [ apply triple_getUserByEmail | apply triple_getUserByUsername
        | apply triple_getUser | apply triple_createUser
        | apply triple_bcrypt_genSalt | apply triple_bcrypt_hash_rounds
        | apply triple_bcrypt_hash | apply triple_bcrypt_compare
        | apply triple_jwt_sign | apply triple_jwt_verify
        | apply triple_verify_primary | apply triple_JSON_parse_base64
        | apply triple_Math_random_toString | apply triple_sub_or_random
        | apply triple_console_error ].

(** One step of a proof of a triple along the control structure of a
    handler. *)
Ltac triple_step :=
  match goal with
  | |- triple _ _ _ (try_catch _ _) => apply triple_try_catch; [|intros ?]
  | |- triple _ _ _ (bind _ _) => eapply triple_bind; [triple_prim | intros ? ?]
  | |- triple _ _ _ (bind _ _) =>
      eapply triple_bind with (QA := fun _ => True); [|intros ? _]
  | |- triple _ _ _ (if _ then _ else _) => apply triple_if
  | |- triple _ _ _ (match ?x with Some _ => _ | None => _ end) => destruct x
  | |- triple _ _ _ (error _ _) => apply triple_ret
  | |- triple _ _ _ (ret _) => apply triple_ret
  | |- triple _ _ _ (createUser _) => apply triple_createUser
  end.

(** Closing the side conditions: open what the earlier calls returned. *)
Ltac triple_close :=
  cbv beta in *;
  repeat match goal with
         | H : exists _, _ |- _ => destruct H
         | H : _ /\ _ |- _ => destruct H
         end;
  subst; simpl; auto.

(* ===================================================================== *)
(** ** What every auth route keeps to *)
(* ===================================================================== *)

Section AuthContract.

Context {L : Libs} {St : Type} {S : Storage St}.

Variable t : nat.

Lemma token_matches_error (n : nat) (msg : string) :
  token_matches_user t (mkResponse n (BError msg)).
Proof. intros tok u H. discriminate H. Qed.

Lemma token_matches_issued (u : User) :
  token_matches_user t
    (json (BAuth (jwt_encode (claims_of u) JWT_SECRET "7d" t)
                 (withoutPassword u))).
Proof. intros tok u' H. inversion H; subst. reflexivity. Qed.

Lemma token_matches_plain (n : nat) (u : User) :
  token_matches_user t (mkResponse n (BUser u)).
Proof. intros tok u' H. discriminate H. Qed.

Lemma register_contract (req : RegisterBody) :
  triple t auth_call (token_matches_user t) (register req).
Proof.
  unfold register, sign_user; cbv zeta.
  repeat triple_step; triple_close;
    try apply token_matches_error; try apply token_matches_issued;
    repeat split; eauto.
Qed.

Lemma login_contract (req : LoginBody) :
  triple t (fun c => auth_call c /\ read_only c) (token_matches_user t)
         (login req).
Proof.
  unfold login, sign_user; cbv zeta.
  repeat triple_step; triple_close;
    try apply token_matches_error; try apply token_matches_issued;
    repeat split; eauto.
Qed.

Lemma getCurrentUser_contract (h : option string) :
  triple t (fun c => auth_call c /\ read_only c) (token_matches_user t)
         (getCurrentUser h).
Proof.
  unfold getCurrentUser; cbv zeta.
  repeat triple_step; triple_close;
    try apply token_matches_error; try apply token_matches_plain;
    repeat split; eauto.
Qed.

Lemma login_or_create_contract (secret : M St string) (p : TokenPayload) :
  triple t auth_call (fun _ => True) secret ->
  triple t auth_call (token_matches_user t) (login_or_create secret p).
Proof.
  intros Hs. unfold login_or_create, sign_user; cbv zeta.
  repeat first [triple_step | exact Hs]; triple_close;
    try apply token_matches_error; try apply token_matches_issued;
    repeat split; eauto.
Qed.

Lemma create_only_contract (secret : M St string) (p : TokenPayload) :
  triple t auth_call (fun _ => True) secret ->
  triple t auth_call (token_matches_user t) (create_only secret p).
Proof.
  intros Hs. unfold create_only, sign_user; cbv zeta.
  repeat first [triple_step | exact Hs]; triple_close;
    try apply token_matches_error; try apply token_matches_issued;
    repeat split; eauto.
Qed.

Lemma googleLogin_contract (req : GoogleBody) :
  triple t auth_call (token_matches_user t) (googleLogin req).
Proof.
  unfold googleLogin, googleLogin_primary, googleLogin_fallback; cbv zeta.
  repeat first [triple_step
               | apply login_or_create_contract
               | apply triple_sub_or_random
               | apply triple_Math_random_toString];
    triple_close; try apply token_matches_error.
Qed.

Lemma registerWithGoogle_contract (req : GoogleBody) :
  triple t auth_call (token_matches_user t) (registerWithGoogle req).
Proof.
  unfold registerWithGoogle, registerWithGoogle_primary,
    registerWithGoogle_fallback; cbv zeta.
  repeat first [triple_step
               | apply create_only_contract
               | apply triple_sub_or_random
               | apply triple_Math_random_toString];
    triple_close; try apply token_matches_error.
Qed.

Lemma authRoute_contract (rq : AuthRequest) :
  triple t auth_call (token_matches_user t) (authRoute rq).
Proof.
  destruct rq; simpl.
  - apply register_contract.
  - eapply triple_weaken; [| |apply login_contract];
      [intros c [H _]; exact H | auto].
  - eapply triple_weaken; [| |apply getCurrentUser_contract];
      [intros c [H _]; exact H | auto].
  - apply googleLogin_contract.
  - apply registerWithGoogle_contract.
Qed.

End AuthContract.

(** X1.  On every auth route, over any storage layer and libraries: the
    token of a response is the session token of the user in that same
    response, signed when the request was handled over the user's id, name
    and e-mail address with [JWT_SECRET] and [expiresIn: '7d']. *)
Theorem session_token_is_for_the_returned_user :
  forall (L : Libs) (St : Type) (S : Storage St) (rq : AuthRequest)
         (w w' : World St) (r : Response) (tok : string) (u : User),
    authRoute rq w = (Ok r, w') ->
    body r = BAuth tok u ->
    tok = jwt_encode (mkClaims (id u) (name u) (email u)) JWT_SECRET "7d"
                     (clock w).
Proof.
  intros L St S rq w w' r tok u Hrun Hbody.
  destruct (triple_run w (authRoute_contract (t := clock w) rq) Hrun) as (_ & _ & Hv).
  exact (Hv r eq_refl tok u Hbody).
Qed.

(** Ava's registration: the token in the response is the one for "id-0",
    "Ava", "ava@x.com". *)
Lemma session_token_is_for_the_returned_user_witness :
  exists r w' tok u,
    authRoute (PostRegister ava_body) (world emptyDb) = (Ok r, w')
    /\ body r = BAuth tok u
    /\ id u = "id-0"
    /\ tok = jwt_encode (mkClaims (id u) (name u) (email u)) JWT_SECRET "7d"
                        (clock (world emptyDb)).
Proof.
  eexists _, _, _, _.
  split; [vm_compute; reflexivity|]. split; [reflexivity|].
  split; [reflexivity|].
  eapply (@session_token_is_for_the_returned_user demoLibs Db memStorage
            (PostRegister ava_body) (world emptyDb));
    [vm_compute; reflexivity | reflexivity].
Defined.

(** X2.  On every auth route, over any storage layer and libraries,
    whether the handler answers normally or through a [catch]: a record
    handed to [storage.createUser] has role 'user', empty favourite-artists
    and purchased-tickets lists, and as password a bcrypt digest made with
    a cost-10 salt; and no content collection is created in, updated or
    deleted from. *)
Theorem auth_routes_create_only_plain_users :
  forall (L : Libs) (St : Type) (S : Storage St) (rq : AuthRequest)
         (w w' : World St) (r : Result Response) (c : Call),
    authRoute rq w = (r, w') ->
    In c (calls_since w w') ->
    (forall nu, c = CCreateUser nu ->
       iu_role nu = RoleUser
       /\ iu_favoriteArtists nu = []
       /\ iu_purchasedTickets nu = []
       /\ exists data n, iu_password nu = bcrypt_digest data (bcrypt_salt 10 n))
    /\ (forall col m, c <> CMutate col m).
Proof.
  intros L St S rq w w' r c Hrun Hin.
  destruct (triple_run w (authRoute_contract (t := clock w) rq) Hrun) as (_ & Hcalls & _).
  rewrite Forall_forall in Hcalls. specialize (Hcalls c Hin).
  split.
  - intros nu ->. exact Hcalls.
  - intros col m ->. exact Hcalls.
Qed.

(** A Google login that creates the record: the call carries role 'user'
    and the digest of the token's [sub]. *)
Lemma auth_routes_create_only_plain_users_witness :
  let run := authRoute (PostGoogleLogin (mkGoogleBody (Some signed_token)))
                       (world emptyDb) in
  let nu := newUser "Ava" "ava@y.com" "ava" "$2a$10$1001" in
  In (CCreateUser nu) (calls_since (world emptyDb) (snd run))
  /\ iu_role nu = RoleUser
  /\ exists data n, iu_password nu = bcrypt_digest data (bcrypt_salt 10 n).
Proof.
  intros run nu.
  assert (Hin : In (CCreateUser nu) (calls_since (world emptyDb) (snd run)))
    by (vm_compute; tauto).
  split; [exact Hin|].
  destruct (@auth_routes_create_only_plain_users demoLibs Db memStorage
              (PostGoogleLogin (mkGoogleBody (Some signed_token)))
              (world emptyDb) (snd run) (fst run) (CCreateUser nu))
    as [Hc _].
  - vm_compute; reflexivity.
  - exact Hin.
  - destruct (Hc nu eq_refl) as (Hr & _ & _ & Hp). split; assumption.
Defined.

(** X3.  [login] and [getCurrentUser] are queries: over any storage layer
    and libraries, and for every input, they never call
    [storage.createUser] nor a content mutation. *)
Theorem queries_never_write :
  forall (L : Libs) (St : Type) (S : Storage St) (rq : AuthRequest)
         (w w' : World St) (r : Result Response),
    is_query rq = true ->
    authRoute rq w = (r, w') ->
    existsb is_createUser (calls_since w w') = false
    /\ existsb is_mutation (calls_since w w') = false.
Proof.
  intros L St S rq w w' r Hq Hrun.
  assert (Hcalls : Forall read_only (calls_since w w')).
  { destruct rq; try discriminate Hq; simpl in Hrun.
    - destruct (triple_run w (login_contract (t := clock w) b) Hrun) as (_ & H & _).
      eapply Forall_impl; [|exact H]. intros c [_ Hc]. exact Hc.
    - destruct (triple_run w (getCurrentUser_contract (t := clock w) authorization)
                   Hrun)
        as (_ & H & _).
      eapply Forall_impl; [|exact H]. intros c [_ Hc]. exact Hc. }
  induction Hcalls as [|c cs [Hc1 Hc2] _ [IH1 IH2]]; simpl; [auto|].
  rewrite Hc1, Hc2, IH1, IH2. auto.
Qed.

(** A successful login on Ava's database: three calls, none of them a
    write. *)
Lemma queries_never_write_witness :
  let rq := PostLogin (mkLoginBody (Some "ava@x.com") (Some "secret1")) in
  is_query rq = true
  /\ option_map status (response (authRoute rq (world ava_db))) = Some 200
  /\ existsb is_createUser
       (calls_since (world ava_db) (snd (authRoute rq (world ava_db)))) = false
  /\ existsb is_mutation
       (calls_since (world ava_db) (snd (authRoute rq (world ava_db)))) = false.
Proof.
  intros rq. split; [reflexivity|]. split; [vm_compute; reflexivity|].
  apply (@queries_never_write demoLibs Db memStorage rq (world ava_db)
           (snd (authRoute rq (world ava_db)))
           (fst (authRoute rq (world ava_db)))).
  - reflexivity.
  - vm_compute; reflexivity.
Defined.

(* ===================================================================== *)
(** ** The answers of the auth routes *)
(* ===================================================================== *)

Ltac shape :=
  unfold shaped, json; cbn [status body statuses];
  split;
  [ simpl; auto 8
  | first [ discriminate
          | split; [reflexivity | intros ?; discriminate]
          | split; [reflexivity | eexists; reflexivity] ] ].

Section Shapes.

Context {L : Libs} {St : Type} {S : Storage St}.

Lemma answers_try_catch_total {A} (Q : A -> Prop) (m : M St A)
      (h : Exn -> M St A) :
  total m -> answers Q m -> answers Q (try_catch m h).
Proof.
  intros Ht Hm w a w' E. unfold try_catch in E.
  destruct (Ht w) as (a0 & w0 & E0). rewrite E0 in E.
  inversion E; subst. eapply Hm; eassumption.
Qed.

Lemma total_if {A} (b : bool) (m1 m2 : M St A) :
  total m1 -> total m2 -> total (if b then m1 else m2).
Proof. destruct b; auto. Qed.

Lemma total_log_then_error (msg : string) (n : nat) (e : string) :
  total (St := St) (console_error msg ;;; error n e).
Proof.
  apply total_bind; [apply total_console_error | intros _; apply total_ret].
Qed.

Lemma register_shaped (req : RegisterBody) :
  answers (shaped (PostRegister req)) (register req).
Proof. unfold register; cbv zeta. repeat answers_step; shape. Qed.

Lemma login_shaped (req : LoginBody) :
  answers (shaped (PostLogin req)) (login req).
Proof. unfold login; cbv zeta. repeat answers_step; shape. Qed.

(** The outer [catch] of [getCurrentUser] is never entered: the [try]
    inside it catches everything. *)
Lemma getCurrentUser_shaped (h : option string) :
  answers (shaped (GetMe h)) (getCurrentUser h).
Proof.
  unfold getCurrentUser; cbv zeta. apply answers_try_catch_total.
  - apply total_if; [apply total_ret|].
    apply total_try_catch. intros e. apply total_log_then_error.
  - repeat answers_step; shape.
Qed.

Lemma login_or_create_shaped (req : GoogleBody) (secret : M St string)
      (p : TokenPayload) :
  answers (shaped (PostGoogleLogin req)) (login_or_create secret p).
Proof. unfold login_or_create; cbv zeta. repeat answers_step; shape. Qed.

Lemma create_only_shaped (req : GoogleBody) (secret : M St string)
      (p : TokenPayload) :
  answers (shaped (PostRegisterGoogle req)) (create_only secret p).
Proof. unfold create_only; cbv zeta. repeat answers_step; shape. Qed.

(** Nor is the outer [catch] of the two Google handlers: the fallback has
    a [catch] of its own. *)
Lemma googleLogin_shaped (req : GoogleBody) :
  answers (shaped (PostGoogleLogin req)) (googleLogin req).
Proof.
  unfold googleLogin; cbv zeta. apply answers_try_catch_total.
  - apply total_if; [apply total_ret|].
    apply total_try_catch. intros e.
    apply total_bind; [apply total_console_error | intros _].
    apply (google_fallback_total ViaGoogleLogin).
  - unfold googleLogin_primary, googleLogin_fallback; cbv zeta.
    repeat answers_step;
      try apply login_or_create_shaped; shape.
Qed.

Lemma registerWithGoogle_shaped (req : GoogleBody) :
  answers (shaped (PostRegisterGoogle req)) (registerWithGoogle req).
Proof.
  unfold registerWithGoogle; cbv zeta. apply answers_try_catch_total.
  - apply total_if; [apply total_ret|].
    apply total_try_catch. intros e.
    apply total_bind; [apply total_console_error | intros _].
    apply (google_fallback_total ViaRegisterWithGoogle).
  - unfold registerWithGoogle_primary, registerWithGoogle_fallback; cbv zeta.
    repeat answers_step;
      try apply create_only_shaped; shape.
Qed.

End Shapes.

(** A [register] run that answered, answered in shape. *)
Lemma register_answer_shaped :
  forall (L : Libs) (St : Type) (S : Storage St) (req : RegisterBody)
         (w w' : World St) (r : Response),
    register req w = (Ok r, w') -> shaped (PostRegister req) r.
Proof. intros L St S req w w' r Hrun. exact (register_shaped req w Hrun). Qed.

(** For a request whose body is there, the answer has the route's shape;
    on [/api/auth/me] and on the two Google routes no 500 is among the
    statuses. *)
Lemma authRoute_shaped :
  forall (L : Libs) (St : Type) (S : Storage St) (rq : AuthRequest)
         (w : World St),
    exists r w', authRoute rq w = (Ok r, w') /\ shaped rq r.
Proof.
  intros L St S rq w.
  destruct (authRoute_total rq w) as (r & w' & Hrun).
  exists r, w'. split; [exact Hrun|].
  revert Hrun. generalize w r w'. change (answers (shaped rq) (authRoute rq)).
  destruct rq; simpl.
  - apply register_shaped.
  - apply login_shaped.
  - apply getCurrentUser_shaped.
  - apply googleLogin_shaped.
  - apply registerWithGoogle_shaped.
Qed.

(** With a body, an incoming request is handled as the handlers above
    handle it. *)
Lemma handle_with_body :
  forall (L : Libs) (St : Type) (S : Storage St) (rq : Incoming)
         (parsed : AuthRequest) (w : World St),
    with_body rq = Some parsed ->
    handle rq w = authRoute parsed w.
Proof.
  intros L St S rq parsed w H.
  destruct rq as [[b|]|[b|]|h|[b|]|[b|]]; simpl in H;
    inversion H; subst; reflexivity.
Qed.

(** X4.  Every request to an auth route is answered, over any storage
    layer and libraries, with or without a body.
    - Without [req.body], the four POST handlers throw on their first
      statement and answer from their outermost [catch]: 500 with the
      handler's own message, after its log line and nothing else.
    - With a body, the answer has the route's shape: [register] answers
      200, 400 or 500; [login] 200, 400, 401 or 500; [googleLogin] and
      [registerWithGoogle] answer 200 or 400, because an inner [catch]
      takes every exception that is raised once the token has been read.
    - [getCurrentUser] reads no body and answers 200, 401 or 404.
    - A 200 answer carries a user object, with a token on every route but
      [/api/auth/me]; any other answer carries an [{ error }] body. *)
Theorem auth_request_answers_in_shape :
  forall (L : Libs) (St : Type) (S : Storage St) (rq : Incoming)
         (w : World St),
    exists r w',
      handle rq w = (Ok r, w')
      /\ match with_body rq with
         | Some parsed => shaped parsed r
         | None => r = server_error rq
                   /\ w' = logged (server_error_line rq) w
         end.
Proof.
  intros L St S rq w.
  destruct (with_body rq) as [parsed|] eqn:Hbody.
  - destruct (@authRoute_shaped L St S parsed w) as (r & w' & Hrun & Hshape).
    exists r, w'. split; [|exact Hshape].
    rewrite (@handle_with_body L St S rq parsed w Hbody). exact Hrun.
  - destruct rq as [[b|]|[b|]|h|[b|]|[b|]]; simpl in Hbody; try discriminate;
      eexists _, _; (split; [reflexivity|]); split; reflexivity.
Qed.

(** X5.  A malformed request is turned away before anything happens:
    [register] without a name, an address or a password, [login] without an
    address or a password, the Google handlers without a token and
    [getCurrentUser] without a bearer header answer with their validation
    error, and the world is as before: no call, no log line. *)
Theorem malformed_request_touches_nothing :
  forall (L : Libs) (St : Type) (S : Storage St) (rq : AuthRequest)
         (w : World St),
    malformed rq = true ->
    authRoute rq w = (Ok (refusal rq), w).
Proof.
  intros L St S rq w Hbad.
  destruct rq as [b|b|h|b|b]; simpl in *.
  - unfold register, complete in *.
    rewrite !negb_andb in Hbad. rewrite Hbad. reflexivity.
  - unfold login. rewrite Hbad. reflexivity.
  - unfold getCurrentUser. rewrite Hbad. reflexivity.
  - unfold googleLogin. rewrite Hbad. reflexivity.
  - unfold registerWithGoogle. rewrite Hbad. reflexivity.
Qed.

(** A registration with an empty password, and a header that says
    "Basic". *)
Lemma malformed_request_touches_nothing_witness :
  let rq := PostRegister (mkRegisterBody (Some "Ava") (Some "ava@x.com")
                                         (Some "") None) in
  malformed rq = true
  /\ authRoute rq (world ava_db)
     = (Ok (mkResponse 400 (BError "Name, email, and password are required")),
        world ava_db)
  /\ malformed (GetMe (Some "Basic dXNlcjpwdw==")) = true
  /\ authRoute (GetMe (Some "Basic dXNlcjpwdw==")) (world ava_db)
     = (Ok (mkResponse 401 (BError "No token provided")), world ava_db).
Proof.
  intros rq. split; [reflexivity|].
  split; [exact (@malformed_request_touches_nothing demoLibs Db memStorage rq
                   (world ava_db) eq_refl)|].
  split; [reflexivity|].
  exact (@malformed_request_touches_nothing demoLibs Db memStorage
           (GetMe (Some "Basic dXNlcjpwdw==")) (world ava_db) eq_refl).
Defined.

(* ===================================================================== *)
(** ** More on [register] and [login] *)
(* ===================================================================== *)

(** X6.  Over any storage layer: a complete [register] request for an
    address nobody has, with a username that a stored record already has,
    is answered 400 "Username is already taken"; the calls are the two
    lookups, so nothing is hashed, stored or signed. *)
Theorem register_refuses_taken_username :
  forall (L : Libs) (St : Type) (S : Storage St) (req : RegisterBody)
         (w : World St) (s1 s2 : St) (holder : User),
    complete req = true ->
    JS.truthy (rb_username req) = true ->
    db_getUserByEmail (JS.str (rb_email req)) (store w) = (Ok None, s1) ->
    db_getUserByUsername (JS.str (rb_username req)) s1 = (Ok (Some holder), s2) ->
    rejects (register req w) w
      (mkResponse 400 (BError "Username is already taken"))
      [CGetUserByEmail (JS.str (rb_email req));
       CGetUserByUsername (JS.str (rb_username req))].
Proof.
  intros L St S req w s1 s2 holder Hc Hu Hmail Hname.
  unfold complete in Hc.
  apply andb_prop in Hc as [Hc Hp]. apply andb_prop in Hc as [Hn He].
  unfold rejects, register. rewrite Hn, He, Hp, Hu. open_calls.
  rewrite Hmail. open_calls. rewrite Hname. open_calls.
  split; [reflexivity|]. split; [|split; reflexivity].
  apply calls_since_app. cbn [trace]. now rewrite <- app_assoc.
Qed.

(** Eve asks for Ava's username under a new address. *)
Lemma register_refuses_taken_username_witness :
  let req := mkRegisterBody (Some "Eve") (Some "eve@x.com") (Some "hunter2")
                            (Some "ava") in
  complete req = true
  /\ rejects (register req (world ava_db)) (world ava_db)
       (mkResponse 400 (BError "Username is already taken"))
       [CGetUserByEmail "eve@x.com"; CGetUserByUsername "ava"]
  /\ store (snd (register req (world ava_db))) = ava_db.
Proof.
  intros req. split; [reflexivity|].
  split; [|vm_compute; reflexivity].
  apply (@register_refuses_taken_username demoLibs Db memStorage req
           (world ava_db) ava_db ava_db ava_x);
    vm_compute; reflexivity.
Defined.

(** X7.  Over any storage layer: a [register] call that answers 400 has
    made no call but lookups of users; in particular it has not called
    [createUser], [bcrypt.hash] or [jwt.sign]. *)
Theorem register_400_has_only_looked :
  forall (L : Libs) (St : Type) (S : Storage St) (req : RegisterBody)
         (w w' : World St) (r : Response),
    register req w = (Ok r, w') ->
    status r = 400 ->
    forallb is_lookup (calls_since w w') = true.
Proof.
  intros L St S req w w' r Hrun Hst.
  assert (Hdone : forall cs,
             trace w' = (trace w ++ cs)%list ->
             forallb is_lookup cs = true ->
             forallb is_lookup (calls_since w w') = true).
  { intros cs Ht Hcs. now erewrite calls_since_app by exact Ht. }
  revert Hrun. unfold register.
  destruct (negb (JS.truthy (rb_name req)) || negb (JS.truthy (rb_email req))
            || negb (JS.truthy (rb_password req))).
  { open_calls. intros H; inversion H; subst.
    apply (Hdone []); [now rewrite app_nil_r | reflexivity]. }
  open_calls.
  destruct (db_getUserByEmail (JS.str (rb_email req)) (store w))
    as [[[known|]|x] s1]; open_calls.
  - intros H; inversion H; subst. eapply Hdone; reflexivity.
  - destruct (JS.truthy (rb_username req)); open_calls.
    + destruct (db_getUserByUsername (JS.str (rb_username req)) s1)
        as [[[holder|]|x] s2]; open_calls.
      * intros H; inversion H; subst.
        eapply Hdone; [cbn [trace]; rewrite <- app_assoc|]; reflexivity.
      * match goal with
        | |- context [db_createUser ?nu s2] =>
            destruct (db_createUser nu s2) as [[u|x] s3]
        end; intros H; inversion H; subst; discriminate.
      * intros H; inversion H; subst. discriminate.
    + match goal with
      | |- context [db_createUser ?nu s1] =>
          destruct (db_createUser nu s1) as [[u|x] s3]
      end; intros H; inversion H; subst; discriminate.
  - intros H; inversion H; subst. discriminate.
Qed.

(** Eve's refused request again: two calls, both lookups. *)
Lemma register_400_has_only_looked_witness :
  let req := mkRegisterBody (Some "Eve") (Some "eve@x.com") (Some "hunter2")
                            (Some "ava") in
  option_map status (response (register req (world ava_db))) = Some 400
  /\ forallb is_lookup
       (calls_since (world ava_db) (snd (register req (world ava_db)))) = true.
Proof.
  intros req. split; [vm_compute; reflexivity|].
  eapply (@register_400_has_only_looked demoLibs Db memStorage req
            (world ava_db));
    [vm_compute; reflexivity | reflexivity].
Defined.

(** A [login] that goes through, run. *)
Lemma login_run_found :
  forall (L : Libs) (St : Type) (S : Storage St) (req : LoginBody)
         (w : World St) (u : User) (s' : St),
    JS.truthy (lb_email req) = true ->
    JS.truthy (lb_password req) = true ->
    db_getUserByEmail (JS.str (lb_email req)) (store w) = (Ok (Some u), s') ->
    JS.truthy (password u) = true ->
    bcrypt_check (JS.str (lb_password req)) (JS.str (password u)) = true ->
    login req w
    = (Ok (json (BAuth (jwt_encode (claims_of u) JWT_SECRET "7d" (clock w))
                       (withoutPassword u))),
       mkWorld s' (clock w) (entropy w) (console w)
               (trace w ++ [CGetUserByEmail (JS.str (lb_email req));
                            CBcryptCompare (JS.str (lb_password req))
                                           (JS.str (password u));
                            CJwtSign (claims_of u)])).
Proof.
  intros L St S req w u s' He Hp Hdb Hhash Hcmp.
  unfold login. rewrite He, Hp. open_calls.
  rewrite Hdb. rewrite Hhash. open_calls. rewrite Hcmp. open_calls.
  rewrite <- !app_assoc. reflexivity.
Qed.

(** X8.  Over any storage layer: a [login] request with address and
    password present, for a stored record whose hash verifies against the
    password, is answered 200 with the session token of that record and
    the record without its password; the calls are the lookup, the
    comparison and [jwt.sign]. *)
Theorem login_succeeds :
  forall (L : Libs) (St : Type) (S : Storage St) (req : LoginBody)
         (w : World St) (u : User) (s' : St),
    JS.truthy (lb_email req) = true ->
    JS.truthy (lb_password req) = true ->
    db_getUserByEmail (JS.str (lb_email req)) (store w) = (Ok (Some u), s') ->
    JS.truthy (password u) = true ->
    bcrypt_check (JS.str (lb_password req)) (JS.str (password u)) = true ->
    login req w
    = (Ok (json (BAuth (jwt_encode (claims_of u) JWT_SECRET "7d" (clock w))
                       (withoutPassword u))),
       mkWorld s' (clock w) (entropy w) (console w)
               (trace w ++ [CGetUserByEmail (JS.str (lb_email req));
                            CBcryptCompare (JS.str (lb_password req))
                                           (JS.str (password u));
                            CJwtSign (claims_of u)])).
Proof. exact login_run_found. Qed.

(** Ava logs in with "secret1". *)
Lemma login_succeeds_witness :
  let req := mkLoginBody (Some "ava@x.com") (Some "secret1") in
  login req (world ava_db)
  = (Ok (json (BAuth (jwt_encode (claims_of ava_x) JWT_SECRET "7d" 0)
                     (withoutPassword ava_x))),
     mkWorld ava_db 0 0 []
             ([] ++ [CGetUserByEmail "ava@x.com";
                     CBcryptCompare "secret1" "$2a$10$secret1";
                     CJwtSign (claims_of ava_x)])).
Proof.
  intros req.
  apply (@login_succeeds demoLibs Db memStorage req (world ava_db) ava_x ava_db);
    vm_compute; reflexivity.
Defined.

(* ===================================================================== *)
(** ** The bearer header and [getCurrentUser] *)
(* ===================================================================== *)

Lemma split_first_clean (sep : ascii) (s : string) :
  ~ In sep (chars s) -> JS.first (JS.split sep s) = s.
Proof.
  induction s as [|c rest IH]; simpl; [reflexivity|].
  intros Hno. destruct (Ascii.eqb c sep) eqn:Ec.
  - apply Ascii.eqb_eq in Ec. tauto.
  - pose proof (split_nonempty sep rest) as Hne.
    destruct (JS.split sep rest) as [|h tl]; [congruence|].
    simpl in *. rewrite IH by tauto. reflexivity.
Qed.

(** The header "Bearer " followed by a text is a bearer header, and its
    token is the text up to the first space. *)
Lemma bearer_header_token (text : string) :
  no_bearer (Some ("Bearer " ++ text)) = false
  /\ bearer_token (Some ("Bearer " ++ text))
     = Some (JS.first (JS.split space text)).
Proof.
  split; [destruct text; reflexivity|].
  unfold bearer_token, JS.index. cbn [JS.str].
  change ("Bearer " ++ text)
    with (String "B" (String "e" (String "a" (String "r" (String "e"
           (String "r" (String " " text))))))).
  cbn [JS.split Ascii.eqb Bool.eqb space].
  pose proof (split_nonempty space text) as Hne.
  destruct (JS.split space text) as [|h tl]; [congruence|]. reflexivity.
Qed.

(** X9.  [authHeader.split(' ')[1]], as [getCurrentUser] and the twelve
    admin handlers read the token: for a header "Bearer " followed by any
    text, the header is accepted as a bearer header, and the token that is
    verified is the text up to its first space; what follows a space is
    ignored, and a header that ends after "Bearer " gives the empty
    token. *)
Theorem bearer_token_is_cut_at_the_first_space :
  forall (text : string),
    let token := JS.first (JS.split space text) in
    no_bearer (Some ("Bearer " ++ text)) = false
    /\ bearer_token (Some ("Bearer " ++ text)) = Some token
    /\ ~ In space (chars token)
    /\ (text = token \/ exists rest, text = token ++ String space rest).
Proof.
  intros text token.
  destruct (bearer_header_token text) as [Hb Ht].
  split; [exact Hb|]. split; [exact Ht|].
  exact (split_first space text).
Qed.

Section CurrentUser.

Context {L : Libs} {St : Type} {S : Storage St}.

(** [getCurrentUser] with a token that verifies, run up to its answer. *)
Lemma getCurrentUser_run_verified (h : option string) (w : World St)
      (cl : Claims) (found : option User) (s' : St) :
  no_bearer h = false ->
  verified_claims h (clock w) = Some cl ->
  db_getUser (c_id cl) (store w) = (Ok found, s') ->
  getCurrentUser h w
  = (Ok (match found with
         | Some u => json (BUser (withoutPassword u))
         | None => mkResponse 404 (BError "User not found")
         end),
     mkWorld s' (clock w) (entropy w) (console w)
             (trace w ++ [CJwtVerify (bearer_token h); CGetUser (c_id cl)])).
Proof.
  unfold verified_claims. intros Hb Hv Hdb.
  unfold getCurrentUser. rewrite Hb. open_calls.
  destruct (bearer_token h) as [tk|]; [|discriminate].
  rewrite Hv. open_calls. rewrite Hdb. rewrite <- app_assoc.
  destruct found; reflexivity.
Qed.

(** X10.  Over any storage layer, [getCurrentUser] with a bearer header:
    - when [jwt.verify] rejects the token, it answers 401 "Invalid token"
      and the storage layer is not called;
    - when the token verifies and no user has the id in its claims, it
      answers 404 "User not found";
    - when the user is found, it answers 200 with the record without its
      password, and no token. *)
Theorem getCurrentUser_outcomes :
  forall (h : option string) (w : World St),
    no_bearer h = false ->
    (verified_claims h (clock w) = None ->
     getCurrentUser h w
     = (Ok (mkResponse 401 (BError "Invalid token")),
        logged "JWT verification error:"
               (called (CJwtVerify (bearer_token h)) w)))
    /\ (forall cl found s',
          verified_claims h (clock w) = Some cl ->
          db_getUser (c_id cl) (store w) = (Ok found, s') ->
          getCurrentUser h w
          = (Ok (match found with
                 | Some u => json (BUser (withoutPassword u))
                 | None => mkResponse 404 (BError "User not found")
                 end),
             mkWorld s' (clock w) (entropy w) (console w)
                     (trace w ++ [CJwtVerify (bearer_token h);
                                  CGetUser (c_id cl)]))).
Proof.
  intros h w Hb. unfold verified_claims. split.
  - intros Hv. unfold getCurrentUser. rewrite Hb. open_calls.
    destruct (bearer_token h) as [tk|]; [rewrite Hv|]; reflexivity.
  - intros cl found s' Hv Hdb.
    exact (getCurrentUser_run_verified h w Hb Hv Hdb).
Qed.

End CurrentUser.

(** Ava's session token is answered with her record; a token for an id
    nobody has is answered 404. *)
Lemma getCurrentUser_outcomes_witness :
  no_bearer (bearer ava_x) = false
  /\ getCurrentUser (bearer ava_x) (world ava_db)
     = (Ok (json (BUser (withoutPassword ava_x))),
        mkWorld ava_db 0 0 []
                ([] ++ [CJwtVerify (bearer_token (bearer ava_x));
                        CGetUser (c_id (claims_of ava_x))]))
  /\ option_map status
       (response (getCurrentUser
                    (Some "Bearer id-9|Ann|ann@x.com|full-fuel-jwt-secret")
                    (world ava_db)))
     = Some 404.
Proof.
  split; [reflexivity|]. split; [|vm_compute; reflexivity].
  exact (proj2 (@getCurrentUser_outcomes demoLibs Db memStorage (bearer ava_x)
                  (world ava_db) eq_refl)
               (claims_of ava_x) (Some ava_x) ava_db eq_refl eq_refl).
Defined.

(* ===================================================================== *)
(** ** A registration, then a login or a request for the current user *)
(* ===================================================================== *)

Section AfterRegister.

Context {L : Libs}.

(** A successful [register] on the database, in full: the address was
    free, one record is appended, its password is the digest of the
    request's password, and the response carries its session token. *)
Lemma register_success_db (req : RegisterBody) (w w1 : World Db)
      (r : Response) :
  register req w = (Ok r, w1) ->
  status r = 200 ->
  let e := JS.str (rb_email req) in
  let u := document (fresh_id (next_id (store w)))
             (newUser (JS.str (rb_name req)) e
                (JS.or_else (rb_username req) (local_part e))
                (bcrypt_digest (JS.str (rb_password req))
                   (bcrypt_salt 10 (entropy w)))) in
  complete req = true
  /\ r = json (BAuth (jwt_encode (claims_of u) JWT_SECRET "7d" (clock w))
                     (withoutPassword u))
  /\ find (has_email e) (users (store w)) = None
  /\ users (store w1) = (users (store w) ++ [u])%list
  /\ clock w1 = clock w.
Proof.
  intros Hrun Hst e u. revert Hrun. unfold register, complete.
  destruct (JS.truthy (rb_name req)), (JS.truthy (rb_email req)),
    (JS.truthy (rb_password req)); cbn [negb orb andb];
    try (open_calls; intros H; inversion H; subst; discriminate).
  open_calls. open_db.
  destruct (find (has_email (JS.str (rb_email req))) (users (store w)))
    eqn:Hfind.
  { intros H; inversion H; subst. discriminate. }
  destruct (JS.truthy (rb_username req)); open_calls; open_db.
  - destruct (find (has_username (JS.str (rb_username req))) (users (store w))).
    { intros H; inversion H; subst. discriminate. }
    open_calls. open_db.
    match goal with
    | |- context [mem_createUser ?nu ?db] =>
        destruct (mem_createUser nu db) as [res db'] eqn:Hcreate
    end.
    destruct (mem_createUser_inv _ _ Hcreate) as [(x & -> & ->) | (-> & Hu & _)].
    + intros H; inversion H; subst. discriminate.
    + intros H; inversion H; subst. cbn [store clock]. auto.
  - match goal with
    | |- context [mem_createUser ?nu ?db] =>
        destruct (mem_createUser nu db) as [res db'] eqn:Hcreate
    end.
    destruct (mem_createUser_inv _ _ Hcreate) as [(x & -> & ->) | (-> & Hu & _)].
    + intros H; inversion H; subst. discriminate.
    + intros H; inversion H; subst. cbn [store clock]. auto.
Qed.

End AfterRegister.

(** X11.  Over the database of the specification: after a successful
    [register], a [login] with the same address and password succeeds and
    returns the very user object that [register] returned, provided the
    hasher verifies the password against the digest it made of it and that
    digest is not the empty string.  The login writes nothing. *)
Theorem register_then_login :
  forall (L : Libs) (req : RegisterBody) (w w1 : World Db) (r : Response),
    register req w = (Ok r, w1) ->
    status r = 200 ->
    let pw := JS.str (rb_password req) in
    let digest := bcrypt_digest pw (bcrypt_salt 10 (entropy w)) in
    digest <> "" ->
    bcrypt_check pw digest = true ->
    exists tok u w2,
      login (mkLoginBody (rb_email req) (rb_password req)) w1
      = (Ok (json (BAuth tok u)), w2)
      /\ response_user r = Some u
      /\ store w2 = store w1.
Proof.
  intros L req w w1 r Hrun Hst pw digest Hne Hcheck.
  destruct (register_success_db _ _ Hrun Hst) as (Hc & -> & Hfind & Hu & Hclk).
  unfold complete in Hc.
  apply andb_prop in Hc as [Hc Hp]. apply andb_prop in Hc as [Hn He].
  set (u := document (fresh_id (next_id (store w)))
              (newUser (JS.str (rb_name req)) (JS.str (rb_email req))
                 (JS.or_else (rb_username req)
                    (local_part (JS.str (rb_email req)))) digest)) in *.
  assert (Hfind1 : find (has_email (JS.str (rb_email req))) (users (store w1))
                   = Some u).
  { rewrite Hu, find_last, Hfind. unfold has_email, u. cbn [email document
      newUser iu_email]. now rewrite String.eqb_refl. }
  assert (Hpw : password u = Some digest) by reflexivity.
  eexists _, (withoutPassword u), _. split; [|split; [reflexivity|]].
  - apply (@login_run_found L Db memStorage
             (mkLoginBody (rb_email req) (rb_password req)) w1 u (store w1)).
    + exact He.
    + exact Hp.
    + cbn [db_getUserByEmail memStorage lb_email]. now rewrite Hfind1.
    + rewrite Hpw. simpl. apply negb_true_iff. now apply String.eqb_neq.
    + rewrite Hpw. exact Hcheck.
  - reflexivity.
Qed.

(** Ava registers on an empty database and logs in. *)
Lemma register_then_login_witness :
  let w1 := snd (register ava_body (world emptyDb)) in
  option_map status (response (register ava_body (world emptyDb))) = Some 200
  /\ exists tok u w2,
       login (mkLoginBody (rb_email ava_body) (rb_password ava_body)) w1
       = (Ok (json (BAuth tok u)), w2)
       /\ response_user
            (json (BAuth "id-0|Ava|ava@x.com|full-fuel-jwt-secret"
                     (withoutPassword
                        (document "id-0"
                           (newUser "Ava" "ava@x.com" "ava" "$2a$10$secret1")))))
          = Some u
       /\ store w2 = store w1.
Proof.
  intros w1. split; [vm_compute; reflexivity|].
  apply (@register_then_login demoLibs ava_body (world emptyDb) w1).
  - vm_compute; reflexivity.
  - reflexivity.
  - intro H; discriminate H.
  - vm_compute; reflexivity.
Defined.

(** X12.  Over the database of the specification: after a successful
    [register], [getCurrentUser] with the header "Bearer " followed by the
    token from the response answers 200 with the very user object that
    [register] returned, provided
    - the token verifies to the claims it was signed over,
    - the token holds no space (a header is cut at its first space), and
    - no record stored before had the id that the new record got. *)
Theorem register_then_getCurrentUser :
  forall (L : Libs) (req : RegisterBody) (w w1 : World Db) (r : Response)
         (tok : string) (u : User),
    register req w = (Ok r, w1) ->
    body r = BAuth tok u ->
    jwt_decode tok JWT_SECRET (clock w) = Some (claims_of u) ->
    ~ In space (chars tok) ->
    find (has_id (id u)) (users (store w)) = None ->
    exists w2,
      getCurrentUser (Some ("Bearer " ++ tok)) w1 = (Ok (json (BUser u)), w2)
      /\ store w2 = store w1.
Proof.
  intros L req w w1 r tok u Hrun Hbody Hjwt Hclean Hid.
  assert (Hst : status r = 200).
  { destruct (@register_answer_shaped L Db memStorage req w w1
                r Hrun) as [_ Hsh].
    rewrite Hbody in Hsh. tauto. }
  destruct (register_success_db _ _ Hrun Hst) as (_ & Hr & _ & Hu & Hclk).
  rewrite Hr in Hbody. cbn [body json] in Hbody.
  inversion Hbody as [[Htok Hu']]; clear Hbody.
  set (d := document (fresh_id (next_id (store w)))
              (newUser (JS.str (rb_name req)) (JS.str (rb_email req))
                 (JS.or_else (rb_username req)
                    (local_part (JS.str (rb_email req))))
                 (bcrypt_digest (JS.str (rb_password req))
                    (bcrypt_salt 10 (entropy w))))) in *.
  assert (Hidd : id u = id d) by (rewrite <- Hu'; reflexivity).
  assert (Hcl : claims_of u = claims_of d) by (rewrite <- Hu'; reflexivity).
  destruct (bearer_header_token tok) as (Hb & Ht).
  rewrite (split_first_clean space tok Hclean) in Ht.
  assert (Hv : verified_claims (Some ("Bearer " ++ tok)) (clock w1)
               = Some (claims_of u)).
  { unfold verified_claims. rewrite Ht, Hclk. exact Hjwt. }
  assert (Hdb : db_getUser (c_id (claims_of u)) (store w1)
                = (Ok (Some d), store w1)).
  { cbn [db_getUser memStorage c_id claims_of]. rewrite Hu, find_last.
    rewrite Hidd in Hid. rewrite Hidd, Hid. unfold has_id.
    now rewrite String.eqb_refl. }
  pose proof (getCurrentUser_run_verified _ _ Hb Hv Hdb) as Hme.
  eexists. split; [rewrite Htok, Hme; reflexivity | reflexivity].
Qed.

(** Ava registers on an empty database and asks who she is. *)
Lemma register_then_getCurrentUser_witness :
  let run := register ava_body (world emptyDb) in
  let tok := "id-0|Ava|ava@x.com|full-fuel-jwt-secret" in
  let u := withoutPassword
             (document "id-0" (newUser "Ava" "ava@x.com" "ava" "$2a$10$secret1")) in
  run = (Ok (json (BAuth tok u)), snd run)
  /\ exists w2,
       getCurrentUser (Some ("Bearer " ++ tok)) (snd run)
       = (Ok (json (BUser u)), w2)
       /\ store w2 = store (snd run).
Proof.
  intros run tok u.
  assert (Hrun : run = (Ok (json (BAuth tok u)), snd run))
    by (vm_compute; reflexivity).
  split; [exact Hrun|].
  apply (@register_then_getCurrentUser demoLibs ava_body (world emptyDb)
           (snd run) (json (BAuth tok u)) tok u).
  - exact Hrun.
  - reflexivity.
  - vm_compute; reflexivity.
  - vm_compute. intuition discriminate.
  - reflexivity.
Defined.

(* ===================================================================== *)
(** ** A verified Google token without an e-mail address *)
(* ===================================================================== *)

(** X13.  In [googleLogin] and in [registerWithGoogle], over any storage
    layer: a non-empty token that the library verifies but whose payload
    has no e-mail address is answered 400 "Invalid Google token payload".
    The answer is given inside the first [try] block: the fallback is not
    run and the storage layer is not called. *)
Theorem verified_token_without_email_is_refused :
  forall (L : Libs) (St : Type) (S : Storage St) (k : GoogleRoute)
         (tok : string) (w : World St) (p : TokenPayload),
    tok <> "" ->
    google_certs_check tok (clock w) = Some p ->
    JS.truthy (p_email p) = false ->
    google_handler k (mkGoogleBody (Some tok)) w
    = (Ok (mkResponse 400 (BError "Invalid Google token payload")),
       logged "Invalid Google token payload:"
              (called (CVerifyIdToken tok None) w)).
Proof.
  intros L St S k tok w p Htok Hsig Hmail.
  assert (Htruthy : JS.truthy (Some tok) = true).
  { simpl. apply negb_true_iff. now apply String.eqb_neq. }
  destruct k; cbn [google_handler];
    unfold googleLogin, registerWithGoogle, googleLogin_primary,
      registerWithGoogle_primary;
    cbv zeta; cbn [gb_token]; rewrite Htruthy; cbn [negb JS.str];
    unfold try_catch at 1 2, bind at 1;
    rewrite verify_primary_run, Hsig;
    cbn [getPayload]; rewrite Hmail; reflexivity.
Qed.

Lemma verified_token_without_email_is_refused_witness :
  anon_token <> ""
  /\ @google_certs_check anonLibs anon_token 0 = Some anon_payload
  /\ JS.truthy (p_email anon_payload) = false
  /\ @google_handler anonLibs Db memStorage ViaGoogleLogin
       (mkGoogleBody (Some anon_token)) (world emptyDb)
     = (Ok (mkResponse 400 (BError "Invalid Google token payload")),
        logged "Invalid Google token payload:"
               (called (CVerifyIdToken anon_token None) (world emptyDb))).
Proof.
  assert (H1 : anon_token <> "") by (intro H; discriminate H).
  assert (H2 : @google_certs_check anonLibs anon_token 0 = Some anon_payload)
    by (vm_compute; reflexivity).
  split; [exact H1|]. split; [exact H2|]. split; [reflexivity|].
  exact (@verified_token_without_email_is_refused anonLibs Db memStorage
           ViaGoogleLogin anon_token (world emptyDb) anon_payload H1 H2 eq_refl).
Defined.

(* ===================================================================== *)
(** ** The admin routes, when they let a request through *)
(* ===================================================================== *)

Section AdminThrough.

Context {L : Libs} {St : Type} {S : Storage St}.

(** An admin route run to the point where it has decided on the caller. *)
Lemma adminRoute_run_admin (c : Collection) (m : Mutation)
      (h : option string) (paramsId reqBody : string) (w : World St)
      (cl : Claims) (u : User) (s1 : St) :
  no_bearer h = false ->
  verified_claims h (clock w) = Some cl ->
  db_getUser (c_id cl) (store w) = (Ok (Some u), s1) ->
  role u = RoleAdmin ->
  adminRoute c m h paramsId reqBody w
  = try_catch
      (match m with
       | Create =>
           created <- createDoc c reqBody ;;
           ret (mkResponse 201 (BJson created))
       | Update =>
           updated <- updateDoc c paramsId reqBody ;;
           match updated with
           | None => error 404 (Noun c ++ " not found")
           | Some d => ret (json (BJson d))
           end
       | Delete =>
           success <- deleteDoc c paramsId ;;
           if negb success then error 404 (Noun c ++ " not found")
           else ret (mkResponse 204 BEmpty)
       end)
      (fun _ =>
         console_error (Verb m ++ " " ++ noun c ++ " error:") ;;;
         ret (mkResponse 500 (BMessage ("Failed to " ++ verb m ++ " " ++ noun c))))
      (mkWorld s1 (clock w) (entropy w) (console w)
               (trace w ++ [CJwtVerify (bearer_token h); CGetUser (c_id cl)])).
Proof.
  unfold verified_claims. intros Hb Hv Hdb Hrole.
  unfold adminRoute. rewrite Hb. cbv zeta.
  destruct (bearer_token h) as [tk|]; [|discriminate].
  unfold try_catch, bind at 1 2, jwt_verify, getUser.
  open_calls. rewrite Hv. open_calls. rewrite Hdb.
  unfold not_admin. rewrite Hrole. cbn [Role_eqb negb].
  rewrite <- app_assoc. reflexivity.
Qed.

End AdminThrough.

(** Reading a call off the calls of a run whose final trace is known. *)
Ltac calls_in H :=
  erewrite calls_since_app in H
    by (cbn [trace logged called]; rewrite <- ?app_assoc; reflexivity);
  simpl in H.

(** X14.  The admin gate is sound, over any storage layer and libraries:
    if a run of an admin handler calls a storage mutation at all, then the
    request had a bearer header, its token verified, the user of the id in
    its claims was found and has role 'admin'; and the mutation is the one
    of that route, called once, after the verification and the lookup. *)
Theorem mutation_only_for_a_verified_admin :
  forall (L : Libs) (St : Type) (S : Storage St) (c : Collection)
         (m : Mutation) (h : option string) (paramsId reqBody : string)
         (w w' : World St) (r : Result Response) (call : Call),
    adminRoute c m h paramsId reqBody w = (r, w') ->
    In call (calls_since w w') ->
    is_mutation call = true ->
    no_bearer h = false
    /\ exists cl u s1,
         verified_claims h (clock w) = Some cl
         /\ db_getUser (c_id cl) (store w) = (Ok (Some u), s1)
         /\ role u = RoleAdmin
         /\ calls_since w w'
            = [CJwtVerify (bearer_token h); CGetUser (c_id cl); CMutate c m].
Proof.
  intros L St S c m h paramsId reqBody w w' r call Hrun Hin Hmut.
  destruct (no_bearer h) eqn:Hb.
  { unfold adminRoute in Hrun. rewrite Hb in Hrun.
    revert Hrun. open_calls. intros Hrun. inversion Hrun; subst.
    erewrite calls_since_app with (cs := []) in Hin by now rewrite app_nil_r.
    destruct Hin. }
  split; [reflexivity|].
  destruct (verified_claims h (clock w)) as [cl|] eqn:Hv.
  2:{ destruct (adminRoute_refusals c m h paramsId reqBody w) as (_ & H500 & _).
      rewrite (H500 Hb Hv) in Hrun. inversion Hrun; subst.
      calls_in Hin. destruct Hin as [<- | []]. discriminate. }
  destruct (db_getUser (c_id cl) (store w)) as [[found|x] s1] eqn:Hdb.
  2:{ revert Hrun. unfold adminRoute, verified_claims in *. rewrite Hb.
      open_calls. destruct (bearer_token h) as [tk|]; [|discriminate].
      rewrite Hv. open_calls. rewrite Hdb. intros Hrun. inversion Hrun; subst.
      calls_in Hin. destruct Hin as [<- | [<- | []]]; discriminate. }
  destruct (not_admin found) eqn:Hrole.
  { destruct (adminRoute_refusals c m h paramsId reqBody w) as (_ & _ & H403).
    rewrite (H403 cl found s1 Hb Hv Hdb Hrole) in Hrun. inversion Hrun; subst.
    calls_in Hin. destruct Hin as [<- | [<- | []]]; discriminate. }
  destruct found as [u|]; [|discriminate].
  assert (Hadmin : role u = RoleAdmin).
  { unfold not_admin in Hrole. destruct (role u); [discriminate | reflexivity]. }
  exists cl, u, s1. repeat (split; [reflexivity || assumption|]).
  rewrite (@adminRoute_run_admin L St S c m h paramsId reqBody w cl u s1
             Hb Hv Hdb Hadmin) in Hrun.
  clear Hin. revert Hrun. destruct m; open_calls.
  - destruct (db_create c reqBody s1) as [[d|x] s2]; intros Hrun;
      inversion Hrun; subst; apply calls_since_app; cbn [trace];
      rewrite <- ?app_assoc; reflexivity.
  - destruct (db_update c paramsId reqBody s1) as [[[d|]|x] s2]; intros Hrun;
      inversion Hrun; subst; apply calls_since_app; cbn [trace];
      rewrite <- ?app_assoc; reflexivity.
  - destruct (db_delete c paramsId s1) as [[[|]|x] s2]; intros Hrun;
      inversion Hrun; subst; apply calls_since_app; cbn [trace];
      rewrite <- ?app_assoc; reflexivity.
Qed.

(** The admin's POST of a video: one mutation, after verification and
    lookup. *)
Lemma mutation_only_for_a_verified_admin_witness :
  let run := adminRoute Videos Create (bearer admin_user) "" "{}"
                        (world admin_db) in
  In (CMutate Videos Create) (calls_since (world admin_db) (snd run))
  /\ exists cl u s1,
       verified_claims (bearer admin_user) 0 = Some cl
       /\ db_getUser (c_id cl) admin_db = (Ok (Some u), s1)
       /\ role u = RoleAdmin.
Proof.
  intros run.
  assert (Hin : In (CMutate Videos Create)
                   (calls_since (world admin_db) (snd run)))
    by (vm_compute; tauto).
  split; [exact Hin|].
  destruct (@mutation_only_for_a_verified_admin demoLibs Db memStorage
              Videos Create (bearer admin_user) "" "{}" (world admin_db)
              (snd run) (fst run) (CMutate Videos Create))
    as (_ & cl & u & s1 & Hv & Hdb & Hrole & _).
  - vm_compute; reflexivity.
  - exact Hin.
  - reflexivity.
  - exists cl, u, s1. auto.
Defined.

(** X15.  Over any storage layer, an admin handler for a caller whose
    token verifies to a stored admin answers by what the storage mutation
    gives:
    - create: 201 with the created document;
    - update: 200 with the updated document, or 404 "<Name> not found" when
      the storage layer knows no document of that id;
    - delete: 204 with an empty body, or 404 "<Name> not found" when
      nothing was deleted;
    - and 500 "Failed to <verb> <name>" when the mutation throws. *)
Theorem admin_mutation_outcomes :
  forall (L : Libs) (St : Type) (S : Storage St) (c : Collection)
         (h : option string) (paramsId reqBody : string) (w : World St)
         (cl : Claims) (u : User) (s1 : St),
    no_bearer h = false ->
    verified_claims h (clock w) = Some cl ->
    db_getUser (c_id cl) (store w) = (Ok (Some u), s1) ->
    role u = RoleAdmin ->
    let failed m :=
      mkResponse 500 (BMessage ("Failed to " ++ verb m ++ " " ++ noun c)) in
    let not_found := mkResponse 404 (BError (Noun c ++ " not found")) in
    response (adminRoute c Create h paramsId reqBody w)
    = Some (match fst (db_create c reqBody s1) with
            | Ok d => mkResponse 201 (BJson d)
            | Throw _ => failed Create
            end)
    /\ response (adminRoute c Update h paramsId reqBody w)
       = Some (match fst (db_update c paramsId reqBody s1) with
               | Ok (Some d) => mkResponse 200 (BJson d)
               | Ok None => not_found
               | Throw _ => failed Update
               end)
    /\ response (adminRoute c Delete h paramsId reqBody w)
       = Some (match fst (db_delete c paramsId s1) with
               | Ok true => mkResponse 204 BEmpty
               | Ok false => not_found
               | Throw _ => failed Delete
               end).
Proof.
  intros L St S c h paramsId reqBody w cl u s1 Hb Hv Hdb Hrole failed not_found.
  rewrite !(fun m => @adminRoute_run_admin L St S c m h paramsId reqBody w cl u
                       s1 Hb Hv Hdb Hrole).
  unfold response. open_calls.
  destruct (db_create c reqBody s1) as [[d|x] s2],
    (db_update c paramsId reqBody s1) as [[[d'|]|x'] s2'],
    (db_delete c paramsId s1) as [[[|]|x''] s2''];
    repeat split; reflexivity.
Qed.

(** The admin updates a gallery item that is not there, and deletes a video
    that is. *)
Lemma admin_mutation_outcomes_witness :
  let db := mkDb [admin_user] [(Videos, "id-1", "{}")] 2 in
  response (adminRoute Gallery Update (bearer admin_user) "id-7" "{}" (world db))
  = Some (mkResponse 404 (BError "Gallery item not found"))
  /\ response (adminRoute Videos Delete (bearer admin_user) "id-1" "" (world db))
     = Some (mkResponse 204 BEmpty).
Proof.
  intros db.
  pose proof (@admin_mutation_outcomes demoLibs Db memStorage Gallery
                (bearer admin_user) "id-7" "{}" (world db)
                (claims_of admin_user) admin_user db
                eq_refl eq_refl eq_refl eq_refl) as Hg.
  pose proof (@admin_mutation_outcomes demoLibs Db memStorage Videos
                (bearer admin_user) "id-1" "" (world db)
                (claims_of admin_user) admin_user db
                eq_refl eq_refl eq_refl eq_refl) as Hv.
  cbv zeta in Hg, Hv.
  destruct Hg as (_ & Hg & _). destruct Hv as (_ & _ & Hv).
  split; [rewrite Hg | rewrite Hv]; vm_compute; reflexivity.
Defined.

(** X16.  Over any storage layer and libraries, on each of the twelve
    admin routes: a request without a bearer header, or whose token fails
    verification, or whose token verifies to an id that is not the id of a
    stored user with role 'admin', is answered 401, 403 or 500, and the
    storage mutation is not called. *)
Theorem refused_admin_request_never_mutates :
  forall (L : Libs) (St : Type) (S : Storage St) (c : Collection)
         (m : Mutation) (h : option string) (paramsId reqBody : string)
         (w : World St),
    no_bearer h = true
    \/ verified_claims h (clock w) = None
    \/ (exists cl u s', verified_claims h (clock w) = Some cl
                        /\ db_getUser (c_id cl) (store w) = (Ok u, s')
                        /\ not_admin u = true) ->
    exists r w',
      adminRoute c m h paramsId reqBody w = (Ok r, w')
      /\ (status r = 401 \/ status r = 403 \/ status r = 500)
      /\ existsb is_mutation (calls_since w w') = false.
Proof.
  intros L St S c m h paramsId reqBody w.
  apply adminRoute_refused_never_mutates.
Qed.

(** A request without a header, one with a bad token and one of an
    ordinary user, on the route that creates a video: 401, 500 and 403, and
    no mutation. *)
Lemma refused_admin_request_never_mutates_witness :
  let db := mkDb [ava_x] [] 1 in
  (exists r w',
     adminRoute Videos Create None "" "{}" (world db) = (Ok r, w')
     /\ (status r = 401 \/ status r = 403 \/ status r = 500)
     /\ existsb is_mutation (calls_since (world db) w') = false)
  /\ (exists r w',
        adminRoute Videos Create (bearer ava_x) "" "{}" (world db) = (Ok r, w')
        /\ (status r = 401 \/ status r = 403 \/ status r = 500)
        /\ existsb is_mutation (calls_since (world db) w') = false)
  /\ option_map status
       (response (adminRoute Videos Create (bearer ava_x) "" "{}" (world db)))
     = Some 403.
Proof.
  intros db. split; [|split].
  - apply (@refused_admin_request_never_mutates demoLibs Db memStorage).
    left. reflexivity.
  - apply (@refused_admin_request_never_mutates demoLibs Db memStorage).
    right. right. exists (claims_of ava_x), (Some ava_x), db.
    repeat split; vm_compute; reflexivity.
  - vm_compute; reflexivity.
Defined.

(* ===================================================================== *)
(** ** Storage exceptions in [register] and [login] *)
(* ===================================================================== *)

(** X17.  [register] and [login] have a single [try] around their whole
    body.  Over any storage layer: when the storage call that [login]
    makes, or any of the up to three storage calls that [register] makes,
    throws, the answer is 500 ("Error logging in", "Error creating
    user"). *)
Theorem register_and_login_answer_500_to_store_exceptions :
  forall (L : Libs) (St : Type) (S : Storage St) (req : RegisterBody)
         (lreq : LoginBody) (w : World St),
    complete req = true ->
    JS.truthy (lb_email lreq) = true ->
    JS.truthy (lb_password lreq) = true ->
    let e := JS.str (rb_email req) in
    let register_500 := Some (mkResponse 500 (BError "Error creating user")) in
    (* the lookup of [login] *)
    (forall x s1,
       db_getUserByEmail (JS.str (lb_email lreq)) (store w) = (Throw x, s1) ->
       response (login lreq w)
       = Some (mkResponse 500 (BError "Error logging in")))
    (* the lookup by address *)
    /\ (forall x s1,
          db_getUserByEmail e (store w) = (Throw x, s1) ->
          response (register req w) = register_500)
    (* the lookup by username *)
    /\ (forall x s1 s2,
          db_getUserByEmail e (store w) = (Ok None, s1) ->
          JS.truthy (rb_username req) = true ->
          db_getUserByUsername (JS.str (rb_username req)) s1 = (Throw x, s2) ->
          response (register req w) = register_500)
    (* the insert *)
    /\ (forall x s1 s2 s3 nu,
          db_getUserByEmail e (store w) = (Ok None, s1) ->
          (if JS.truthy (rb_username req)
           then db_getUserByUsername (JS.str (rb_username req)) s1 = (Ok None, s2)
           else s2 = s1) ->
          nu = newUser (JS.str (rb_name req)) e
                 (JS.or_else (rb_username req) (local_part e))
                 (bcrypt_digest (JS.str (rb_password req))
                    (bcrypt_salt 10 (entropy w))) ->
          db_createUser nu s2 = (Throw x, s3) ->
          response (register req w) = register_500).
Proof.
  intros L St S req lreq w Hc Hle Hlp e register_500.
  unfold complete in Hc.
  apply andb_prop in Hc as [Hc Hp]. apply andb_prop in Hc as [Hn He].
  split; [|split; [|split]].
  - intros x s1 Hdb. exact (login_lookup_exception lreq w Hle Hlp Hdb).
  - intros x s1 Hdb. unfold register. rewrite Hn, He, Hp. open_calls.
    fold e. rewrite Hdb. reflexivity.
  - intros x s1 s2 Hdb Hu Hname. unfold register. rewrite Hn, He, Hp, Hu.
    open_calls. fold e. rewrite Hdb. open_calls. rewrite Hname. reflexivity.
  - intros x s1 s2 s3 nu Hdb Hname -> Hcreate. unfold register.
    rewrite Hn, He, Hp. open_calls. fold e. rewrite Hdb.
    destruct (JS.truthy (rb_username req)); open_calls.
    + rewrite Hname. open_calls. fold e. unfold local_part in Hcreate.
      rewrite Hcreate. reflexivity.
    + subst s2. fold e. unfold local_part in Hcreate.
      rewrite Hcreate. reflexivity.
Qed.

(** Ann registers while the database connection is lost, and while the
    username derived from her address is taken. *)
Lemma register_and_login_answer_500_to_store_exceptions_witness :
  let req := mkRegisterBody (Some "Ann") (Some "ava@y.com") (Some "pw") None in
  complete req = true
  /\ response (register req (world ([true], ava_db)))
     = Some (mkResponse 500 (BError "Error creating user"))
  /\ response (register req (world ava_db))
     = Some (mkResponse 500 (BError "Error creating user")).
Proof.
  intros req.
  pose proof (@register_and_login_answer_500_to_store_exceptions demoLibs
                (list bool * Db) (flakyStorage memStorage) req
                (mkLoginBody (Some "a") (Some "b")) (world ([true], ava_db))
                eq_refl eq_refl eq_refl) as H1.
  pose proof (@register_and_login_answer_500_to_store_exceptions demoLibs
                Db memStorage req
                (mkLoginBody (Some "a") (Some "b")) (world ava_db)
                eq_refl eq_refl eq_refl) as H2.
  cbv zeta in H1, H2.
  destruct H1 as (_ & H1 & _). destruct H2 as (_ & _ & _ & H2).
  split; [reflexivity|]. split.
  - apply (H1 (StoreError "connection lost") ([], ava_db)).
    vm_compute; reflexivity.
  - apply (H2 (StoreError "duplicate key: username") ava_db ava_db ava_db
              (newUser "Ann" "ava@y.com" "ava" "$2a$10$pw"));
      vm_compute; reflexivity.
Defined.

(* ===================================================================== *)
(** ** The password of an account made from a Google token *)
(* ===================================================================== *)

Section GooglePassword.

Context {L : Libs}.

(** A Google handler on a token that the library verifies and that has an
    e-mail address answers what its tail answers on the verified payload,
    when the tail does not throw. *)
Lemma google_handler_run_verified {St} {S : Storage St} (k : GoogleRoute)
      (tok : string) (w w' : World St) (p : TokenPayload) (resp : Response) :
  tok <> "" ->
  google_certs_check tok (clock w) = Some p ->
  JS.truthy (p_email p) = true ->
  google_tail k (sub_or_random p) p (called (CVerifyIdToken tok None) w)
  = (Ok resp, w') ->
  google_handler k (mkGoogleBody (Some tok)) w = (Ok resp, w').
Proof.
  intros Htok Hsig Hmail Htail.
  assert (Htruthy : JS.truthy (Some tok) = true).
  { simpl. apply negb_true_iff. now apply String.eqb_neq. }
  destruct k; cbn [google_handler google_tail] in *;
    unfold googleLogin, registerWithGoogle, googleLogin_primary,
      registerWithGoogle_primary;
    cbv zeta; cbn [gb_token]; rewrite Htruthy; cbn [negb JS.str];
    unfold try_catch at 1 2, bind at 1;
    rewrite verify_primary_run, Hsig;
    cbn [getPayload]; rewrite Hmail; cbn [negb];
    rewrite Htail; reflexivity.
Qed.

(** The record either Google handler creates on the database for a
    verified payload with a subject, when the address is new and the
    derived username is free. *)
Lemma google_tail_creates (k : GoogleRoute) (p : TokenPayload) (w : World Db) :
  sub p <> "" ->
  let e := JS.str (p_email p) in
  let d := document (fresh_id (next_id (store w)))
             (newUser (JS.or_else (p_name p) "Google User") e (local_part e)
                (bcrypt_digest (sub p) (bcrypt_salt 10 (entropy w)))) in
  find (has_email e) (users (store w)) = None ->
  username_free (local_part e) (store w) = true ->
  exists tok w1,
    google_tail k (sub_or_random p) p w
    = (Ok (json (BAuth tok (withoutPassword d))), w1)
    /\ users (store w1) = (users (store w) ++ [d])%list
    /\ clock w1 = clock w.
Proof.
  intros Hsub e d Hfind Hfree.
  pose proof (find_none_existsb _ _ Hfind) as Hex.
  apply String.eqb_neq in Hsub.
  destruct k; cbn [google_tail]; unfold login_or_create, create_only;
    open_calls; open_db; fold e; rewrite Hfind, Hsub; open_calls; open_db;
    rewrite mem_createUser_accepts by assumption;
    open_calls; eexists _, _; (split; [reflexivity|]); cbn [store clock users];
    auto.
Qed.

End GooglePassword.

(** X18.  Over the database of the specification, for [googleLogin] and
    [registerWithGoogle] alike: when the library verifies a token whose
    payload has an e-mail address nobody has and a non-empty subject, and
    the username derived from the address is free, the account that is
    created has the hash of the subject as its password.  So a [login] with
    that address and the subject as password succeeds and returns the same
    user, provided the hasher verifies the subject against the digest it
    made of it and that digest is not the empty string. *)
Theorem google_account_opens_with_the_subject_as_password :
  forall (L : Libs) (k : GoogleRoute) (tok e : string) (w : World Db)
         (p : TokenPayload),
    tok <> "" ->
    google_certs_check tok (clock w) = Some p ->
    p_email p = Some e ->
    e <> "" ->
    sub p <> "" ->
    find (has_email e) (users (store w)) = None ->
    username_free (local_part e) (store w) = true ->
    let digest := bcrypt_digest (sub p) (bcrypt_salt 10 (entropy w)) in
    digest <> "" ->
    bcrypt_check (sub p) digest = true ->
    exists tok1 u w1 tok2 w2,
      google_handler k (mkGoogleBody (Some tok)) w
      = (Ok (json (BAuth tok1 u)), w1)
      /\ login (mkLoginBody (Some e) (Some (sub p))) w1
         = (Ok (json (BAuth tok2 u)), w2).
Proof.
  intros L k tok e w p Htok Hsig Hmail He Hsub Hfind Hfree digest Hne Hcheck.
  assert (Htr : JS.truthy (p_email p) = true).
  { rewrite Hmail. simpl. apply negb_true_iff. now apply String.eqb_neq. }
  assert (Hstr : JS.str (p_email p) = e) by (rewrite Hmail; reflexivity).
  destruct (@google_tail_creates L k p (called (CVerifyIdToken tok None) w) Hsub)
    as (tok1 & w1 & Htail & Hu & Hclk).
  { rewrite Hstr. exact Hfind. }
  { rewrite Hstr. exact Hfree. }
  rewrite Hstr in *. cbn [called store entropy] in *.
  set (d := document (fresh_id (next_id (store w)))
              (newUser (JS.or_else (p_name p) "Google User") e (local_part e)
                 digest)) in *.
  pose proof (@google_handler_run_verified L Db memStorage k tok w w1 p _
                Htok Hsig Htr Htail) as Hrun.
  assert (Hfind1 : find (has_email e) (users (store w1)) = Some d).
  { rewrite Hu, find_last, Hfind. unfold has_email, d.
    cbn [email document newUser iu_email]. now rewrite String.eqb_refl. }
  exists tok1, (withoutPassword d), w1.
  eexists _, _. split; [exact Hrun|].
  apply (@login_run_found L Db memStorage
           (mkLoginBody (Some e) (Some (sub p))) w1 d (store w1)).
  - simpl. apply negb_true_iff. now apply String.eqb_neq.
  - simpl. apply negb_true_iff. now apply String.eqb_neq.
  - cbn [db_getUserByEmail memStorage lb_email JS.str]. now rewrite Hfind1.
  - change (password d) with (Some digest). simpl.
    apply negb_true_iff. now apply String.eqb_neq.
  - exact Hcheck.
Qed.

(** The signed token creates Ava's account; its subject is "1001", and
    "1001" is then her password. *)
Lemma google_account_opens_with_the_subject_as_password_witness :
  let w1 := snd (googleLogin (mkGoogleBody (Some signed_token)) (world emptyDb)) in
  sub ava_payload = "1001"
  /\ option_map status
       (response (login (mkLoginBody (Some "ava@y.com") (Some "1001")) w1))
     = Some 200
  /\ exists tok1 u w1' tok2 w2,
       google_handler ViaGoogleLogin (mkGoogleBody (Some signed_token))
                      (world emptyDb)
       = (Ok (json (BAuth tok1 u)), w1')
       /\ login (mkLoginBody (Some "ava@y.com") (Some (sub ava_payload))) w1'
          = (Ok (json (BAuth tok2 u)), w2).
Proof.
  intros w1. split; [reflexivity|]. split; [vm_compute; reflexivity|].
  apply (@google_account_opens_with_the_subject_as_password demoLibs
           ViaGoogleLogin signed_token "ava@y.com" (world emptyDb) ava_payload).
  - intro H; discriminate H.
  - vm_compute; reflexivity.
  - reflexivity.
  - intro H; discriminate H.
  - intro H; discriminate H.
  - reflexivity.
  - vm_compute; reflexivity.
  - intro H; discriminate H.
  - vm_compute; reflexivity.
Defined.

(* ===================================================================== *)
(** ** What the fallback lets in *)
(* ===================================================================== *)

(** X19.  Over the database of the specification: [googleLogin] answers a
    token that the library does not verify, but that has three segments
    whose middle one decodes to the e-mail address of a stored record, with
    200 and a session token for that record.  The calls are the failed
    verification, the lookup and [jwt.sign]; the database is left as it
    was. *)
Theorem unverified_token_opens_a_stored_account :
  forall (L : Libs) (tok e : string) (w : World Db) (d : TokenPayload)
         (u : User),
    tok <> "" ->
    google_certs_check tok (clock w) = None ->
    decode_by_hand tok = Some d ->
    p_email d = Some e ->
    find (has_email e) (users (store w)) = Some u ->
    exists w',
      googleLogin (mkGoogleBody (Some tok)) w
      = (Ok (json (BAuth (jwt_encode (claims_of u) JWT_SECRET "7d" (clock w))
                         (withoutPassword u))),
         w')
      /\ store w' = store w
      /\ calls_since w w'
         = [CVerifyIdToken tok None; CGetUserByEmail e; CJwtSign (claims_of u)].
Proof.
  intros L tok e w d u Htok Hsig Hdec Hmail Hfind.
  assert (Hres : resolves_to tok (clock w) e).
  { exists (ByHand d). split; [|exact Hmail].
    unfold resolve. apply String.eqb_neq in Htok. rewrite Htok, Hsig, Hdec.
    reflexivity. }
  destruct (googleLogin_known _ Hres Hfind) as (tok0 & w' & Hrun & Hs & _ & Hcalls).
  assert (Hcontract := triple_run w
            (authRoute_contract (t := clock w)
               (PostGoogleLogin (mkGoogleBody (Some tok)))) Hrun).
  destruct Hcontract as (_ & _ & Hv).
  rewrite (Hv _ eq_refl tok0 (withoutPassword u) eq_refl) in Hrun.
  exists w'. split; [exact Hrun|]. split; assumption.
Qed.

(** The forged token and Ava's stored account. *)
Lemma unverified_token_opens_a_stored_account_witness :
  let db := mkDb [mkUser "id-0" (Some "ava") "Ava" "ava@y.com"
                         (Some "$2a$10$secret1") None RoleUser None [] []] [] 1 in
  @google_certs_check demoLibs forged_token 0 = None
  /\ exists w',
       googleLogin (mkGoogleBody (Some forged_token)) (world db)
       = (Ok (json (BAuth "id-0|Ava|ava@y.com|full-fuel-jwt-secret"
                      (mkUser "id-0" (Some "ava") "Ava" "ava@y.com" None None
                              RoleUser None [] []))),
          w')
       /\ store w' = db.
Proof.
  intros db.
  assert (H2 : @google_certs_check demoLibs forged_token 0 = None)
    by (vm_compute; reflexivity).
  split; [exact H2|].
  destruct (@unverified_token_opens_a_stored_account demoLibs forged_token
              "ava@y.com" (world db) ava_payload
              (mkUser "id-0" (Some "ava") "Ava" "ava@y.com"
                      (Some "$2a$10$secret1") None RoleUser None [] []))
    as (w' & Hrun & Hs & _).
  - intro H; discriminate H.
  - exact H2.
  - vm_compute; reflexivity.
  - reflexivity.
  - vm_compute; reflexivity.
  - exists w'. split; [|exact Hs].
    rewrite Hrun. vm_compute; reflexivity.
Defined.

(* ===================================================================== *)
(** ** The shopping cart *)
(* ===================================================================== *)

Section CartFacts.

Import Cart.

Context {N : Type} {Num : Cart.Number N}.

Lemma fold_left_last {A B} (f : A -> B -> A) (l : list B) (x : B) (a : A) :
  fold_left f (l ++ [x]) a = f (fold_left f l a) x.
Proof. now rewrite fold_left_app. Qed.

(** X20.  [addToCart] never merges lines: whatever the cart holds, also a
    line of the same product, the call makes the cart one line longer and
    gives the product one line more, the count grows by the quantity asked
    for and the total by the product's price times that quantity, and the
    drawer is open afterwards. *)
Theorem cart_add_appends_a_line :
  forall (now : nat) (p : Product) (q : N) (s : State),
    let s' := addToCart now p q s in
    length (cart s') = Datatypes.S (length (cart s))
    /\ length (lines_of (product_id p) (cart s'))
       = Datatypes.S (length (lines_of (product_id p) (cart s)))
    /\ cartCount (cart s') = plus (cartCount (cart s)) q
    /\ cartTotal (cart s') = plus (cartTotal (cart s)) (times (product_price p) q)
    /\ isCartOpen s' = true.
Proof.
  intros now p q s s'. subst s'. unfold addToCart, cartCount, cartTotal,
    lines_of. cbn [cart isCartOpen].
  rewrite !fold_left_last, filter_app, !length_app.
  cbn [filter item_product item_quantity product_price].
  rewrite String.eqb_refl. cbn [length].
  repeat split; auto using Nat.add_1_r.
Qed.

(** X21.  [removeFromCart] and [updateQuantity] work on every line of the
    product at once and on nothing else.  The lines of other products stay
    as they are and in their order.  Of the lines of the product itself,
    [removeFromCart] leaves none; [updateQuantity] with a quantity that is
    [<= 0] leaves none either; and with any other quantity it keeps them
    all and gives each of them that quantity. *)
Theorem cart_update_touches_one_product :
  forall (pid : string) (q : N) (s : State),
    let removed := removeFromCart pid s in
    let updated := updateQuantity pid q s in
    filter (other_product pid) (cart removed)
    = filter (other_product pid) (cart s)
    /\ lines_of pid (cart removed) = []
    /\ filter (other_product pid) (cart updated)
       = filter (other_product pid) (cart s)
    /\ lines_of pid (cart updated)
       = (if nonpositive q then []
          else map (fun item => with_quantity item q) (lines_of pid (cart s)))
    /\ isCartOpen removed = isCartOpen s
    /\ isCartOpen updated = isCartOpen s.
Proof.
  intros pid q s removed updated. subst removed updated.
  unfold updateQuantity, removeFromCart, lines_of, other_product.
  assert (Hrem1 : forall c : list (@CartItem N),
             filter (fun item => negb (product_id (item_product item) =? pid))
               (filter (fun item => negb (product_id (item_product item) =? pid)) c)
             = filter (fun item => negb (product_id (item_product item) =? pid)) c).
  { induction c as [|item c IH]; simpl; [reflexivity|].
    destruct (product_id (item_product item) =? pid) eqn:Hp; simpl;
      [exact IH | rewrite Hp; simpl; now rewrite IH]. }
  assert (Hrem2 : forall c : list (@CartItem N),
             filter (fun item => product_id (item_product item) =? pid)
               (filter (fun item => negb (product_id (item_product item) =? pid)) c)
             = []).
  { induction c as [|item c IH]; simpl; [reflexivity|].
    destruct (product_id (item_product item) =? pid) eqn:Hp; simpl;
      [exact IH | rewrite Hp; exact IH]. }
  destruct (nonpositive q); cbn [cart isCartOpen].
  - repeat split; auto.
  - repeat split; auto.
    + induction (cart s) as [|item c IH]; simpl; [reflexivity|].
      destruct (product_id (item_product item) =? pid) eqn:Hp; simpl.
      * rewrite Hp. simpl. exact IH.
      * rewrite Hp. simpl. now rewrite IH.
    + induction (cart s) as [|item c IH]; simpl; [reflexivity|].
      destruct (product_id (item_product item) =? pid) eqn:Hp; simpl.
      * rewrite Hp. simpl. now rewrite IH.
      * rewrite Hp. exact IH.
Qed.

End CartFacts.
